(** * Enpal dashboard: the refresh cache and the field-transform layer

    A shallow embedding of the Python sources

    - [enpal_data_fetcher.py] (class [EnpalDataFetcher]),
    - [Enpal-FoxESS/enpal_comprehensive_data_fetcher.py]
      (class [EnpalComprehensiveDataFetcher]),
    - [Enpal-FoxESS/enpal_api_server.py] (class [EnpalAPIServer]),
    - [enpal_comprehensive_api_server.py]
      (class [EnpalComprehensiveAPIServer]),

    followed by the properties of the specification that were checked
    against them.

    Python values are modelled as they are at run time: [int] is an
    unbounded integer ([Z]), [float] is an IEEE-754 binary64 number (Rocq's
    primitive [float], whose operations are the processor's), [str] is a
    string.  A Python expression either yields a value or raises; raising
    is the [Raise] constructor of [result]. *)

From Stdlib Require Import ZArith Lia Floats Uint63 Ascii String List Bool.
From stdpp Require Import base option list gmap strings.

Local Open Scope Z_scope.

(* ================================================================== *)
(** * Python run-time model *)
(* ================================================================== *)

(** ** Exceptions and results *)

Inductive exn : Type :=
  | TypeError
  | ValueError
  | KeyError
  | ZeroDivisionError
  | OverflowError.

Inductive result (A : Type) : Type :=
  | Ok (a : A)
  | Raise (e : exn).
Arguments Ok {A} a.
Arguments Raise {A} e.

(** Sequencing: an exception of the first computation propagates. *)
Definition bind {A B} (r : result A) (k : A → result B) : result B :=
  match r with
  | Ok a => k a
  | Raise e => Raise e
  end.

Notation "'let!' x ':=' r 'in' k" := (bind r (fun x => k))
  (at level 10, x name, r at level 100, k at level 200,
   format "'[v' 'let!'  x  ':='  r  'in' '/' k ']'").

Definition is_ok {A} (r : result A) : bool :=
  match r with Ok _ => true | Raise _ => false end.

(** ** Values *)

Inductive value : Type :=
  | PyInt (z : Z)
  | PyFloat (f : float)
  | PyStr (s : string).

(** A raw field map is the [dict] built by the parser: field name to
    scalar. *)
Abbreviation raw := (gmap string value).

(** A view is a [dict] literal of the transform layer, kept in source
    order. *)
Abbreviation view := (list (string * value)).

(** [d.get(k, default)] *)
Definition get (all_data : raw) (k : string) (default : value) : value :=
  match all_data !! k with
  | Some v => v
  | None => default
  end.

(** [d[k]] on a view *)
Fixpoint view_lookup (k : string) (d : view) : option value :=
  match d with
  | [] => None
  | (k', v) :: d' => if String.eqb k k' then Some v else view_lookup k d'
  end.

Definition item (d : view) (k : string) : result value :=
  match view_lookup k d with
  | Some v => Ok v
  | None => Raise KeyError
  end.

(** ** Binary64 helpers *)

(** The integer [z] rounded to the nearest binary64 number (ties to even). *)
Definition Z2SF (z : Z) : spec_float := binary_normalize prec emax z 0 false.

Definition SF_is_inf (x : spec_float) : bool :=
  match x with S754_infinity _ => true | _ => false end.

(** The decimal number [d * 10 ^ e10] ([d >= 0]) rounded to the nearest
    binary64 number: what C's correctly rounded [strtod] returns for the
    digits [d] and the decimal exponent [e10]. *)
Definition decimal_to_SF (d : Z) (e10 : Z) : spec_float :=
  match d with
  | Zpos p =>
      if 0 <=? e10 then Z2SF (d * 10 ^ e10)
      else SF64div (S754_finite false p 0)
                   (S754_finite false (Z.to_pos (10 ^ (- e10))) 0)
  | _ => S754_zero false
  end.

(** [a / b] for [0 < b], rounded to the nearest integer, ties to even. *)
Definition round_half_even_div (a b : Z) : Z :=
  let q := a / b in
  let r := a mod b in
  match 2 * r ?= b with
  | Lt => q
  | Gt => q + 1
  | Eq => if Z.even q then q else q + 1
  end.

(** [float.__round__(x, ndigits)] for [0 <= ndigits]: the exact value of
    [x] is rounded to [ndigits] decimals (ties to even, as [dtoa] mode 3
    does), and that decimal is converted back with [strtod]; the sign is
    kept.  NaN, infinities and zeros round to themselves. *)
Definition float_round (x : float) (ndigits : Z) : float :=
  match Prim2SF x with
  | S754_finite s m e =>
      let k := if 0 <=? e then Zpos m * 10 ^ ndigits * 2 ^ e
               else round_half_even_div (Zpos m * 10 ^ ndigits) (2 ^ (- e)) in
      let r := SF2Prim (decimal_to_SF k (- ndigits)) in
      if s then (- r)%float else r
  | _ => x
  end.

(** [PyLong_AsDouble]: exact up to 2^53, rounded to nearest above, and
    [OverflowError] when the integer is too large for a float. *)
Definition float_of_int (z : Z) : result float :=
  let r := Z2SF z in
  if SF_is_inf r then Raise OverflowError else Ok (SF2Prim r).

(** [int.__truediv__]: the correctly rounded quotient of two integers. *)
Definition int_true_divide (a b : Z) : result float :=
  if b =? 0 then Raise ZeroDivisionError
  else match a with
       | Z0 => Ok (if b <? 0 then (-0)%float else 0%float)
       | _ =>
           let r := SF64div (S754_finite (a <? 0) (Z.to_pos (Z.abs a)) 0)
                            (S754_finite (b <? 0) (Z.to_pos (Z.abs b)) 0) in
           if SF_is_inf r then Raise OverflowError else Ok (SF2Prim r)
       end.

(** [float.__truediv__] *)
Definition float_div (a b : float) : result float :=
  if (b =? 0)%float then Raise ZeroDivisionError else Ok (a / b)%float.

(** Exact comparison of a float with an integer, as [float_richcompare]
    does it (no rounding of the integer); [None] for NaN. *)
Definition float_cmp_int (x : float) (z : Z) : option comparison :=
  match Prim2SF x with
  | S754_nan => None
  | S754_infinity s => Some (if s then Lt else Gt)
  | S754_zero _ => Some (0 ?= z)
  | S754_finite s m e =>
      let v := if s then Zneg m else Zpos m in
      Some (if 0 <=? e then v * 2 ^ e ?= z else v ?= z * 2 ^ (- e))
  end.

(** ** Operators *)

Fixpoint string_repeat (s : string) (n : nat) : string :=
  match n with
  | O => EmptyString
  | S n' => (s +:+ string_repeat s n')%string
  end.

(** [v / w] *)
Definition py_truediv (v w : value) : result value :=
  match v, w with
  | PyInt a, PyInt b => let! q := int_true_divide a b in Ok (PyFloat q)
  | PyInt a, PyFloat b => let! x := float_of_int a in let! q := float_div x b in Ok (PyFloat q)
  | PyFloat a, PyInt b => let! y := float_of_int b in let! q := float_div a y in Ok (PyFloat q)
  | PyFloat a, PyFloat b => let! q := float_div a b in Ok (PyFloat q)
  | _, _ => Raise TypeError
  end.

(** [v * w]; a string times an integer is the repeated string. *)
Definition py_mul (v w : value) : result value :=
  match v, w with
  | PyInt a, PyInt b => Ok (PyInt (a * b))
  | PyInt a, PyFloat b => let! x := float_of_int a in Ok (PyFloat (x * b))
  | PyFloat a, PyInt b => let! y := float_of_int b in Ok (PyFloat (a * y))
  | PyFloat a, PyFloat b => Ok (PyFloat (a * b))
  | PyStr s, PyInt n | PyInt n, PyStr s => Ok (PyStr (string_repeat s (Z.to_nat n)))
  | _, _ => Raise TypeError
  end.

(** [v + w]; two strings are concatenated. *)
Definition py_add (v w : value) : result value :=
  match v, w with
  | PyInt a, PyInt b => Ok (PyInt (a + b))
  | PyInt a, PyFloat b => let! x := float_of_int a in Ok (PyFloat (x + b))
  | PyFloat a, PyInt b => let! y := float_of_int b in Ok (PyFloat (a + y))
  | PyFloat a, PyFloat b => Ok (PyFloat (a + b))
  | PyStr s, PyStr t => Ok (PyStr (s +:+ t))
  | _, _ => Raise TypeError
  end.

(** [v - w] *)
Definition py_sub (v w : value) : result value :=
  match v, w with
  | PyInt a, PyInt b => Ok (PyInt (a - b))
  | PyInt a, PyFloat b => let! x := float_of_int a in Ok (PyFloat (x - b))
  | PyFloat a, PyInt b => let! y := float_of_int b in Ok (PyFloat (a - y))
  | PyFloat a, PyFloat b => Ok (PyFloat (a - b))
  | _, _ => Raise TypeError
  end.

(** [v < w]; numbers are compared exactly, strings lexicographically, a
    string and a number are not ordered. *)
Definition py_lt (v w : value) : result bool :=
  match v, w with
  | PyInt a, PyInt b => Ok (a <? b)
  | PyFloat a, PyFloat b => Ok (a <? b)%float
  | PyFloat a, PyInt b =>
      Ok (match float_cmp_int a b with Some Lt => true | _ => false end)
  | PyInt a, PyFloat b =>
      Ok (match float_cmp_int b a with Some Gt => true | _ => false end)
  | PyStr s, PyStr t => Ok (String.ltb s t)
  | _, _ => Raise TypeError
  end.

(** [v > w] *)
Definition py_gt (v w : value) : result bool := py_lt w v.

(** [min(a, b)] keeps [a] unless [b < a]; [max(a, b)] keeps [a] unless
    [b > a]. *)
Definition py_min (a b : value) : result value :=
  let! c := py_lt b a in Ok (if c : bool then b else a).

Definition py_max (a b : value) : result value :=
  let! c := py_gt b a in Ok (if c : bool then b else a).

(** [round(v, ndigits)] for [0 <= ndigits]: an [int] is returned
    unchanged, a [float] is rounded, a [str] has no [__round__]. *)
Definition py_round (v : value) (ndigits : Z) : result value :=
  match v with
  | PyInt z => Ok (PyInt z)
  | PyFloat x => Ok (PyFloat (float_round x ndigits))
  | PyStr _ => Raise TypeError
  end.

(** [bool(v)] *)
Definition truthy (v : value) : bool :=
  match v with
  | PyInt z => negb (z =? 0)
  | PyFloat x => negb (x =? 0)%float
  | PyStr s => negb (String.eqb s EmptyString)
  end.

(** ** Expressions

    The transform layer is written as nested expressions; the combinators
    below evaluate the operands left to right and apply the operator, so
    that the first exception raised is the one that propagates. *)

Abbreviation expr := (result value).

(** A value is the expression that yields it. *)
Definition const (v : value) : expr := Ok v.
Coercion const : value >-> result.

Definition lift2 {C} (op : value → value → result C) (a b : expr) : result C :=
  let! x := a in let! y := b in op x y.

Declare Scope py_scope.
Delimit Scope py_scope with py.
Infix "/" := (lift2 py_truediv) : py_scope.
Infix "*" := (lift2 py_mul) : py_scope.
Infix "+" := (lift2 py_add) : py_scope.
Infix "-" := (lift2 py_sub) : py_scope.
Infix ">" := (lift2 py_gt) : py_scope.
Infix "<" := (lift2 py_lt) : py_scope.

Definition round_ (a : expr) (ndigits : Z) : expr :=
  let! x := a in py_round x ndigits.
Definition min_ (a b : expr) : expr := lift2 py_min a b.
Definition max_ (a b : expr) : expr := lift2 py_max a b.

(** [a and b] in a condition: [b] is evaluated only when [a] holds. *)
Definition and_ (a b : result bool) : result bool :=
  let! t := a in if t : bool then b else Ok false.

(** [a if c else b] *)
Definition if_else {C} (a : result C) (c : result bool) (b : result C) : result C :=
  let! t := c in if t : bool then a else b.

(** A [dict] literal: the items are evaluated in source order. *)
Fixpoint dict (items : list (string * expr)) : result view :=
  match items with
  | [] => Ok []
  | (k, e) :: items' => let! v := e in let! d := dict items' in Ok ((k, v) :: d)
  end.


(** ** Nested dictionaries

    The snapshots handed to [jsonify]: values, booleans, time stamps,
    error texts and dictionaries of these. *)

#[warnings="-register-all"]
Inductive pyobj : Type :=
  | OVal (v : value)
  | OBool (b : bool)
  | OTime (t : Z)      (** [datetime.now().isoformat()] at clock reading [t] *)
  | OError (e : exn)   (** [str(e)] of the exception [e] *)
  | ODict (d : list (string * pyobj)).

Abbreviation pydict := (list (string * pyobj)).

Definition of_view (d : view) : pyobj :=
  ODict (map (fun kv => (fst kv, OVal (snd kv))) d).

Definition of_raw (m : raw) : pyobj :=
  ODict (map (fun kv => (fst kv, OVal (snd kv))) (map_to_list m)).

Fixpoint dict_get (k : string) (d : pydict) : option pyobj :=
  match d with
  | [] => None
  | (k', o) :: d' => if String.eqb k k' then Some o else dict_get k d'
  end.

(** [bool(o)] *)
Definition obj_truthy (o : pyobj) : bool :=
  match o with
  | OVal v => truthy v
  | OBool b => b
  | OTime _ => true
  | OError _ => true
  | ODict d => match d with [] => false | _ :: _ => true end
  end.

(* ================================================================== *)
(** * Strings *)
(* ================================================================== *)

(** A Python [str] that is taken apart character by character is a list
    of characters; it becomes a [string] again where it is stored.  The
    characters are the code points below 256. *)
Abbreviation text := (list ascii).

Definition str (s : string) : text := list_ascii_of_string s.
Definition to_string (t : text) : string := string_of_list_ascii t.

(** [c.isspace()], which is also what [str.strip()] takes for white
    space: below 256 these are the code points 9 to 13, 28 to 32,
    133 (next line) and 160 (no-break space). *)
Definition isspace (c : ascii) : bool :=
  let n := nat_of_ascii c in
  ((9 <=? n)%nat && (n <=? 13)%nat) || ((28 <=? n)%nat && (n <=? 32)%nat)
  || (n =? 133)%nat || (n =? 160)%nat.

Definition isdigit (c : ascii) : bool :=
  let n := nat_of_ascii c in (48 <=? n)%nat && (n <=? 57)%nat.

Definition digit_value (c : ascii) : Z := Z.of_nat (nat_of_ascii c) - 48.

Definition lower (c : ascii) : ascii :=
  let n := nat_of_ascii c in
  if (65 <=? n)%nat && (n <=? 90)%nat then ascii_of_nat (n + 32) else c.

Fixpoint drop_while (p : ascii → bool) (t : text) : text :=
  match t with
  | c :: t' => if p c then drop_while p t' else t
  | [] => []
  end.

(** [s.lstrip()], [s.rstrip()], [s.strip()], [s.rstrip(chars)] *)
Definition lstrip (t : text) : text := drop_while isspace t.
Definition rstrip (t : text) : text := rev (drop_while isspace (rev t)).
Definition strip (t : text) : text := rstrip (lstrip t).
Definition rstrip_char (c : ascii) (t : text) : text :=
  rev (drop_while (Ascii.eqb c) (rev t)).

(** The white space that [int()] and [float()] skip around a number: the
    code points 9 to 13, 32, 133 and 160.  The separators 28 to 31, which
    [str.strip()] removes, are not skipped there. *)
Definition isspace_number (c : ascii) : bool :=
  let n := nat_of_ascii c in
  ((9 <=? n)%nat && (n <=? 13)%nat) || (n =? 32)%nat
  || (n =? 133)%nat || (n =? 160)%nat.

Definition strip_number (t : text) : text :=
  rev (drop_while isspace_number (rev (drop_while isspace_number t))).

(** [s.split(sep)] for a one-character separator *)
Fixpoint split (sep : ascii) (t : text) : list text :=
  match t with
  | [] => [[]]
  | c :: t' =>
      if Ascii.eqb c sep then [] :: split sep t'
      else match split sep t' with
           | w :: ws => (c :: w) :: ws
           | [] => [[c]]
           end
  end.

(** [s.startswith(prefix)] *)
Fixpoint startswith (t prefix : text) {struct prefix} : bool :=
  match prefix, t with
  | [], _ => true
  | p :: prefix', c :: t' => Ascii.eqb c p && startswith t' prefix'
  | _ :: _, [] => false
  end.

(** [c in s] *)
Definition contains (c : ascii) (t : text) : bool := existsb (Ascii.eqb c) t.

Definition text_eqb (a b : text) : bool := String.eqb (to_string a) (to_string b).

(** ** [int(s)] and [float(s)]

    Both accept surrounding white space, a sign, and single underscores
    between digits.  Below 256 the decimal digits are the ASCII digits.
    [int] (Python 3.11) refuses a text of more than 4300 digits. *)

(** The check that every underscore stands between two digits, which
    removes them ([_Py_string_to_number_with_underscores]). *)
Fixpoint remove_underscores (prev : ascii) (t : text) : option text :=
  match t with
  | [] => if Ascii.eqb prev "_" then None else Some []
  | c :: t' =>
      if Ascii.eqb c "_" then
        if isdigit prev then remove_underscores c t' else None
      else if Ascii.eqb prev "_" && negb (isdigit c) then None
      else cons c <$> remove_underscores c t'
  end.

Fixpoint span_digits (t : text) : text * text :=
  match t with
  | c :: t' =>
      if isdigit c then let '(ds, rest) := span_digits t' in (c :: ds, rest)
      else ([], t)
  | [] => ([], [])
  end.

Definition digits_value (ds : text) : Z :=
  fold_left (fun acc c => 10 * acc + digit_value c) ds 0.

Definition split_sign (t : text) : bool * text :=
  match t with
  | "-"%char :: t' => (true, t')
  | "+"%char :: t' => (false, t')
  | _ => (false, t)
  end.

(** [int(s)]: [None] stands for [ValueError].  The digits are counted
    without the sign and the underscores, leading zeros included
    ([sys.int_info.default_max_str_digits] is 4300). *)
Definition int_of_text (s : text) : option Z :=
  t ← remove_underscores "000" (strip_number s);
  let '(neg, body) := split_sign t in
  let '(ds, rest) := span_digits body in
  match ds, rest with
  | _ :: _, [] =>
      if 4300 <? Z.of_nat (length ds) then None
      else Some (if neg then - digits_value ds else digits_value ds)
  | _, _ => None
  end.

(** The optional exponent part of a decimal float: [None] when the text
    is not a well-formed exponent. *)
Definition exponent_of_text (t : text) : option Z :=
  match t with
  | [] => Some 0
  | c :: t' =>
      if Ascii.eqb (lower c) "e" then
        let '(neg, body) := split_sign t' in
        let '(ds, rest) := span_digits body in
        match ds, rest with
        | _ :: _, [] => Some (if neg then - digits_value ds else digits_value ds)
        | _, _ => None
        end
      else None
  end.

(** [float(s)]: [None] stands for [ValueError]. *)
Definition float_of_text (s : text) : option float :=
  t ← remove_underscores "000" (strip_number s);
  let '(neg, body) := split_sign t in
  let low := to_string (map lower body) in
  let signed (x : float) := if neg then (- x)%float else x in
  if String.eqb low "inf" || String.eqb low "infinity" then Some (signed infinity)
  else if String.eqb low "nan" then Some nan
  else
    let '(ip, rest) := span_digits body in
    let '(fp, rest') :=
      match rest with
      | "."%char :: r => span_digits r
      | _ => ([], rest)
      end in
    match ip ++ fp with
    | [] => None
    | ds =>
        e ← exponent_of_text rest';
        Some (signed (SF2Prim (decimal_to_SF (digits_value ds)
                                             (e - Z.of_nat (length fp)))))
    end.


(* ================================================================== *)
(** * [enpal_data_fetcher.py] *)
(* ================================================================== *)

Module EnpalDataFetcher.

Definition nonempty (t : text) : bool :=
  match t with [] => false | _ :: _ => true end.

(** The body of the [try] in [_parse_csv_response]: one value of a data
    line is coerced and stored; [ValueError] stores the raw string. *)
Definition store_value (field_name value_ : text) (result : raw) : raw :=
  if nonempty value_ && negb (text_eqb value_ (str "None")) then
    if contains "." value_ then
      match float_of_text value_ with
      | Some x => <[to_string field_name := PyFloat x]> result
      | None => <[to_string field_name := PyStr (to_string value_)]> result
      end
    else
      match int_of_text value_ with
      | Some z => <[to_string field_name := PyInt z]> result
      | None => <[to_string field_name := PyStr (to_string value_)]> result
      end
  else result.

(** [for i, field_name in enumerate(current_field_names)] *)
Fixpoint store_row (i : nat) (current_field_names values : list text)
                   (result : raw) : raw :=
  match current_field_names with
  | [] => result
  | field_name :: names' =>
      let result' :=
        match values !! i with
        | Some v =>
            if nonempty v && nonempty field_name
            then store_value field_name v result
            else result
        | None => result
        end in
      store_row (S i) names' values result'
  end.

(** One iteration of [for line in lines]; the state is [result] and
    [current_field_names]. *)
Definition parse_line (st : raw * list text) (line : text) : raw * list text :=
  let '(result, current_field_names) := st in
  if negb (nonempty line) || startswith line (str "#") then st
  else
    let parts := map strip (split "," line) in
    if startswith line (str ",result,table,") then
      (result, List.filter nonempty (drop 8 parts))
    else if startswith line (str ",_result,")
            && negb (Nat.eqb (length current_field_names) 0) then
      let values := if (8 <? length parts)%nat then drop 8 parts else [] in
      (store_row 0 current_field_names values result, current_field_names)
    else st.

Definition _parse_csv_response (csv_data : text) : raw :=
  if negb (nonempty csv_data) then ∅
  else
    let lines :=
      map (rstrip_char "013")
          (List.filter (fun line => nonempty (strip line))
                       (split "010" (strip csv_data))) in
    fst (fold_left parse_line lines (∅, [])).

(** [get_latest_all_data]: [csv_response] is what [_execute_flux_query]
    returned, [None] after a network failure. *)
Definition get_latest_all_data (csv_response : option text) : raw :=
  match csv_response with
  | Some csv => if nonempty csv then _parse_csv_response csv else ∅
  | None => ∅
  end.

(** In the transform functions below [all_data] is the raw field map
    that the first statement, [all_data = self.get_latest_all_data()],
    obtained. *)

Definition get_energy_flow_data (all_data : raw) : result view :=
  let! pv_power := (get all_data "Power.Production.Total" (PyInt 0) / PyInt 1000)%py in
  let! consumption_power := (get all_data "Power.Consumption.Total" (PyInt 0) / PyInt 1000)%py in
  let! battery_power := (get all_data "Power.Battery.Charge.Discharge" (PyInt 0) / PyInt 1000)%py in
  let! grid_power := (get all_data "Power.External.Total" (PyInt 0) / PyInt 1000)%py in
  dict [
    ("pv_power", round_ pv_power 2);
    ("consumption_power", round_ consumption_power 2);
    ("battery_power", round_ battery_power 2);
    ("grid_power", round_ grid_power 2)
  ].

Definition get_battery_data (all_data : raw) : result view :=
  let soc := get all_data "Energy.Battery.Charge.Level" (PyInt 0) in
  let temperature := get all_data "Temperature.Battery" (PyInt 20) in
  let voltage := get all_data "Voltage.Battery" (PyInt 0) in
  let current := get all_data "Current.Battery" (PyInt 0) in
  let capacity_ah := get all_data "Energy.Battery.Ah" (PyInt 0) in
  let soh := get all_data "Battery.SOH" (PyInt 100) in
  dict [
    ("soc", round_ soc 1);
    ("temperature", round_ temperature 1);
    ("voltage", round_ voltage 1);
    ("current", round_ current 1);
    ("capacity_ah", round_ capacity_ah 1);
    ("health", round_ soh 1)
  ].

(** The local [balance] of [get_string_data]. *)
Definition string_balance (string1_power string2_power : value) : expr :=
  if_else
    (round_ (min_ string1_power string2_power
             / max_ string1_power string2_power * PyInt 100)%py 1)
    (and_ (string1_power > PyInt 0)%py (string2_power > PyInt 0)%py)
    (PyInt 100).

Definition get_string_data (all_data : raw) : result view :=
  let! string1_power := (get all_data "Power.DC.String.1" (PyInt 0) / PyInt 1000)%py in
  let! string2_power := (get all_data "Power.DC.String.2" (PyInt 0) / PyInt 1000)%py in
  let string1_voltage := get all_data "Voltage.String.1" (PyInt 0) in
  let string2_voltage := get all_data "Voltage.String.2" (PyInt 0) in
  let string1_current := get all_data "Current.String.1" (PyInt 0) in
  let string2_current := get all_data "Current.String.2" (PyInt 0) in
  let! balance := string_balance string1_power string2_power in
  dict [
    ("string1_power", round_ string1_power 2);
    ("string2_power", round_ string2_power 2);
    ("string1_voltage", round_ string1_voltage 1);
    ("string2_voltage", round_ string2_voltage 1);
    ("string1_current", round_ string1_current 1);
    ("string2_current", round_ string2_current 1);
    ("balance_percentage", balance : expr)
  ].

Definition get_system_health_data (all_data : raw) : result view :=
  let inverter_temp := get all_data "Temperature.Housing.Inside" (PyInt 0) in
  let grid_frequency := get all_data "Frequency.Grid" (PyFloat 50) in
  let voltage_a := get all_data "Voltage.Phase.A" (PyInt 230) in
  let voltage_b := get all_data "Voltage.Phase.B" (PyInt 230) in
  let voltage_c := get all_data "Voltage.Phase.C" (PyInt 230) in
  let! grid_voltage := ((voltage_a + voltage_b + voltage_c) / PyInt 3)%py in
  let cpu_load := get all_data "Cpu.Load" (PyInt 0) in
  let memory_usage := get all_data "Memory.Usage" (PyInt 0) in
  dict [
    ("inverter_temp", round_ inverter_temp 1);
    ("grid_frequency", round_ grid_frequency 2);
    ("grid_voltage", round_ grid_voltage 1);
    ("cpu_load", round_ cpu_load 1);
    ("memory_usage", round_ memory_usage 1);
    ("system_uptime", PyInt 0 : expr)
  ].

(** The local [autarky] of [get_daily_summary]. *)
Definition daily_autarky (production_day consumption_day export_day : value) : expr :=
  let! c := (consumption_day > PyInt 0)%py in
  if c : bool then
    let! self_consumption := (production_day - export_day)%py in
    min_ (PyInt 100) (round_ (self_consumption / consumption_day * PyInt 100)%py 1)
  else PyInt 0.

Definition get_daily_summary (all_data : raw) : result view :=
  let production_day := get all_data "Energy.Production.Total.Day" (PyInt 0) in
  let consumption_day := get all_data "Energy.Consumption.Total.Day" (PyInt 0) in
  let export_day := get all_data "Energy.Grid.Export.Day" (PyInt 0) in
  let import_day := get all_data "Energy.Grid.Import.Day" (PyInt 0) in
  let! grid_export_day := (export_day - import_day)%py in
  let! autarky := daily_autarky production_day consumption_day export_day in
  dict [
    ("production_today", round_ production_day 2);
    ("consumption_today", round_ consumption_day 2);
    ("grid_export_today", round_ (max_ (PyInt 0) grid_export_day) 2);
    ("autarky_rate", max_ (PyInt 0) autarky)
  ].

(** What the five queries of one call of [get_complete_dashboard_data]
    returned, in call order. *)
Record responses : Type := {
  r_energy_flow : option text;
  r_battery : option text;
  r_strings : option text;
  r_system : option text;
  r_daily : option text
}.

(** The [try] block of [get_complete_dashboard_data]; [now] is the
    reading of [datetime.now()]. *)
#[warnings="-inexact-float"]
Definition dashboard_data (r : responses) (now : Z) : result pydict :=
  let! energy_flow := get_energy_flow_data (get_latest_all_data (r_energy_flow r)) in
  let! battery := get_battery_data (get_latest_all_data (r_battery r)) in
  let! strings := get_string_data (get_latest_all_data (r_strings r)) in
  let! system := get_system_health_data (get_latest_all_data (r_system r)) in
  let! daily := get_daily_summary (get_latest_all_data (r_daily r)) in
  let timestamp := OTime now in
  let data_age := PyInt 60 in
  let! total_string_power :=
    round_ (item strings "string1_power" + item strings "string2_power")%py 2 in
  let! string_balance := item strings "balance_percentage" in
  let! battery_capacity_kwh :=
    if_else (round_ (item battery "capacity_ah" * item battery "voltage"
                     / PyInt 1000)%py 1)
            (item battery "voltage" > PyInt 0)%py
            (PyFloat 12.4) in
  Ok [
    ("timestamp", timestamp);
    ("status", ODict [
       ("online", OBool true);
       ("data_age_seconds", OVal data_age);
       ("last_update", timestamp)
    ]);
    ("energy_flow", of_view energy_flow);
    ("battery", of_view battery);
    ("strings", of_view strings);
    ("system", of_view system);
    ("daily", of_view daily);
    ("calculated", ODict [
       ("total_string_power", OVal total_string_power);
       ("string_balance", OVal string_balance);
       ("battery_capacity_kwh", OVal battery_capacity_kwh)
    ])
  ].

(** [get_complete_dashboard_data]: any exception of the [try] block is
    turned into the offline dictionary. *)
Definition get_complete_dashboard_data (r : responses) (now : Z) : pydict :=
  match dashboard_data r now with
  | Ok d => d
  | Raise e => [
      ("timestamp", OTime now);
      ("status", ODict [("online", OBool false); ("error", OError e)]);
      ("energy_flow", ODict []);
      ("battery", ODict []);
      ("strings", ODict []);
      ("system", ODict []);
      ("daily", ODict []);
      ("calculated", ODict [])
    ]
  end.

End EnpalDataFetcher.


(* ================================================================== *)
(** * [Enpal-FoxESS/enpal_comprehensive_data_fetcher.py] *)
(* ================================================================== *)

Module EnpalComprehensiveDataFetcher.

(** The parser of this class is the one of [EnpalDataFetcher] without
    the logging; it is written out again as the source does. *)
Definition _parse_csv_response (csv_data : text) : raw :=
  if negb (EnpalDataFetcher.nonempty csv_data) then ∅
  else
    let lines :=
      map (rstrip_char "013")
          (List.filter (fun line => EnpalDataFetcher.nonempty (strip line))
                       (split "010" (strip csv_data))) in
    fst (fold_left EnpalDataFetcher.parse_line lines (∅, [])).

Definition get_all_raw_data (csv_response : option text) : raw :=
  match csv_response with
  | Some csv =>
      if EnpalDataFetcher.nonempty csv then _parse_csv_response csv else ∅
  | None => ∅
  end.

Definition get_power_comprehensive (all_data : raw) : result view :=
  dict [
    ("production_total", round_ (get all_data "Power.Production.Total" (PyInt 0) / PyInt 1000)%py 3);
    ("consumption_total", round_ (get all_data "Power.Consumption.Total" (PyInt 0) / PyInt 1000)%py 3);
    ("external_total", round_ (get all_data "Power.External.Total" (PyInt 0) / PyInt 1000)%py 3);
    ("house_total", round_ (get all_data "Power.House.Total" (PyInt 0) / PyInt 1000)%py 3);
    ("dc_string1", round_ (get all_data "Power.DC.String.1" (PyInt 0) / PyInt 1000)%py 3);
    ("dc_string2", round_ (get all_data "Power.DC.String.2" (PyInt 0) / PyInt 1000)%py 3);
    ("dc_total", round_ (get all_data "Power.DC.Total" (PyInt 0) / PyInt 1000)%py 3);
    ("ac_phase_a", round_ (get all_data "Power.AC.Phase.A" (PyInt 0) / PyInt 1000)%py 3);
    ("ac_phase_b", round_ (get all_data "Power.AC.Phase.B" (PyInt 0) / PyInt 1000)%py 3);
    ("ac_phase_c", round_ (get all_data "Power.AC.Phase.C" (PyInt 0) / PyInt 1000)%py 3);
    ("battery_charge_discharge", round_ (get all_data "Power.Battery.Charge.Discharge" (PyInt 0) / PyInt 1000)%py 3);
    ("battery_charge_discharge_set", round_ (get all_data "Power.Battery.Charge.Discharge.Set" (PyInt 0) / PyInt 1000)%py 3);
    ("battery_charge_max", round_ (get all_data "Power.Battery.Charge.Max" (PyInt 0) / PyInt 1000)%py 3);
    ("battery_discharge_max", round_ (get all_data "Power.Battery.Discharge.Max" (PyInt 0) / PyInt 1000)%py 3);
    ("storage_total", round_ (get all_data "Power.Storage.Total" (PyInt 0) / PyInt 1000)%py 3);
    ("grid_export", round_ (get all_data "Power.Grid.Export" (PyInt 0) / PyInt 1000)%py 3);
    ("power_factor", round_ (get all_data "Power.Factor" (PyInt 0)) 3);
    ("reactive_power", round_ (get all_data "Power.Reactive" (PyInt 0) / PyInt 1000)%py 3);
    ("wallbox_charging", round_ (get all_data "Power.Wallbox.Connector.1.Charging" (PyInt 0) / PyInt 1000)%py 3);
    ("wallbox_offered", round_ (get all_data "Power.Wallbox.Connector.1.Offered" (PyInt 0) / PyInt 1000)%py 3);
    ("wallbox_requested", round_ (get all_data "Power.Wallbox.Connector.1.Charging.Requested" (PyInt 0) / PyInt 1000)%py 3)
  ].

Definition get_energy_comprehensive (all_data : raw) : result view :=
  dict [
    ("battery_ah", round_ (get all_data "Energy.Battery.Ah" (PyInt 0)) 2);
    ("battery_charge_level", round_ (get all_data "Energy.Battery.Charge.Level" (PyInt 0)) 1);
    ("battery_charge_level_absolute", round_ (get all_data "Energy.Battery.Charge.Level.Absolute" (PyInt 0)) 1);
    ("battery_charge_load", get all_data "Energy.Battery.Charge.Load" (PyInt 0) : expr);
    ("storage_level", get all_data "Energy.Storage.Level" (PyInt 0) : expr);
    ("percent_storage_level", round_ (get all_data "Percent.Storage.Level" (PyInt 0)) 1);
    ("battery_charge_day", round_ (get all_data "Energy.Battery.Charge.Day" (PyInt 0)) 2);
    ("battery_discharge_day", round_ (get all_data "Energy.Battery.Discharge.Day" (PyInt 0)) 2);
    ("consumption_total_day", round_ (get all_data "Energy.Consumption.Total.Day" (PyInt 0)) 2);
    ("production_total_day", round_ (get all_data "Energy.Production.Total.Day" (PyInt 0)) 2);
    ("grid_export_day", round_ (get all_data "Energy.Grid.Export.Day" (PyInt 0)) 2);
    ("grid_import_day", round_ (get all_data "Energy.Grid.Import.Day" (PyInt 0)) 2);
    ("external_total_in_day", round_ (get all_data "Energy.External.Total.In.Day" (PyInt 0)) 2);
    ("external_total_out_day", round_ (get all_data "Energy.External.Total.Out.Day" (PyInt 0)) 2);
    ("storage_total_in_day", round_ (get all_data "Energy.Storage.Total.In.Day" (PyInt 0)) 2);
    ("storage_total_out_day", round_ (get all_data "Energy.Storage.Total.Out.Day" (PyInt 0)) 2);
    ("battery_charge_lifetime", round_ (get all_data "Energy.Battery.Charge.Lifetime" (PyInt 0)) 1);
    ("battery_discharge_lifetime", round_ (get all_data "Energy.Battery.Discharge.Lifetime" (PyInt 0)) 1);
    ("consumption_total_lifetime", round_ (get all_data "Energy.Consumption.Total.Lifetime" (PyInt 0)) 1);
    ("production_total_lifetime", round_ (get all_data "Energy.Production.Total.Lifetime" (PyInt 0)) 1);
    ("grid_export_lifetime", round_ (get all_data "Energy.Grid.Export.Lifetime" (PyInt 0)) 1);
    ("grid_import_lifetime", round_ (get all_data "Energy.Grid.Import.Lifetime" (PyInt 0)) 1);
    ("wallbox_charged_total", round_ (get all_data "Energy.Wallbox.Connector.1.Charged.Total" (PyInt 0)) 0)
  ].

Definition get_voltage_comprehensive (all_data : raw) : result view :=
  dict [
    ("battery", round_ (get all_data "Voltage.Battery" (PyInt 0)) 1);
    ("phase_a", round_ (get all_data "Voltage.Phase.A" (PyInt 0)) 1);
    ("phase_b", round_ (get all_data "Voltage.Phase.B" (PyInt 0)) 1);
    ("phase_c", round_ (get all_data "Voltage.Phase.C" (PyInt 0)) 1);
    ("phase_average", round_ ((get all_data "Voltage.Phase.A" (PyInt 0)
                               + get all_data "Voltage.Phase.B" (PyInt 0)
                               + get all_data "Voltage.Phase.C" (PyInt 0)) / PyInt 3)%py 1);
    ("string1", round_ (get all_data "Voltage.String.1" (PyInt 0)) 1);
    ("string2", round_ (get all_data "Voltage.String.2" (PyInt 0)) 1);
    ("wallbox_phase_a", round_ (get all_data "Voltage.Wallbox.Connector.1.Phase.A" (PyInt 0)) 1);
    ("wallbox_phase_b", round_ (get all_data "Voltage.Wallbox.Connector.1.Phase.B" (PyInt 0)) 1);
    ("wallbox_phase_c", round_ (get all_data "Voltage.Wallbox.Connector.1.Phase.C" (PyInt 0)) 1)
  ].

Definition get_current_comprehensive (all_data : raw) : result view :=
  dict [
    ("battery", round_ (get all_data "Current.Battery" (PyInt 0)) 2);
    ("string1", round_ (get all_data "Current.String.1" (PyInt 0)) 2);
    ("string2", round_ (get all_data "Current.String.2" (PyInt 0)) 2);
    ("wallbox_phase_a", round_ (get all_data "Current.Wallbox.Connector.1.Phase.A" (PyInt 0)) 2);
    ("wallbox_phase_b", round_ (get all_data "Current.Wallbox.Connector.1.Phase.B" (PyInt 0)) 2);
    ("wallbox_phase_c", round_ (get all_data "Current.Wallbox.Connector.1.Phase.C" (PyInt 0)) 2)
  ].

Definition get_temperature_comprehensive (all_data : raw) : result view :=
  dict [
    ("battery", round_ (get all_data "Temperature.Battery" (PyInt 0)) 1);
    ("housing_inside", round_ (get all_data "Temperature.Housing.Inside" (PyInt 0)) 1)
  ].

(** The three derived metrics of [get_battery_comprehensive]. *)
Definition battery_power_kw (voltage current : value) : expr :=
  if_else (round_ (voltage * current / PyInt 1000)%py 3)
          (Ok (truthy voltage && truthy current))
          (PyInt 0).

Definition battery_capacity_kwh (capacity_ah voltage : value) : expr :=
  if_else (round_ (capacity_ah * voltage / PyInt 1000)%py 1)
          (Ok (truthy capacity_ah && truthy voltage))
          (PyInt 0).

Definition battery_available_kwh (soc capacity_ah voltage : value) : expr :=
  if_else (round_ (soc * capacity_ah * voltage / PyInt 100000)%py 1)
          (Ok (forallb truthy [soc; capacity_ah; voltage]))
          (PyInt 0).

Definition get_battery_comprehensive (all_data : raw) : result view :=
  let soc := get all_data "Energy.Battery.Charge.Level" (PyInt 0) in
  let voltage := get all_data "Voltage.Battery" (PyInt 0) in
  let current := get all_data "Current.Battery" (PyInt 0) in
  let capacity_ah := get all_data "Energy.Battery.Ah" (PyInt 0) in
  let soh := get all_data "Battery.SOH" (PyInt 100) in
  dict [
    ("soc_percent", round_ soc 1);
    ("soh_percent", round_ soh 1);
    ("charge_level_max", get all_data "Battery.ChargeLevel.Max" (PyInt 100) : expr);
    ("charge_level_min", get all_data "Battery.ChargeLevel.Min" (PyInt 10) : expr);
    ("charge_level_min_on_grid", get all_data "Battery.ChargeLevel.MinOnGrid" (PyInt 10) : expr);
    ("voltage", round_ voltage 1);
    ("current", round_ current 2);
    ("capacity_ah", round_ capacity_ah 1);
    ("power_kw", battery_power_kw voltage current);
    ("capacity_kwh", battery_capacity_kwh capacity_ah voltage);
    ("available_kwh", battery_available_kwh soc capacity_ah voltage);
    ("temperature", round_ (get all_data "Temperature.Battery" (PyInt 0)) 1);
    ("charged_today_kwh", round_ (get all_data "Energy.Battery.Charge.Day" (PyInt 0)) 2);
    ("discharged_today_kwh", round_ (get all_data "Energy.Battery.Discharge.Day" (PyInt 0)) 2);
    ("charged_lifetime_mwh", round_ (get all_data "Energy.Battery.Charge.Lifetime" (PyInt 0)) 1);
    ("discharged_lifetime_mwh", round_ (get all_data "Energy.Battery.Discharge.Lifetime" (PyInt 0)) 1)
  ].

End EnpalComprehensiveDataFetcher.


(* ================================================================== *)
(** * [Enpal-FoxESS/enpal_api_server.py] *)
(* ================================================================== *)

Module EnpalAPIServer.

(** The mutable attributes of the server that the refresh loop and the
    handlers share. *)
Record state : Type := {
  cached_data : pydict;
  last_update : option Z;
  update_interval : Z
}.

(** [__init__] *)
Definition init : state :=
  {| cached_data := []; last_update := None; update_interval := 60 |}.

(** The environment of one call of [_update_data]: the answers to the
    five queries and the two clock readings. *)
Record cycle : Type := {
  answers : EnpalDataFetcher.responses;
  t_data : Z;
  t_update : Z
}.

(** [new_data.get('status', {}).get('online', False)] *)
Definition status_online (new_data : pydict) : bool :=
  match dict_get "status" new_data with
  | Some (ODict status) =>
      match dict_get "online" status with
      | Some o => obj_truthy o
      | None => false
      end
  | _ => false
  end.

Definition _update_data (st : state) (c : cycle) : state :=
  let new_data :=
    EnpalDataFetcher.get_complete_dashboard_data (answers c) (t_data c) in
  if obj_truthy (ODict new_data) && status_online new_data then
    {| cached_data := new_data;
       last_update := Some (t_update c);
       update_interval := update_interval st |}
  else st.

(** [_background_update]: one [_update_data] per period, here one per
    element of [cycles]. *)
Definition _background_update (cycles : list cycle) (st : state) : state :=
  fold_left _update_data cycles st.

(** [/api/health]: the [healthy] flag and the HTTP status. *)
Definition api_health (st : state) : bool * Z :=
  let healthy :=
    obj_truthy (ODict (cached_data st))
    && match last_update st with Some _ => true | None => false end in
  (healthy, if healthy then 200 else 503).

(** [/api/data]: the cache is filled on demand when it is empty. *)
Definition api_data (st : state) (c : cycle) : state * pydict :=
  let st' := if negb (obj_truthy (ODict (cached_data st)))
             then _update_data st c else st in
  (st', cached_data st').

End EnpalAPIServer.

(* ================================================================== *)
(** * [enpal_comprehensive_api_server.py] *)
(* ================================================================== *)

Module EnpalComprehensiveAPIServer.

Record state : Type := {
  cached_data : pydict;
  last_update : option Z;
  update_interval : Z
}.

Definition init : state :=
  {| cached_data := []; last_update := None; update_interval := 60 |}.

(** The answers to the seven queries of one [_update_data] and its
    clock readings. *)
Record cycle : Type := {
  r_power : option text;
  r_energy : option text;
  r_voltage : option text;
  r_current : option text;
  r_temperature : option text;
  r_battery : option text;
  r_raw : option text;
  t_timestamp : Z;
  t_metadata : Z;
  t_update : Z
}.

(** The [try] block of [_update_data]. *)
Definition snapshot (c : cycle) : result pydict :=
  let raw_of := EnpalComprehensiveDataFetcher.get_all_raw_data in
  let! power_data :=
    EnpalComprehensiveDataFetcher.get_power_comprehensive (raw_of (r_power c)) in
  let! energy_data :=
    EnpalComprehensiveDataFetcher.get_energy_comprehensive (raw_of (r_energy c)) in
  let! voltage_data :=
    EnpalComprehensiveDataFetcher.get_voltage_comprehensive (raw_of (r_voltage c)) in
  let! current_data :=
    EnpalComprehensiveDataFetcher.get_current_comprehensive (raw_of (r_current c)) in
  let! temperature_data :=
    EnpalComprehensiveDataFetcher.get_temperature_comprehensive (raw_of (r_temperature c)) in
  let! battery_data :=
    EnpalComprehensiveDataFetcher.get_battery_comprehensive (raw_of (r_battery c)) in
  let raw_data := raw_of (r_raw c) in
  Ok [
    ("timestamp", OTime (t_timestamp c));
    ("metadata", ODict [
       ("total_fields_captured", OVal (PyInt (Z.of_nat (size raw_data))));
       ("last_update", OTime (t_metadata c));
       ("system_online", OBool true)
    ]);
    ("power", of_view power_data);
    ("energy", of_view energy_data);
    ("voltage", of_view voltage_data);
    ("current", of_view current_data);
    ("temperature", of_view temperature_data);
    ("battery", of_view battery_data);
    ("raw_data", of_raw raw_data)
  ].

Definition _update_data (st : state) (c : cycle) : state :=
  match snapshot c with
  | Ok d =>
      {| cached_data := d;
         last_update := Some (t_update c);
         update_interval := update_interval st |}
  | Raise e =>
      {| cached_data := [
           ("timestamp", OTime (t_timestamp c));
           ("metadata", ODict [("system_online", OBool false); ("error", OError e)]);
           ("power", ODict []); ("energy", ODict []); ("voltage", ODict []);
           ("current", ODict []); ("temperature", ODict []);
           ("battery", ODict []); ("raw_data", ODict [])
         ];
         last_update := last_update st;
         update_interval := update_interval st |}
  end.

Definition _background_update (cycles : list cycle) (st : state) : state :=
  fold_left _update_data cycles st.

(** [/api/comprehensive]: the cache is filled on demand when it is
    empty. *)
Definition api_comprehensive (st : state) (c : cycle) : state * pydict :=
  let st' := if negb (obj_truthy (ODict (cached_data st)))
             then _update_data st c else st in
  (st', cached_data st').

(** [len(self.cached_data.get('raw_data', {})) if self.cached_data else 0]
    of [/api/status].  [_update_data] stores a dictionary under
    [raw_data]; the length of another kind of value is not modelled
    ([None]). *)
Definition total_fields_captured (st : state) : option nat :=
  if obj_truthy (ODict (cached_data st)) then
    match dict_get "raw_data" (cached_data st) with
    | Some (ODict raw_data) => Some (length raw_data)
    | Some _ => None
    | None => Some 0%nat
    end
  else Some 0%nat.

(** ['cached_data_available': bool(self.cached_data)] of [/api/status] *)
Definition cached_data_available (st : state) : bool :=
  obj_truthy (ODict (cached_data st)).

End EnpalComprehensiveAPIServer.

(* ================================================================== *)
(** * Vocabulary of the properties *)
(* ================================================================== *)

(** [sep.join(fields)] *)
Fixpoint join (sep : ascii) (fields : list text) : text :=
  match fields with
  | [] => []
  | [f] => f
  | f :: fields' => f ++ sep :: join sep fields'
  end.

(** The characters of [t] differ from [c]. *)
Definition free_of (c : ascii) (t : text) : Prop := contains c t = false.

(** A filler field of a line: no separator and no line break in it. *)
Definition plain (t : text) : Prop := free_of "," t /\ free_of "010" t.

(** A number whose magnitude, if it is an integer, is below [2^n]. *)
Definition bounded_by (n : Z) (v : value) : bool :=
  match v with
  | PyInt z => Z.abs z <? 2 ^ n
  | PyFloat _ => true
  | PyStr _ => false
  end.

(** The numbers the time-series store delivers: floats and integers of at
    most 64 bits with their sign. *)
Definition numeric (v : value) : bool := bounded_by 63 v.

(** Every field of [keys] that is present in [all_data] is numeric. *)
Definition numeric_fields (all_data : raw) (keys : list string) : bool :=
  forallb (fun k => match all_data !! k with
                    | Some v => numeric v
                    | None => true
                    end) keys.

(** [v < 0] and [0 <= v <= 100] for a number. *)
Definition negative (v : value) : bool :=
  match v with
  | PyInt z => z <? 0
  | PyFloat x => (x <? 0)%float
  | PyStr _ => false
  end.

Definition between_0_100 (v : value) : bool :=
  match v with
  | PyInt z => (0 <=? z) && (z <=? 100)
  | PyFloat x => (0 <=? x)%float && (x <=? 100)%float
  | PyStr _ => false
  end.

(** The item of a [dict] literal under key [k]. *)
Fixpoint literal_item (k : string) (items : list (string * expr)) : expr :=
  match items with
  | [] => Raise KeyError
  | (k', e) :: items' => if String.eqb k k' then e else literal_item k items'
  end.

(** The source fields of each view with the default written at the call
    site of [get]. *)
Module Defaults.

Definition energy_flow : list (string * value) := [
  ("Power.Production.Total", PyInt 0);
  ("Power.Consumption.Total", PyInt 0);
  ("Power.Battery.Charge.Discharge", PyInt 0);
  ("Power.External.Total", PyInt 0)
].

Definition battery : list (string * value) := [
  ("Energy.Battery.Charge.Level", PyInt 0);
  ("Temperature.Battery", PyInt 20);
  ("Voltage.Battery", PyInt 0);
  ("Current.Battery", PyInt 0);
  ("Energy.Battery.Ah", PyInt 0);
  ("Battery.SOH", PyInt 100)
].

Definition strings : list (string * value) := [
  ("Power.DC.String.1", PyInt 0);
  ("Power.DC.String.2", PyInt 0);
  ("Voltage.String.1", PyInt 0);
  ("Voltage.String.2", PyInt 0);
  ("Current.String.1", PyInt 0);
  ("Current.String.2", PyInt 0)
].

Definition system_health : list (string * value) := [
  ("Temperature.Housing.Inside", PyInt 0);
  ("Frequency.Grid", PyFloat 50);
  ("Voltage.Phase.A", PyInt 230);
  ("Voltage.Phase.B", PyInt 230);
  ("Voltage.Phase.C", PyInt 230);
  ("Cpu.Load", PyInt 0);
  ("Memory.Usage", PyInt 0)
].

Definition daily : list (string * value) := [
  ("Energy.Production.Total.Day", PyInt 0);
  ("Energy.Consumption.Total.Day", PyInt 0);
  ("Energy.Grid.Export.Day", PyInt 0);
  ("Energy.Grid.Import.Day", PyInt 0)
].

(** Output key and source field of the watt-denominated fields of the
    power view. *)
Definition watt_fields : list (string * string) := [
  ("production_total", "Power.Production.Total");
  ("consumption_total", "Power.Consumption.Total");
  ("external_total", "Power.External.Total");
  ("house_total", "Power.House.Total");
  ("dc_string1", "Power.DC.String.1");
  ("dc_string2", "Power.DC.String.2");
  ("dc_total", "Power.DC.Total");
  ("ac_phase_a", "Power.AC.Phase.A");
  ("ac_phase_b", "Power.AC.Phase.B");
  ("ac_phase_c", "Power.AC.Phase.C");
  ("battery_charge_discharge", "Power.Battery.Charge.Discharge");
  ("battery_charge_discharge_set", "Power.Battery.Charge.Discharge.Set");
  ("battery_charge_max", "Power.Battery.Charge.Max");
  ("battery_discharge_max", "Power.Battery.Discharge.Max");
  ("storage_total", "Power.Storage.Total");
  ("grid_export", "Power.Grid.Export");
  ("reactive_power", "Power.Reactive");
  ("wallbox_charging", "Power.Wallbox.Connector.1.Charging");
  ("wallbox_offered", "Power.Wallbox.Connector.1.Offered");
  ("wallbox_requested", "Power.Wallbox.Connector.1.Charging.Requested")
].

Definition power : list (string * value) :=
  map (fun kv => (snd kv, PyInt 0)) watt_fields ++ [("Power.Factor", PyInt 0)].

Definition energy : list (string * value) := [
  ("Energy.Battery.Ah", PyInt 0);
  ("Energy.Battery.Charge.Level", PyInt 0);
  ("Energy.Battery.Charge.Level.Absolute", PyInt 0);
  ("Energy.Battery.Charge.Load", PyInt 0);
  ("Energy.Storage.Level", PyInt 0);
  ("Percent.Storage.Level", PyInt 0);
  ("Energy.Battery.Charge.Day", PyInt 0);
  ("Energy.Battery.Discharge.Day", PyInt 0);
  ("Energy.Consumption.Total.Day", PyInt 0);
  ("Energy.Production.Total.Day", PyInt 0);
  ("Energy.Grid.Export.Day", PyInt 0);
  ("Energy.Grid.Import.Day", PyInt 0);
  ("Energy.External.Total.In.Day", PyInt 0);
  ("Energy.External.Total.Out.Day", PyInt 0);
  ("Energy.Storage.Total.In.Day", PyInt 0);
  ("Energy.Storage.Total.Out.Day", PyInt 0);
  ("Energy.Battery.Charge.Lifetime", PyInt 0);
  ("Energy.Battery.Discharge.Lifetime", PyInt 0);
  ("Energy.Consumption.Total.Lifetime", PyInt 0);
  ("Energy.Production.Total.Lifetime", PyInt 0);
  ("Energy.Grid.Export.Lifetime", PyInt 0);
  ("Energy.Grid.Import.Lifetime", PyInt 0);
  ("Energy.Wallbox.Connector.1.Charged.Total", PyInt 0)
].

Definition voltage : list (string * value) := [
  ("Voltage.Battery", PyInt 0);
  ("Voltage.Phase.A", PyInt 0);
  ("Voltage.Phase.B", PyInt 0);
  ("Voltage.Phase.C", PyInt 0);
  ("Voltage.String.1", PyInt 0);
  ("Voltage.String.2", PyInt 0);
  ("Voltage.Wallbox.Connector.1.Phase.A", PyInt 0);
  ("Voltage.Wallbox.Connector.1.Phase.B", PyInt 0);
  ("Voltage.Wallbox.Connector.1.Phase.C", PyInt 0)
].

Definition current : list (string * value) := [
  ("Current.Battery", PyInt 0);
  ("Current.String.1", PyInt 0);
  ("Current.String.2", PyInt 0);
  ("Current.Wallbox.Connector.1.Phase.A", PyInt 0);
  ("Current.Wallbox.Connector.1.Phase.B", PyInt 0);
  ("Current.Wallbox.Connector.1.Phase.C", PyInt 0)
].

Definition temperature : list (string * value) := [
  ("Temperature.Battery", PyInt 0);
  ("Temperature.Housing.Inside", PyInt 0)
].

Definition battery_comprehensive : list (string * value) := [
  ("Energy.Battery.Charge.Level", PyInt 0);
  ("Voltage.Battery", PyInt 0);
  ("Current.Battery", PyInt 0);
  ("Energy.Battery.Ah", PyInt 0);
  ("Battery.SOH", PyInt 100);
  ("Battery.ChargeLevel.Max", PyInt 100);
  ("Battery.ChargeLevel.Min", PyInt 10);
  ("Battery.ChargeLevel.MinOnGrid", PyInt 10);
  ("Temperature.Battery", PyInt 0);
  ("Energy.Battery.Charge.Day", PyInt 0);
  ("Energy.Battery.Discharge.Day", PyInt 0);
  ("Energy.Battery.Charge.Lifetime", PyInt 0);
  ("Energy.Battery.Discharge.Lifetime", PyInt 0)
].



End Defaults.

(** The roundings of the tenths [0.0, 0.1, ..., 100.0] stay in range. *)
Definition tenths_in_range : bool :=
  forallb (fun k => between_0_100 (PyFloat (SF2Prim (decimal_to_SF (Z.of_nat k) (-1)))))
          (seq 0 1001).

(** The sign-free shapes of a binary64 number. *)
Definition SF_nonneg (x : spec_float) : Prop :=
  match x with
  | S754_zero s | S754_infinity s | S754_finite s _ _ => s = false
  | S754_nan => True
  end.

(** [e] yields a number whose magnitude, if it is an integer, is below
    [2^n]. *)
Definition yields (n : Z) (e : expr) : Prop :=
  exists v, e = Ok v /\ bounded_by n v = true.

(** [e] yields a float. *)
Definition yields_float (e : expr) : Prop := exists x, e = Ok (PyFloat x).

(** Python's [min] and [max] of two floats, and [0 < x]. *)
Definition float_min (a b : float) : float := if (b <? a)%float then b else a.
Definition float_max (a b : float) : float := if (a <? b)%float then b else a.
Definition is_positive (x : float) : bool := (0 <? x)%float.

Import EnpalDataFetcher EnpalComprehensiveDataFetcher.

(** ** Inputs of the examples *)

(** The header line naming the fields [A] and [B] at positions 8 and 9,
    and the data line carrying [1] and [2.5] there; the other positions
    hold arbitrary fillers. *)
Definition header_AB (h3 h4 h5 h6 h7 : text) : text :=
  join "," [[]; str "result"; str "table"; h3; h4; h5; h6; h7; str "A"; str "B"].

Definition data_1_25 (d2 d3 d4 d5 d6 d7 : text) : text :=
  join "," [[]; str "_result"; d2; d3; d4; d5; d6; d7; str "1"; str "2.5"].

Definition no_answers : EnpalDataFetcher.responses :=
  {| r_energy_flow := None; r_battery := None; r_strings := None;
     r_system := None; r_daily := None |}.

(** A response of the store with two fields. *)
Definition sample_csv : text := str
",result,table,_start,_stop,_time,_measurement,device,Power.Production.Total,Energy.Battery.Charge.Level
,_result,0,2024-01-01T00:00:00Z,2024-01-01T00:05:00Z,2024-01-01T00:04:00Z,foxess,inverter,1500,80.5
".

Definition sample_answers : EnpalDataFetcher.responses :=
  {| r_energy_flow := Some sample_csv; r_battery := Some sample_csv;
     r_strings := Some sample_csv; r_system := Some sample_csv;
     r_daily := Some sample_csv |}.

(** The server after a first refresh that fetched [sample_csv]. *)
Definition st_fresh : EnpalAPIServer.state :=
  EnpalAPIServer._update_data EnpalAPIServer.init
    {| EnpalAPIServer.answers := sample_answers;
       EnpalAPIServer.t_data := 100; EnpalAPIServer.t_update := 101 |}.

(** A later cycle in which every query fails. *)
Definition failed_cycle : EnpalAPIServer.cycle :=
  {| EnpalAPIServer.answers := no_answers;
     EnpalAPIServer.t_data := 160; EnpalAPIServer.t_update := 161 |}.


(** The category functions of both fetchers with their source fields. *)
Definition category_functions : list ((raw -> result view) * list (string * value)) := [
  (get_energy_flow_data, Defaults.energy_flow);
  (get_battery_data, Defaults.battery);
  (get_string_data, Defaults.strings);
  (get_system_health_data, Defaults.system_health);
  (get_daily_summary, Defaults.daily);
  (get_power_comprehensive, Defaults.power);
  (get_energy_comprehensive, Defaults.energy);
  (get_voltage_comprehensive, Defaults.voltage);
  (get_current_comprehensive, Defaults.current);
  (get_temperature_comprehensive, Defaults.temperature);
  (get_battery_comprehensive, Defaults.battery_comprehensive)
].

Definition raw_1500 : raw := {[ "Power.Production.Total" := PyInt 1500 ]}.

Definition raw_v0_c5 : raw :=
  <[ "Voltage.Battery" := PyInt 0 ]> {[ "Current.Battery" := PyInt 5 ]}.

Definition raw_export_exceeds : raw :=
  <[ "Energy.Production.Total.Day" := PyInt 5 ]>
  (<[ "Energy.Grid.Export.Day" := PyInt 8 ]>
   {[ "Energy.Consumption.Total.Day" := PyInt 10 ]}).

Definition raw_third : raw :=
  <[ "Energy.Production.Total.Day" := PyInt 1 ]>
  {[ "Energy.Consumption.Total.Day" := PyInt 3 ]}.

Definition raw_import_exceeds : raw :=
  <[ "Energy.Grid.Export.Day" := PyInt 2 ]>
  {[ "Energy.Grid.Import.Day" := PyInt 5 ]}.

Definition raw_strings : raw :=
  <[ "Power.DC.String.1" := PyInt 1500 ]>
  {[ "Power.DC.String.2" := PyFloat 3000 ]}.

(** A binary64 number between zero and one, and between zero and a
    hundred ([100 = 7036874417766400 * 2^-46]). *)
Definition SF_unit (x : spec_float) : Prop :=
  x = S754_zero false
  \/ exists m e, x = S754_finite false m e /\ e <= 0 /\ Zpos m <= 2 ^ (0 - e).

Definition SF_percent (x : spec_float) : Prop :=
  x = S754_zero false
  \/ exists m e, x = S754_finite false m e /\ e <= -46
                 /\ Zpos m <= 7036874417766400 * 2 ^ (-46 - e).

Definition raw_overflow : raw :=
  <[ "Power.DC.String.1" := PyFloat infinity ]>
  {[ "Power.DC.String.2" := PyFloat infinity ]}.

(** A response whose two string powers overflow the float range. *)
Definition overflow_csv : text := str
",result,table,_start,_stop,_time,_measurement,device,Power.DC.String.1,Power.DC.String.2
,_result,0,a,b,c,foxess,inverter,1.0e999,1.0e999
".


(** ** Vocabulary of the further properties *)

(** [lines] of [_parse_csv_response]: the list comprehension
    [[line.rstrip('\r') for line in csv_data.strip().split('\n') if line.strip()]]. *)
Definition lines_of (csv_data : text) : list text :=
  map (rstrip_char "013")
      (List.filter (fun line => nonempty (strip line))
                   (split "010" (strip csv_data))).

(** [sep.join(fields)] for a separator of several characters. *)
Fixpoint join_text (sep : text) (fields : list text) : text :=
  match fields with
  | [] => []
  | [f] => f
  | f :: fields' => f ++ sep ++ join_text sep fields'
  end.

(** A line as the store sends it: no line feed in it, and it begins and
    ends with a character that is not white space. *)
Definition trimmed (l : text) : bool :=
  negb (contains "010" l)
  && match l with [] => false | a :: _ => negb (isspace a) end
  && match rev l with [] => false | c :: _ => negb (isspace c) end.

(** [line.startswith(',result,table,')] *)
Definition is_header (line : text) : bool := startswith line (str ",result,table,").

(** The cells of a line from position 8 on, stripped. *)
Definition cells (line : text) : list text := drop 8 (map strip (split "," line)).

(** What the parser stores for the cell [v]. *)
Definition coerce (v : text) : value :=
  if contains "." v then
    match float_of_text v with
    | Some x => PyFloat x
    | None => PyStr (to_string v)
    end
  else
    match int_of_text v with
    | Some z => PyInt z
    | None => PyStr (to_string v)
    end.

(** A cell that is stored: not empty and not the text [None]. *)
Definition storable (v : text) : bool :=
  nonempty v && negb (text_eqb v (str "None")).

(** The assignments [result[field_name] = ...] that the loop over
    [current_field_names] performs, in order. *)
Fixpoint updates (i : nat) (current_field_names values : list text)
  : list (string * value) :=
  match current_field_names with
  | [] => []
  | field_name :: names' =>
      match values !! i with
      | Some v =>
          if storable v && nonempty field_name
          then [(to_string field_name, coerce v)]
          else []
      | None => []
      end ++ updates (S i) names' values
  end.

(** A line without effect: not a header line, and either not a data line
    or a data line with no cell from position 8 on. *)
Definition ineffective (line : text) : bool :=
  negb (is_header line)
  && (negb (startswith line (str ",_result,"))
      || (length (split "," line) <=? 8)%nat).

(** The entry [k : x] is the cell [j] of a data line under the name [j]
    of a header line. *)
Definition from_cell (lines : list text) (k : string) (x : value) : Prop :=
  exists (header_line data_line : text) (j : nat) (n v : text),
    header_line ∈ lines /\ is_header header_line = true
    /\ data_line ∈ lines /\ is_header data_line = false
    /\ startswith data_line (str ",_result,") = true
    /\ List.filter nonempty (cells header_line) !! j = Some n
    /\ cells data_line !! j = Some v
    /\ storable v = true
    /\ k = to_string n /\ x = coerce v.

(** Every cell that [d1] stores is stored by [d2] as well. *)
Definition covers (d2 d1 : text) : Prop :=
  forall (j : nat) (v1 : text),
    cells d1 !! j = Some v1 -> storable v1 = true ->
    exists v2, cells d2 !! j = Some v2 /\ storable v2 = true.

(** A response: the lines [ls], each followed by [crs] and a line feed
    except the last one, which is followed by [ws]. *)
Definition response (crs : text) (ls : list text) (ws : text) : text :=
  join_text (crs ++ ["010"%char]) ls ++ ws.

(** [crs] are carriage returns, [ws] is white space and the lines are
    trimmed. *)
Definition well_formed (crs : text) (ls : list text) (ws : text) : Prop :=
  Forall (fun y => y = "013"%char) crs
  /\ Forall (fun l => trimmed l = true) ls
  /\ Forall (fun y => isspace y = true) ws.

Definition sample_header : text :=
  str ",result,table,_start,_stop,_time,_measurement,device,Power.Production.Total,Energy.Battery.Charge.Level".
Definition sample_row_1 : text :=
  str ",_result,0,2024-01-01T00:00:00Z,2024-01-01T00:05:00Z,2024-01-01T00:03:00Z,foxess,inverter,1400,80.0".
Definition sample_row_2 : text :=
  str ",_result,0,2024-01-01T00:00:00Z,2024-01-01T00:05:00Z,2024-01-01T00:04:00Z,foxess,inverter,1500,80.5".
Definition sample_annotation : text :=
  str "#datatype,string,long,dateTime:RFC3339,dateTime:RFC3339,dateTime:RFC3339,string,string,long,double".

(** The field [k] is present and holds a string: a cell that failed the
    numeric coercion. *)
Definition holds_string (all_data : raw) (k : string) : bool :=
  match all_data !! k with
  | Some (PyStr _) => true
  | _ => false
  end.

(** The views that round or divide every source field, with these
    fields. *)
Definition arithmetic_views : list ((raw -> result view) * list string) := [
  (get_energy_flow_data, map fst Defaults.energy_flow);
  (get_battery_data, map fst Defaults.battery);
  (get_string_data, map fst Defaults.strings);
  (get_system_health_data, map fst Defaults.system_health);
  (get_daily_summary, map fst Defaults.daily);
  (get_power_comprehensive, map fst Defaults.power);
  (get_voltage_comprehensive, map fst Defaults.voltage);
  (get_current_comprehensive, map fst Defaults.current);
  (get_temperature_comprehensive, map fst Defaults.temperature)
].

(** Some source field of one of the five views of the dashboard holds a
    string in the answer to the query of that view. *)
Definition string_in (r : responses) : bool :=
  existsb (holds_string (get_latest_all_data (r_energy_flow r))) (map fst Defaults.energy_flow)
  || existsb (holds_string (get_latest_all_data (r_battery r))) (map fst Defaults.battery)
  || existsb (holds_string (get_latest_all_data (r_strings r))) (map fst Defaults.strings)
  || existsb (holds_string (get_latest_all_data (r_system r))) (map fst Defaults.system_health)
  || existsb (holds_string (get_latest_all_data (r_daily r))) (map fst Defaults.daily).

(** A response in which the production cell is not a number. *)
Definition garbled_csv : text := str
",result,table,_start,_stop,_time,_measurement,device,Power.Production.Total,Energy.Battery.Charge.Level
,_result,0,2024-01-01T00:00:00Z,2024-01-01T00:05:00Z,2024-01-01T00:04:00Z,foxess,inverter,1.5.0,80.5
".

Definition garbled_cycle : EnpalAPIServer.cycle :=
  {| EnpalAPIServer.answers :=
       {| r_energy_flow := Some garbled_csv; r_battery := Some garbled_csv;
          r_strings := Some garbled_csv; r_system := Some garbled_csv;
          r_daily := Some garbled_csv |};
     EnpalAPIServer.t_data := 220; EnpalAPIServer.t_update := 221 |}.

(** [dashboard_data['calculated'][k]] *)
Definition calculated (d : pydict) (k : string) : option pyobj :=
  match dict_get "calculated" d with
  | Some (ODict c) => dict_get k c
  | _ => None
  end.

(** A response with a battery voltage that rounds to zero. *)
Definition low_voltage_csv : text := str
",result,table,_start,_stop,_time,_measurement,device,Voltage.Battery,Energy.Battery.Ah
,_result,0,2024-01-01T00:00:00Z,2024-01-01T00:05:00Z,2024-01-01T00:04:00Z,foxess,inverter,0.04,200
".


(** The refresh of the cycle [c] publishes. *)
Definition online (c : EnpalAPIServer.cycle) : bool :=
  EnpalAPIServer.status_online
    (get_complete_dashboard_data (EnpalAPIServer.answers c) (EnpalAPIServer.t_data c)).

(** The state in which the snapshot of the cycle [c] is published. *)
Definition published (st : EnpalAPIServer.state) (c : EnpalAPIServer.cycle)
  : EnpalAPIServer.state :=
  {| EnpalAPIServer.cached_data :=
       get_complete_dashboard_data (EnpalAPIServer.answers c) (EnpalAPIServer.t_data c);
     EnpalAPIServer.last_update := Some (EnpalAPIServer.t_update c);
     EnpalAPIServer.update_interval := EnpalAPIServer.update_interval st |}.

(** The snapshot of the cycle [c] of the comprehensive server is built. *)
Definition built (c : EnpalComprehensiveAPIServer.cycle) : bool :=
  is_ok (EnpalComprehensiveAPIServer.snapshot c).

(** The last element of [l] that satisfies [p]. *)
Definition last_such {A} (p : A -> bool) (l : list A) : option A := find p (rev l).

Definition sample_cycle : EnpalComprehensiveAPIServer.cycle :=
  {| EnpalComprehensiveAPIServer.r_power := Some sample_csv;
     EnpalComprehensiveAPIServer.r_energy := Some sample_csv;
     EnpalComprehensiveAPIServer.r_voltage := Some sample_csv;
     EnpalComprehensiveAPIServer.r_current := Some sample_csv;
     EnpalComprehensiveAPIServer.r_temperature := Some sample_csv;
     EnpalComprehensiveAPIServer.r_battery := Some sample_csv;
     EnpalComprehensiveAPIServer.r_raw := Some sample_csv;
     EnpalComprehensiveAPIServer.t_timestamp := 100;
     EnpalComprehensiveAPIServer.t_metadata := 101;
     EnpalComprehensiveAPIServer.t_update := 102 |}.

Definition garbled_comprehensive_cycle : EnpalComprehensiveAPIServer.cycle :=
  {| EnpalComprehensiveAPIServer.r_power := Some (str
",result,table,_start,_stop,_time,_measurement,device,Power.Production.Total
,_result,0,a,b,c,foxess,inverter,n/a
");
     EnpalComprehensiveAPIServer.r_energy := None;
     EnpalComprehensiveAPIServer.r_voltage := None;
     EnpalComprehensiveAPIServer.r_current := None;
     EnpalComprehensiveAPIServer.r_temperature := None;
     EnpalComprehensiveAPIServer.r_battery := None;
     EnpalComprehensiveAPIServer.r_raw := Some sample_csv;
     EnpalComprehensiveAPIServer.t_timestamp := 160;
     EnpalComprehensiveAPIServer.t_metadata := 161;
     EnpalComprehensiveAPIServer.t_update := 162 |}.

(** [math.isnan(x)] *)
Definition is_nan (x : float) : bool :=
  match Prim2SF x with S754_nan => true | _ => false end.

(** A specification float that is not NaN. *)
Definition SF_number (x : spec_float) : Prop := x <> S754_nan.

(* ================================================================== *)
(** * Binary64 rounding

    Facts about the rounding of [SpecFloat], the specification of the
    primitive floats, that the properties below rest on. *)
(* ================================================================== *)

Lemma digits2_pos_bounds (p : positive) :
  2 ^ (Zpos (digits2_pos p) - 1) <= Zpos p < 2 ^ Zpos (digits2_pos p).
Proof.
  induction p as [p IH | p IH |]; simpl digits2_pos.
  - rewrite Pos2Z.inj_succ.
    replace (Z.succ (Zpos (digits2_pos p)) - 1) with (Z.succ (Zpos (digits2_pos p) - 1)) by lia.
    rewrite !Z.pow_succ_r by lia. lia.
  - rewrite Pos2Z.inj_succ.
    replace (Z.succ (Zpos (digits2_pos p)) - 1) with (Z.succ (Zpos (digits2_pos p) - 1)) by lia.
    rewrite !Z.pow_succ_r by lia. lia.
  - simpl. lia.
Qed.

Lemma Zdigits2_nonneg m : 0 <= Zdigits2 m.
Proof. destruct m; simpl; lia. Qed.

Lemma Zdigits2_le (m t : Z) : 0 <= m -> 0 <= t -> m < 2 ^ t -> Zdigits2 m <= t.
Proof.
  intros Hm Ht Hlt. destruct m as [| p | p]; simpl; try lia.
  destruct (digits2_pos_bounds p) as [Hlo _].
  destruct (Z_le_gt_dec (Zpos (digits2_pos p)) t) as [|Hgt]; [assumption|].
  assert (2 ^ t <= 2 ^ (Zpos (digits2_pos p) - 1)) by (apply Z.pow_le_mono_r; lia).
  lia.
Qed.

Lemma shr_1_m mrs : 0 <= shr_m mrs -> shr_m (shr_1 mrs) = shr_m mrs / 2.
Proof.
  destruct mrs as [m r s]; simpl. intros Hm.
  destruct m as [| [p | p |] | p]; cbn [shr_m shr_1]; try lia; try reflexivity.
  - apply Z.div_unique with (r := 1); lia.
  - apply Z.div_unique with (r := 0); lia.
Qed.

Lemma shr_1_nonneg mrs : 0 <= shr_m mrs -> 0 <= shr_m (shr_1 mrs).
Proof. intros H. rewrite shr_1_m by assumption. apply Z.div_pos; lia. Qed.

Lemma iter_pos_shr_m (p : positive) : forall mrs,
  0 <= shr_m mrs ->
  shr_m (SpecFloat.iter_pos shr_1 p mrs) = shr_m mrs / 2 ^ Zpos p.
Proof.
  induction p as [p IH | p IH |]; intros mrs Hm; simpl SpecFloat.iter_pos.
  - assert (H1 := shr_1_nonneg _ Hm).
    assert (H2 : 0 <= shr_m (SpecFloat.iter_pos shr_1 p (shr_1 mrs))).
    { rewrite IH by assumption. apply Z.div_pos; [assumption | apply Z.pow_pos_nonneg; lia]. }
    rewrite IH by assumption. rewrite IH by assumption. rewrite shr_1_m by assumption.
    rewrite !Z.div_div by (try apply Z.pow_pos_nonneg; lia).
    f_equal.
    replace (Zpos p~1) with (1 + Zpos p + Zpos p) by lia.
    rewrite !Z.pow_add_r by lia. lia.
  - assert (H2 : 0 <= shr_m (SpecFloat.iter_pos shr_1 p mrs)).
    { rewrite IH by assumption. apply Z.div_pos; [assumption | apply Z.pow_pos_nonneg; lia]. }
    rewrite IH by assumption. rewrite IH by assumption.
    rewrite !Z.div_div by (try apply Z.pow_pos_nonneg; lia).
    f_equal.
    replace (Zpos p~0) with (Zpos p + Zpos p) by lia.
    rewrite !Z.pow_add_r by lia. lia.
  - apply shr_1_m; assumption.
Qed.

Lemma shr_spec mrs e n :
  0 <= shr_m mrs ->
  shr_m (fst (shr mrs e n)) = shr_m mrs / 2 ^ Z.max 0 n
  /\ snd (shr mrs e n) = e + Z.max 0 n.
Proof.
  intros Hm. destruct n as [| p | p]; simpl.
  - rewrite Z.div_1_r. lia.
  - rewrite iter_pos_shr_m by assumption. rewrite Z.max_r by lia. lia.
  - rewrite Z.div_1_r. lia.
Qed.

Lemma shr_record_of_loc_m m l : shr_m (shr_record_of_loc m l) = m.
Proof. destruct l as [| []]; reflexivity. Qed.

Lemma shr_fexp_spec m e l :
  0 <= m ->
  let n := Z.max 0 (fexp prec emax (Zdigits2 m + e) - e) in
  shr_m (fst (shr_fexp prec emax m e l)) = m / 2 ^ n
  /\ snd (shr_fexp prec emax m e l) = e + n.
Proof.
  intros Hm n. unfold shr_fexp.
  pose proof (shr_spec (shr_record_of_loc m l) e (fexp prec emax (Zdigits2 m + e) - e)) as H.
  rewrite shr_record_of_loc_m in H. apply H. assumption.
Qed.

Lemma round_nearest_even_bounds m l :
  m <= round_nearest_even m l <= m + 1.
Proof.
  destruct l as [| []]; simpl; try lia. destruct (Z.even m); lia.
Qed.

Lemma fexp_le (d E : Z) : d <= E + 53 -> -1074 <= E -> fexp prec emax d <= E.
Proof. unfold fexp, SpecFloat.emin, prec, emax. lia. Qed.

(** The rounded result stays below any bound of the binary64 grid that the
    truncated input is strictly below. *)
Lemma binary_round_aux_bound s m e l K E :
  0 <= m -> 0 < K < 2 ^ 53 -> -1074 <= E <= 971 -> e <= E ->
  m < K * 2 ^ (E - e) ->
  binary_round_aux prec emax s m e l = S754_zero s
  \/ exists m3 e3,
       binary_round_aux prec emax s m e l = S754_finite s m3 e3
       /\ e3 <= E /\ Zpos m3 <= K * 2 ^ (E - e3).
Proof.
  intros Hm HK HE He Hlt.
  unfold binary_round_aux.
  destruct (shr_fexp_spec m e l Hm) as [Hm1 He1].
  destruct (shr_fexp prec emax m e l) as [mrs1 e1]. simpl in Hm1, He1.
  set (n1 := Z.max 0 (fexp prec emax (Zdigits2 m + e) - e)) in *.
  assert (Hpow : forall a b, 0 <= a -> 0 <= b -> 2 ^ (a + b) = 2 ^ a * 2 ^ b)
    by (intros; apply Z.pow_add_r; lia).
  assert (Hpos : forall a, 0 <= a -> 0 < 2 ^ a) by (intros; apply Z.pow_pos_nonneg; lia).
  (* the first exponent stays below E *)
  assert (Hd : Zdigits2 m + e <= E + 53).
  { assert (Zdigits2 m <= 53 + (E - e)); [|lia].
    apply Zdigits2_le; [lia | lia |].
    rewrite Hpow by lia. pose proof (Hpos (E - e)). nia. }
  assert (Hn1 : 0 <= n1 /\ e + n1 <= E).
  { unfold n1. pose proof (fexp_le (Zdigits2 m + e) E Hd). lia. }
  assert (Hm1lt : shr_m mrs1 < K * 2 ^ (E - e1)).
  { rewrite Hm1. apply Z.div_lt_upper_bound; [apply Hpos; lia|].
    replace (E - e) with (n1 + (E - e1)) in Hlt by lia.
    rewrite Hpow in Hlt by lia. lia. }
  assert (Hm1pos : 0 <= shr_m mrs1).
  { rewrite Hm1. apply Z.div_pos; [lia | apply Hpos; lia]. }
  pose proof (round_nearest_even_bounds (shr_m mrs1) (loc_of_shr_record mrs1)) as Hr.
  set (m2 := round_nearest_even (shr_m mrs1) (loc_of_shr_record mrs1)) in *.
  assert (Hm2 : 0 <= m2) by lia.
  destruct (shr_fexp_spec m2 e1 loc_Exact Hm2) as [Hm3 He3].
  destruct (shr_fexp prec emax m2 e1 loc_Exact) as [mrs3 e3]. simpl in Hm3, He3.
  set (n2 := Z.max 0 (fexp prec emax (Zdigits2 m2 + e1) - e1)) in *.
  assert (Hd2 : Zdigits2 m2 + e1 <= E + 53).
  { assert (Zdigits2 m2 <= 53 + (E - e1)); [|lia].
    apply Zdigits2_le; [lia | lia |].
    rewrite Hpow by lia. pose proof (Hpos (E - e1)). nia. }
  assert (Hn2 : 0 <= n2 /\ e1 + n2 <= E).
  { unfold n2. pose proof (fexp_le (Zdigits2 m2 + e1) E Hd2). lia. }
  assert (Hm3le : shr_m mrs3 <= K * 2 ^ (E - e3)).
  { rewrite Hm3.
    replace (E - e1) with (n2 + (E - e3)) in Hm1lt by lia.
    rewrite Hpow in Hm1lt by lia.
    assert (m2 <= (K * 2 ^ (E - e3)) * 2 ^ n2) by lia.
    apply Z.div_le_upper_bound; [apply Hpos; lia | lia]. }
  assert (Hm3pos : 0 <= shr_m mrs3).
  { rewrite Hm3. apply Z.div_pos; [lia | apply Hpos; lia]. }
  destruct (shr_m mrs3) as [| p | p] eqn:Hp; [left; reflexivity | | lia].
  right. exists p, e3.
  assert (Hle : (e3 <=? emax - prec) = true) by (apply Z.leb_le; unfold emax, prec; lia).
  rewrite Hle. split; [reflexivity | split; [lia | assumption]].
Qed.

(** ** Consequences for the conversions *)

Lemma pos_iter_xO (d : positive) (m : positive) :
  Zpos (Pos.iter xO m d) = Zpos m * 2 ^ Zpos d.
Proof.
  revert m. induction d as [| d IH] using Pos.peano_ind; intros m.
  - simpl. lia.
  - rewrite Pos.iter_succ. rewrite Pos2Z.inj_xO, IH, Pos2Z.inj_succ.
    rewrite Z.pow_succ_r by lia. lia.
Qed.

Lemma shl_align_spec (m : positive) (e e' : Z) :
  let '(mz, ez) := shl_align m e e' in
  ez = Z.min e e' /\ Zpos mz = Zpos m * 2 ^ (e - ez).
Proof.
  unfold shl_align. destruct (e' - e) as [| d | d] eqn:Hd.
  - split; [lia|]. replace (e - e) with 0 by lia. simpl. lia.
  - split; [lia|]. replace (e - e) with 0 by lia. simpl. lia.
  - split; [lia|]. rewrite pos_iter_xO. f_equal. f_equal. lia.
Qed.

(** Rounding an integer below [2^1023] never overflows. *)
Lemma binary_normalize_bound (z : Z) (sz : bool) :
  Z.abs z < 2 ^ 1023 ->
  match binary_normalize prec emax z 0 sz with
  | S754_zero _ => True
  | S754_finite s m e => s = (z <? 0) /\ e <= 971 /\ Zpos m <= 2 ^ 52 * 2 ^ (971 - e)
  | _ => False
  end.
Proof.
  intros Hz.
  assert (Haux : forall (s : bool) (p : positive), Zpos p < 2 ^ 1023 ->
    match binary_round prec emax s p 0 with
    | S754_zero _ => True
    | S754_finite s' m e => s' = s /\ e <= 971 /\ Zpos m <= 2 ^ 52 * 2 ^ (971 - e)
    | _ => False
    end).
  { intros s p Hp. unfold binary_round.
    pose proof (shl_align_spec p 0 (fexp prec emax (Zpos (digits2_pos p) + 0))) as Hal.
    destruct (shl_align p 0 (fexp prec emax (Zpos (digits2_pos p) + 0))) as [mz ez].
    destruct Hal as [Hez Hmz].
    destruct (binary_round_aux_bound s (Zpos mz) ez loc_Exact (2 ^ 52) 971) as [H | (m3 & e3 & H & He3 & Hm3)].
    - lia.
    - split; [apply Z.pow_pos_nonneg; lia | apply Z.pow_lt_mono_r; lia].
    - lia.
    - lia.
    - rewrite Hmz. replace (971 - ez) with ((0 - ez) + 971) by lia.
      rewrite Z.pow_add_r by lia.
      assert (0 < 2 ^ (0 - ez)) by (apply Z.pow_pos_nonneg; lia).
      replace (2 ^ 1023) with (2 ^ 52 * 2 ^ 971) in Hp by (rewrite <- Z.pow_add_r by lia; reflexivity).
      nia.
    - rewrite H. exact I.
    - rewrite H. auto. }
  destruct z as [| p | p]; simpl binary_normalize.
  - exact I.
  - apply (Haux false p). lia.
  - apply (Haux true p). lia.
Qed.

(** The quotient computed by the division core. *)
Lemma SFdiv_core_binary_spec (m1 e1 m2 e2 : Z) :
  0 < m1 -> 0 < m2 ->
  let e' := Z.min (fexp prec emax (Zdigits2 m1 + e1 - (Zdigits2 m2 + e2))) (e1 - e2) in
  exists l,
    SFdiv_core_binary prec emax m1 e1 m2 e2 = (m1 * 2 ^ (e1 - e2 - e') / m2, e', l).
Proof.
  intros H1 H2 e'. unfold SFdiv_core_binary. fold e'.
  set (s := e1 - e2 - e').
  assert (Hs : 0 <= s) by (unfold s, e'; lia).
  assert (Hm' : match s with Zpos _ => Z.shiftl m1 s | Z0 => m1 | Zneg _ => 0 end = m1 * 2 ^ s).
  { destruct s as [| p | p] eqn:Es; [simpl; lia | | lia].
    rewrite Z.shiftl_mul_pow2 by lia. reflexivity. }
  rewrite Hm'. unfold Z.div.
  destruct (Z.div_eucl (m1 * 2 ^ s) m2) as [q r]. simpl. eexists. reflexivity.
Qed.

(** Dividing by at least one never overflows below [2^1023]. *)
Lemma SFdiv_int_bound (sa sb : bool) (a b : positive) :
  Zpos a < 2 ^ 1023 ->
  match SF64div (S754_finite sa a 0) (S754_finite sb b 0) with
  | S754_zero _ => True
  | S754_finite s m e => s = xorb sa sb /\ e <= 971 /\ Zpos m <= 2 ^ 52 * 2 ^ (971 - e)
  | _ => False
  end.
Proof.
  intros Ha. unfold SF64div, SFdiv.
  destruct (SFdiv_core_binary_spec (Zpos a) 0 (Zpos b) 0) as [l Hcore]; [lia | lia |].
  rewrite Hcore.
  set (e' := Z.min (fexp prec emax (Zdigits2 (Zpos a) + 0 - (Zdigits2 (Zpos b) + 0))) (0 - 0)) in *.
  assert (He' : e' <= 0) by (unfold e'; lia).
  set (q := Zpos a * 2 ^ (0 - 0 - e') / Zpos b).
  assert (Hp : 0 < 2 ^ (0 - 0 - e')) by (apply Z.pow_pos_nonneg; lia).
  assert (Hq : 0 <= q) by (apply Z.div_pos; nia).
  assert (Hqle : q <= Zpos a * 2 ^ (0 - 0 - e')).
  { unfold q. apply Z.div_le_upper_bound; nia. }
  destruct (binary_round_aux_bound (xorb sa sb) q e' l (2 ^ 52) 971) as [H | (m3 & e3 & H & He3 & Hm3)].
  - exact Hq.
  - split; [apply Z.pow_pos_nonneg; lia | apply Z.pow_lt_mono_r; lia].
  - lia.
  - lia.
  - replace (971 - e') with ((0 - 0 - e') + 971) by lia.
    rewrite Z.pow_add_r by lia.
    replace (2 ^ 1023) with (2 ^ 52 * 2 ^ 971) in Ha by (rewrite <- Z.pow_add_r by lia; reflexivity).
    nia.
  - rewrite H. exact I.
  - rewrite H. auto.
Qed.

(** ** Valid binary64 numbers and their order *)

Lemma bounded_spec (m : positive) (e : Z) :
  bounded prec emax m e = true ->
  -1074 <= e <= 971 /\ Zpos m < 2 ^ 53 /\ (e = -1074 \/ 2 ^ 52 <= Zpos m).
Proof.
  unfold bounded, canonical_mantissa, fexp, SpecFloat.emin, prec, emax.
  intros H. apply andb_true_iff in H. destruct H as [Hc He].
  apply Z.eqb_eq in Hc. apply Z.leb_le in He.
  destruct (digits2_pos_bounds m) as [Hlo Hhi].
  set (d := Zpos (digits2_pos m)) in *.
  assert (Hd : d <= 53) by lia.
  assert (2 ^ d <= 2 ^ 53) by (apply Z.pow_le_mono_r; lia).
  split; [lia | split; [lia |]].
  destruct (Z.eq_dec e (-1074)) as [|Hne]; [left; assumption | right].
  assert (d = 53) by lia. subst d. rewrite H0 in Hlo. exact Hlo.
Qed.

(** Positive valid numbers are ordered as their values, here scaled by
    [2^1074] to integers. *)
Lemma SFcompare_finite_pos (m1 : positive) (e1 : Z) (m2 : positive) (e2 : Z) :
  bounded prec emax m1 e1 = true -> bounded prec emax m2 e2 = true ->
  SFcompare (S754_finite false m1 e1) (S754_finite false m2 e2)
  = Some (Zpos m1 * 2 ^ (e1 + 1074) ?= Zpos m2 * 2 ^ (e2 + 1074)).
Proof.
  intros H1 H2.
  destruct (bounded_spec _ _ H1) as (He1 & Hm1 & Hn1).
  destruct (bounded_spec _ _ H2) as (He2 & Hm2 & Hn2).
  simpl SFcompare. f_equal.
  assert (Hp1 : 0 < 2 ^ (e1 + 1074)) by (apply Z.pow_pos_nonneg; lia).
  assert (Hp2 : 0 < 2 ^ (e2 + 1074)) by (apply Z.pow_pos_nonneg; lia).
  destruct (Z.compare_spec e1 e2) as [Heq | Hlt | Hgt].
  - subst e2. change (Pos.compare_cont Eq m1 m2) with (Zpos m1 ?= Zpos m2).
    apply Zmult_compare_compat_r. lia.
  - symmetry. apply Z.compare_lt_iff.
    destruct Hn2 as [Hn2 | Hn2]; [lia|].
    replace (e2 + 1074) with ((e2 - e1 - 1) + 1 + (e1 + 1074)) by lia.
    rewrite (Z.pow_add_r 2 (e2 - e1 - 1 + 1)), (Z.pow_add_r 2 (e2 - e1 - 1)) by lia.
    assert (0 < 2 ^ (e2 - e1 - 1)) by (apply Z.pow_pos_nonneg; lia).
    change (2 ^ 1) with 2. change (2 ^ 53) with (2 * 2 ^ 52) in Hm1.
    set (P := 2 ^ (e1 + 1074)) in *. set (Q := 2 ^ (e2 - e1 - 1)) in *.
    set (T := 2 ^ 52) in *.
    assert (Zpos m1 * P < 2 * T * P) by (apply Z.mul_lt_mono_pos_r; lia).
    assert (T * (2 * P) <= Zpos m2 * (2 * P)) by (apply Z.mul_le_mono_nonneg_r; lia).
    assert (Zpos m2 * (1 * (2 * P)) <= Zpos m2 * (Q * (2 * P))).
    { apply Z.mul_le_mono_nonneg_l; [lia|]. apply Z.mul_le_mono_nonneg_r; lia. }
    lia.
  - symmetry. apply Z.compare_gt_iff.
    destruct Hn1 as [Hn1 | Hn1]; [lia|].
    replace (e1 + 1074) with ((e1 - e2 - 1) + 1 + (e2 + 1074)) by lia.
    rewrite (Z.pow_add_r 2 (e1 - e2 - 1 + 1)), (Z.pow_add_r 2 (e1 - e2 - 1)) by lia.
    assert (0 < 2 ^ (e1 - e2 - 1)) by (apply Z.pow_pos_nonneg; lia).
    change (2 ^ 1) with 2. change (2 ^ 53) with (2 * 2 ^ 52) in Hm2.
    set (P := 2 ^ (e2 + 1074)) in *. set (Q := 2 ^ (e1 - e2 - 1)) in *.
    set (T := 2 ^ 52) in *.
    assert (Zpos m2 * P < 2 * T * P) by (apply Z.mul_lt_mono_pos_r; lia).
    assert (T * (2 * P) <= Zpos m1 * (2 * P)) by (apply Z.mul_le_mono_nonneg_r; lia).
    assert (Zpos m1 * (1 * (2 * P)) <= Zpos m1 * (Q * (2 * P))).
    { apply Z.mul_le_mono_nonneg_l; [lia|]. apply Z.mul_le_mono_nonneg_r; lia. }
    lia.
Qed.

(** The quotient of a smaller by a larger positive number is at most one. *)
Lemma SFdiv_le_one (m1 : positive) (e1 : Z) (m2 : positive) (e2 : Z) :
  bounded prec emax m1 e1 = true -> bounded prec emax m2 e2 = true ->
  Zpos m1 * 2 ^ (e1 + 1074) < Zpos m2 * 2 ^ (e2 + 1074) ->
  SF64div (S754_finite false m1 e1) (S754_finite false m2 e2) = S754_zero false
  \/ exists m3 e3,
       SF64div (S754_finite false m1 e1) (S754_finite false m2 e2)
       = S754_finite false m3 e3
       /\ e3 <= 0 /\ Zpos m3 <= 2 ^ (0 - e3).
Proof.
  intros H1 H2 Hlt.
  destruct (bounded_spec _ _ H1) as (He1 & Hm1 & _).
  destruct (bounded_spec _ _ H2) as (He2 & Hm2 & _).
  unfold SF64div, SFdiv.
  destruct (SFdiv_core_binary_spec (Zpos m1) e1 (Zpos m2) e2) as [l Hcore]; [lia | lia |].
  rewrite Hcore.
  set (e' := Z.min (fexp prec emax (Zdigits2 (Zpos m1) + e1 - (Zdigits2 (Zpos m2) + e2))) (e1 - e2)) in *.
  destruct (digits2_pos_bounds m1) as [Hlo1 _].
  destruct (digits2_pos_bounds m2) as [_ Hhi2].
  simpl Zdigits2 in e'.
  set (d1 := Zpos (digits2_pos m1)) in *. set (d2 := Zpos (digits2_pos m2)) in *.
  assert (Hd1 : 1 <= d1) by (unfold d1; lia).
  assert (Hd2 : 1 <= d2) by (unfold d2; lia).
  assert (Hdd : d1 + e1 - (d2 + e2) <= 0).
  { assert (Hpw : 2 ^ (d1 - 1 + (e1 + 1074)) < 2 ^ (d2 + (e2 + 1074))).
    { rewrite (Z.pow_add_r 2 (d1 - 1)), (Z.pow_add_r 2 d2) by lia.
      assert (HA : 0 < 2 ^ (e1 + 1074)) by (apply Z.pow_pos_nonneg; lia).
      assert (HB : 0 < 2 ^ (e2 + 1074)) by (apply Z.pow_pos_nonneg; lia).
      set (A := 2 ^ (e1 + 1074)) in *. set (B := 2 ^ (e2 + 1074)) in *.
      assert (2 ^ (d1 - 1) * A <= Zpos m1 * A) by (apply Z.mul_le_mono_nonneg_r; lia).
      assert (Zpos m2 * B < 2 ^ d2 * B) by (apply Z.mul_lt_mono_pos_r; lia).
      lia. }
    apply Z.pow_lt_mono_r_iff in Hpw; lia. }
  assert (He' : e' <= 0).
  { unfold e'. pose proof (fexp_le (d1 + e1 - (d2 + e2)) 0). lia. }
  assert (Hs : 0 <= e1 - e2 - e') by (unfold e'; lia).
  set (q := Zpos m1 * 2 ^ (e1 - e2 - e') / Zpos m2).
  assert (Hq : 0 <= q).
  { apply Z.div_pos; [|lia]. assert (0 < 2 ^ (e1 - e2 - e')) by (apply Z.pow_pos_nonneg; lia). nia. }
  assert (Hqlt : q < 1 * 2 ^ (0 - e')).
  { unfold q. apply Z.div_lt_upper_bound; [lia|].
    assert (Hc : 0 < 2 ^ (e2 + 1074)) by (apply Z.pow_pos_nonneg; lia).
    apply Z.mul_lt_mono_pos_r with (p := 2 ^ (e2 + 1074)); [exact Hc|].
    replace (Zpos m1 * 2 ^ (e1 - e2 - e') * 2 ^ (e2 + 1074))
      with (Zpos m1 * 2 ^ (e1 + 1074) * 2 ^ (0 - e')).
    2:{ rewrite <- !Z.mul_assoc, <- !Z.pow_add_r by lia. f_equal. f_equal. lia. }
    replace (Zpos m2 * (1 * 2 ^ (0 - e')) * 2 ^ (e2 + 1074))
      with (Zpos m2 * 2 ^ (e2 + 1074) * 2 ^ (0 - e')) by ring.
    apply Z.mul_lt_mono_pos_r; [apply Z.pow_pos_nonneg; lia | exact Hlt]. }
  destruct (binary_round_aux_bound (xorb false false) q e' l 1 0)
    as [H | (m3 & e3 & H & He3 & Hm3)]; try lia.
  - left. exact H.
  - right. exists m3, e3. split; [exact H | split; [lia | lia]].
Qed.

(** A number below one times a constant stays below the constant. *)
Lemma SFmul_below (m : positive) (e : Z) (mc : positive) (ec : Z) :
  Zpos mc < 2 ^ 53 -> -1074 <= ec <= 971 ->
  e <= 0 -> Zpos m < 2 ^ (0 - e) ->
  SF64mul (S754_finite false m e) (S754_finite false mc ec) = S754_zero false
  \/ exists m4 e4,
       SF64mul (S754_finite false m e) (S754_finite false mc ec)
       = S754_finite false m4 e4
       /\ e4 <= ec /\ Zpos m4 <= Zpos mc * 2 ^ (ec - e4).
Proof.
  intros Hmc Hec He Hm. unfold SF64mul, SFmul.
  destruct (binary_round_aux_bound (xorb false false) (Zpos (m * mc)) (e + ec)
              loc_Exact (Zpos mc) ec) as [H | (m4 & e4 & H & He4 & Hm4)]; try lia.
  - replace (ec - (e + ec)) with (0 - e) by lia. rewrite Pos2Z.inj_mul. nia.
  - left. exact H.
  - right. exists m4, e4. auto.
Qed.

Lemma valid_one (m : positive) (e : Z) :
  bounded prec emax m e = true -> e <= 0 -> Zpos m = 2 ^ (0 - e) ->
  m = (2 ^ 52)%positive /\ e = -52.
Proof.
  intros Hb He Hm. destruct (bounded_spec _ _ Hb) as (Hr & Hlt & Hn).
  rewrite Hm in Hlt, Hn.
  apply Z.pow_lt_mono_r_iff in Hlt; [|lia|lia].
  destruct Hn as [Hn | Hn]; [lia|].
  apply Z.pow_le_mono_r_iff in Hn; [|lia|lia].
  assert (e = -52) by lia. subst e. split; [|reflexivity].
  simpl in Hm. apply Pos2Z.inj. rewrite Hm. reflexivity.
Qed.

Lemma round_half_even_div_bounds (a b c : Z) :
  0 < b -> 0 <= a -> a <= c * b ->
  0 <= (let q := a / b in let r := a mod b in
        match 2 * r ?= b with Lt => q | Gt => q + 1 | Eq => if Z.even q then q else q + 1 end) <= c.
Proof.
  intros Hb Ha Hc. cbv zeta.
  pose proof (Z.div_mod a b ltac:(lia)) as Hdm.
  pose proof (Z.mod_pos_bound a b Hb) as Hr.
  assert (Hq : 0 <= a / b) by (apply Z.div_pos; lia).
  assert (Hqc : a / b <= c) by (apply Z.div_le_upper_bound; lia).
  assert (Hstrict : a mod b <> 0 -> a / b + 1 <= c) by nia.
  destruct (Z.compare_spec (2 * (a mod b)) b); try destruct (Z.even (a / b)); lia.
Qed.

(* ================================================================== *)
(** * Results and dictionaries *)
(* ================================================================== *)

Lemma bind_ok {A B} (r : result A) (k : A -> result B) (b : B) :
  bind r k = Ok b -> exists a, r = Ok a /\ k a = Ok b.
Proof. destruct r as [a | e]; simpl; [eauto | discriminate]. Qed.

Lemma is_ok_true {A} (r : result A) : is_ok r = true <-> exists a, r = Ok a.
Proof.
  destruct r as [a | e]; simpl; split; eauto; try discriminate.
  intros [a Ha]. discriminate.
Qed.

(** A [dict] literal is built exactly when all its items evaluate. *)
Lemma is_ok_dict (items : list (string * expr)) :
  is_ok (dict items) = forallb (fun kv => is_ok (snd kv)) items.
Proof.
  induction items as [| [k e] items IH]; simpl; [reflexivity|].
  destruct e as [v | x]; simpl; [|reflexivity].
  rewrite <- IH. destruct (dict items); reflexivity.
Qed.

(** The items of the built dictionary are the values of the expressions of
    the literal. *)
Lemma dict_item (items : list (string * expr)) (d : view) (k : string) :
  dict items = Ok d -> item d k = literal_item k items.
Proof.
  revert d. induction items as [| [k' e] items IH]; intros d H; simpl in H.
  - injection H as <-. reflexivity.
  - apply bind_ok in H. destruct H as (v & -> & H).
    apply bind_ok in H. destruct H as (d' & Hd' & H).
    injection H as <-. specialize (IH d' Hd').
    unfold item in *. simpl. destruct (String.eqb k k'); [reflexivity | exact IH].
Qed.

(* ================================================================== *)
(** * Operators on numbers never raise *)
(* ================================================================== *)

Lemma bounded_by_mono (n k : Z) (v : value) :
  n <= k -> bounded_by n v = true -> bounded_by k v = true.
Proof.
  intros Hnk. destruct v as [z | x | s]; simpl; auto.
  intros H. apply Z.ltb_lt in H. apply Z.ltb_lt.
  destruct (Z_lt_le_dec n 0) as [Hneg | Hpos].
  - rewrite Z.pow_neg_r in H by lia. lia.
  - assert (2 ^ n <= 2 ^ k) by (apply Z.pow_le_mono_r; lia). lia.
Qed.

Lemma float_of_int_ok (z : Z) :
  Z.abs z < 2 ^ 1023 -> exists x, float_of_int z = Ok x.
Proof.
  intros Hz. unfold float_of_int, Z2SF.
  pose proof (binary_normalize_bound z false Hz) as H.
  destruct (binary_normalize prec emax z 0 false); simpl; eauto. contradiction.
Qed.

Lemma int_true_divide_ok (a b : Z) :
  Z.abs a < 2 ^ 1023 -> b <> 0 -> exists q, int_true_divide a b = Ok q.
Proof.
  intros Ha Hb. unfold int_true_divide.
  destruct (Z.eqb_spec b 0) as [|_]; [contradiction|].
  destruct a as [| p | p]; [eauto | |].
  - pose proof (SFdiv_int_bound (Zpos p <? 0) (b <? 0) (Z.to_pos (Z.abs (Zpos p)))
                                (Z.to_pos (Z.abs b))) as H.
    destruct (SF64div _ _); simpl; eauto. exfalso. apply H. simpl. lia.
  - pose proof (SFdiv_int_bound (Zneg p <? 0) (b <? 0) (Z.to_pos (Z.abs (Zneg p)))
                                (Z.to_pos (Z.abs b))) as H.
    destruct (SF64div _ _); simpl; eauto. exfalso. apply H. simpl. lia.
Qed.

Lemma float_div_ok (x y : float) :
  (y =? 0)%float = false -> float_div x y = Ok (x / y)%float.
Proof. intros H. unfold float_div. rewrite H. reflexivity. Qed.


(** Rounding a mantissa of at least one above the smallest exponent
    never gives zero. *)
Lemma binary_round_aux_nonzero s m e l :
  1 <= m -> -1074 < e ->
  forall s', binary_round_aux prec emax s m e l <> S754_zero s'.
Proof.
  intros Hm He s'.
  unfold binary_round_aux.
  assert (Hstep : forall m0 e0 l0, 1 <= m0 -> -1074 < e0 ->
            1 <= shr_m (fst (shr_fexp prec emax m0 e0 l0))
            /\ e0 <= snd (shr_fexp prec emax m0 e0 l0)).
  { intros m0 e0 l0 Hm0 He0.
    destruct (shr_fexp_spec m0 e0 l0) as [H1 H2]; [lia|].
    rewrite H1, H2. clear H1 H2.
    set (n := Z.max 0 (fexp prec emax (Zdigits2 m0 + e0) - e0)).
    split; [|lia].
    destruct m0 as [| p | p]; try lia. simpl Zdigits2 in n.
    destruct (digits2_pos_bounds p) as [Hlo _].
    apply Z.div_le_lower_bound; [apply Z.pow_pos_nonneg; lia|].
    assert (n <= Zpos (digits2_pos p) - 1).
    { unfold n, fexp, SpecFloat.emin, prec, emax. lia. }
    assert (2 ^ n <= 2 ^ (Zpos (digits2_pos p) - 1)) by (apply Z.pow_le_mono_r; lia).
    lia. }
  destruct (Hstep m e l Hm He) as [H1 H2].
  destruct (shr_fexp prec emax m e l) as [mrs1 e1]. simpl in H1, H2.
  pose proof (round_nearest_even_bounds (shr_m mrs1) (loc_of_shr_record mrs1)) as Hr.
  destruct (Hstep (round_nearest_even (shr_m mrs1) (loc_of_shr_record mrs1)) e1 loc_Exact)
    as [H3 H4]; [lia | lia |].
  destruct (shr_fexp prec emax _ e1 loc_Exact) as [mrs3 e3]. simpl in H3, H4.
  destruct (shr_m mrs3) as [| p | p]; try lia.
  destruct (e3 <=? emax - prec); discriminate.
Qed.

Lemma binary_round_aux_opp m e l :
  binary_round_aux prec emax true m e l
  = SFopp (binary_round_aux prec emax false m e l).
Proof.
  unfold binary_round_aux.
  destruct (shr_fexp prec emax m e l) as [mrs1 e1].
  destruct (shr_fexp prec emax _ e1 loc_Exact) as [mrs3 e3].
  destruct (shr_m mrs3); try reflexivity.
  destruct (e3 <=? emax - prec); reflexivity.
Qed.

Lemma valid_binary_opp x : valid_binary (SFopp x) = valid_binary x.
Proof. destruct x; reflexivity. Qed.

(** A 63-bit integer is converted to a valid binary64 number, which is
    not zero unless the integer is. *)
Lemma Z2SF_valid (z : Z) :
  Z.abs z < 2 ^ 63 ->
  valid_binary (Z2SF z) = true
  /\ (z <> 0 -> forall s, Z2SF z <> S754_zero s).
Proof.
  intros Hz.
  assert (Hpos : forall p : positive, Zpos p < 2 ^ 63 ->
            valid_binary (binary_round prec emax false p 0) = true
            /\ forall s, binary_round prec emax false p 0 <> S754_zero s).
  { intros p Hp. split.
    - pose proof (of_uint63_spec (Uint63.of_Z (Zpos p))) as Hspec.
      rewrite Uint63.of_Z_spec in Hspec.
      rewrite Z.mod_small in Hspec by (change wB with (2 ^ 63); lia).
      simpl binary_normalize in Hspec. rewrite <- Hspec. apply Prim2SF_valid.
    - intros s. unfold binary_round.
      pose proof (shl_align_spec p 0 (fexp prec emax (Zpos (digits2_pos p) + 0))) as Hal.
      destruct (shl_align p 0 _) as [mz ez]. destruct Hal as [Hez Hmz].
      apply binary_round_aux_nonzero; [lia|].
      rewrite Hez. unfold fexp, SpecFloat.emin, prec, emax. lia. }
  unfold Z2SF. destruct z as [| p | p]; simpl binary_normalize.
  - split; [reflexivity | intros H; contradiction].
  - destruct (Hpos p ltac:(lia)) as [Hv Hn]. split; [exact Hv | intros _; exact Hn].
  - destruct (Hpos p ltac:(lia)) as [Hv Hn].
    unfold binary_round in *. destruct (shl_align p 0 _) as [mz ez].
    rewrite binary_round_aux_opp. split.
    + rewrite valid_binary_opp. exact Hv.
    + intros _ s Heq. apply (Hn (negb s)).
      destruct (binary_round_aux prec emax false (Zpos mz) ez loc_Exact); try discriminate.
      simpl in Heq. injection Heq as <-. rewrite negb_involutive. reflexivity.
Qed.

Lemma Prim2SF_zero : Prim2SF 0%float = S754_zero false.
Proof. reflexivity. Qed.

(** A 63-bit integer converts without overflow, and to a float that is
    zero only if the integer is. *)
Lemma float_of_int_small (z : Z) :
  Z.abs z < 2 ^ 63 ->
  exists x, float_of_int z = Ok x /\ (z <> 0 -> (x =? 0)%float = false).
Proof.
  intros Hz. destruct (Z2SF_valid z Hz) as [Hv Hn].
  destruct (float_of_int_ok z) as [x Hx].
  { assert (2 ^ 63 < 2 ^ 1023) by (apply Z.pow_lt_mono_r; lia). lia. }
  exists x. split; [exact Hx|]. intros Hz0.
  unfold float_of_int in Hx. destruct (SF_is_inf (Z2SF z)) eqn:Hinf; [discriminate|].
  injection Hx as <-.
  rewrite FloatAxioms.eqb_spec, Prim2SF_SF2Prim by exact Hv. rewrite Prim2SF_zero.
  specialize (Hn Hz0).
  destruct (Z2SF z) as [s | s | | s m e]; try reflexivity.
  - exfalso. apply (Hn s). reflexivity.
  - discriminate.
  - destruct s; reflexivity.
Qed.

(** [v / w] of two numbers with a divisor that is not zero is a float. *)
Lemma py_truediv_ok (v w : value) :
  bounded_by 1023 v = true -> numeric w = true -> truthy w = true ->
  exists q, py_truediv v w = Ok (PyFloat q).
Proof.
  intros Hv Hw Ht.
  destruct v as [a | x | s], w as [b | y | t]; simpl in *; try discriminate.
  - apply Z.ltb_lt in Hv. apply negb_true_iff, Z.eqb_neq in Ht.
    destruct (int_true_divide_ok a b Hv Ht) as [q ->]. simpl. eauto.
  - apply Z.ltb_lt in Hv. apply negb_true_iff in Ht.
    destruct (float_of_int_ok a Hv) as [x ->]. simpl.
    rewrite (float_div_ok _ _ Ht). simpl. eauto.
  - apply Z.ltb_lt in Hw. apply negb_true_iff, Z.eqb_neq in Ht.
    destruct (float_of_int_small b Hw) as (y & -> & Hy). simpl.
    rewrite (float_div_ok _ _ (Hy Ht)). simpl. eauto.
  - apply negb_true_iff in Ht. rewrite (float_div_ok _ _ Ht). simpl. eauto.
Qed.

(** ** Expressions that yield numbers *)

Lemma yields_is_ok n e : yields n e -> is_ok e = true.
Proof. intros (v & -> & _). reflexivity. Qed.

Lemma yields_float_yields n e : yields_float e -> yields n e.
Proof. intros (x & ->). exists (PyFloat x). auto. Qed.

Lemma yields_float_is_ok e : yields_float e -> is_ok e = true.
Proof. intros (x & ->). reflexivity. Qed.

Lemma yields_mono n k e : n <= k -> yields n e -> yields k e.
Proof. intros Hnk (v & -> & Hv). exists v. eauto using bounded_by_mono. Qed.

Lemma yields_const n v : bounded_by n v = true -> yields n (const v).
Proof. intros H. exists v. auto. Qed.

Lemma yields_get (all_data : raw) (keys : list string) (k : string) (d : value) :
  numeric_fields all_data keys = true ->
  existsb (String.eqb k) keys = true ->
  numeric d = true ->
  numeric (get all_data k d) = true.
Proof.
  intros Hall Hk Hd. unfold get.
  destruct (all_data !! k) as [v |] eqn:Hv; [|exact Hd].
  unfold numeric_fields in Hall. rewrite forallb_forall in Hall.
  apply existsb_exists in Hk. destruct Hk as (k' & Hin & Heq).
  apply String.eqb_eq in Heq. subst k'.
  specialize (Hall k Hin). rewrite Hv in Hall. exact Hall.
Qed.

Lemma yields_round n e d : yields n e -> yields n (round_ e d).
Proof.
  intros (v & -> & Hv). unfold round_. simpl.
  destruct v as [z | x | s]; simpl in *; try discriminate.
  - exists (PyInt z). auto.
  - exists (PyFloat (float_round x d)). auto.
Qed.

Lemma yields_float_round e d : yields_float e -> yields_float (round_ e d).
Proof. intros (x & ->). unfold yields_float, round_. simpl. eauto. Qed.

Lemma yields_div a b :
  yields 1023 a -> (exists w, b = Ok w /\ numeric w = true /\ truthy w = true) ->
  yields_float (a / b)%py.
Proof.
  intros (v & -> & Hv) (w & -> & Hw & Ht). unfold lift2. simpl.
  destruct (py_truediv_ok v w Hv Hw Ht) as [q Hq]. exists q. exact Hq.
Qed.

Lemma yields_div_int a (c : Z) :
  yields 1023 a -> c <> 0 -> Z.abs c < 2 ^ 63 ->
  yields_float (a / const (PyInt c))%py.
Proof.
  intros Ha Hc Hb. apply yields_div; [exact Ha|].
  exists (PyInt c). split; [reflexivity|]. simpl. split.
  - apply Z.ltb_lt. exact Hb.
  - apply negb_true_iff, Z.eqb_neq. exact Hc.
Qed.

Lemma pow2_add_lt (n k a b : Z) :
  0 <= n -> 0 <= k -> Z.abs a < 2 ^ n -> Z.abs b < 2 ^ k ->
  Z.abs (a * b) < 2 ^ (n + k).
Proof.
  intros Hn Hk Ha Hb. rewrite Z.abs_mul, Z.pow_add_r by lia.
  assert (0 <= Z.abs a) by lia. assert (0 <= Z.abs b) by lia.
  apply Z.mul_lt_mono_nonneg; lia.
Qed.

Lemma yields_arith (op : value -> value -> result value)
      (zop : Z -> Z -> Z) (fop : float -> float -> float) n a b :
  (forall x y, op (PyInt x) (PyInt y) = Ok (PyInt (zop x y))) ->
  (forall x y, op (PyInt x) (PyFloat y)
               = let! x' := float_of_int x in Ok (PyFloat (fop x' y))) ->
  (forall x y, op (PyFloat x) (PyInt y)
               = let! y' := float_of_int y in Ok (PyFloat (fop x y'))) ->
  (forall x y, op (PyFloat x) (PyFloat y) = Ok (PyFloat (fop x y))) ->
  (forall x y, Z.abs x < 2 ^ n -> Z.abs y < 2 ^ n -> Z.abs (zop x y) < 2 ^ (n + 1)) ->
  0 <= n < 1023 ->
  yields n a -> yields n b -> yields (n + 1) (lift2 op a b).
Proof.
  intros Hii Hif Hfi Hff Hz Hn (v & -> & Hv) (w & -> & Hw). unfold lift2. simpl.
  assert (Hpow : 2 ^ n < 2 ^ 1023) by (apply Z.pow_lt_mono_r; lia).
  destruct v as [x | x | s], w as [y | y | t]; simpl in Hv, Hw; try discriminate.
  - rewrite Hii. exists (PyInt (zop x y)). split; [reflexivity|]. simpl.
    apply Z.ltb_lt in Hv, Hw. apply Z.ltb_lt. auto.
  - rewrite Hif. apply Z.ltb_lt in Hv.
    destruct (float_of_int_ok x ltac:(lia)) as [x' ->]. simpl. eexists; eauto.
  - rewrite Hfi. apply Z.ltb_lt in Hw.
    destruct (float_of_int_ok y ltac:(lia)) as [y' ->]. simpl. eexists; eauto.
  - rewrite Hff. eexists; eauto.
Qed.


Lemma yields_sub n a b :
  0 <= n < 1023 -> yields n a -> yields n b -> yields (n + 1) (a - b)%py.
Proof.
  intros Hn. apply (yields_arith py_sub Z.sub PrimFloat.sub); try reflexivity; [|exact Hn].
  intros x y Hx Hy. rewrite Z.pow_add_r by lia. change (2 ^ 1) with 2. lia.
Qed.

Lemma yields_mul n k a b :
  0 <= n -> 0 <= k -> n + k <= 1023 ->
  yields n a -> yields k b -> yields (n + k) (a * b)%py.
Proof.
  intros Hn Hk Hnk (v & -> & Hv) (w & -> & Hw). unfold lift2. simpl.
  assert (Hpn : 2 ^ n <= 2 ^ 1023) by (apply Z.pow_le_mono_r; lia).
  assert (Hpk : 2 ^ k <= 2 ^ 1023) by (apply Z.pow_le_mono_r; lia).
  destruct v as [x | x | s], w as [y | y | t]; simpl in Hv, Hw; try discriminate; simpl.
  - exists (PyInt (x * y)). split; [reflexivity|]. simpl.
    apply Z.ltb_lt in Hv, Hw. apply Z.ltb_lt. apply pow2_add_lt; assumption.
  - apply Z.ltb_lt in Hv.
    destruct (float_of_int_ok x ltac:(lia)) as [x' ->]. simpl. eexists; eauto.
  - apply Z.ltb_lt in Hw.
    destruct (float_of_int_ok y ltac:(lia)) as [y' ->]. simpl. eexists; eauto.
  - eexists; eauto.
Qed.

(** Numbers are always comparable. *)
Lemma py_lt_ok n k v w :
  bounded_by n v = true -> bounded_by k w = true -> exists b, py_lt v w = Ok b.
Proof.
  intros Hv Hw.
  destruct v as [x | x | s], w as [y | y | t]; simpl in Hv, Hw; try discriminate;
    simpl; eauto.
Qed.

Lemma yields_max n a b : yields n a -> yields n b -> yields n (max_ a b).
Proof.
  intros (v & -> & Hv) (w & -> & Hw). unfold max_, lift2, py_max, py_gt. simpl.
  destruct (py_lt_ok n n v w Hv Hw) as [c ->]. simpl.
  exists (if c then w else v). split; [reflexivity|]. destruct c; assumption.
Qed.

Lemma yields_min n a b : yields n a -> yields n b -> yields n (min_ a b).
Proof.
  intros (v & -> & Hv) (w & -> & Hw). unfold min_, lift2, py_min. simpl.
  destruct (py_lt_ok n n w v Hw Hv) as [c ->]. simpl.
  exists (if c then w else v). split; [reflexivity|]. destruct c; assumption.
Qed.

(* ================================================================== *)
(** * The views are produced for numeric fields *)
(* ================================================================== *)

Section Totality.

Variable all_data : raw.
Variable keys : list string.
Hypothesis Hnum : numeric_fields all_data keys = true.

Lemma yields_field (k : string) (d : value) :
  existsb (String.eqb k) keys = true -> numeric d = true ->
  yields 63 (const (get all_data k d)).
Proof. intros Hk Hd. apply yields_const. exact (yields_get _ _ _ _ Hnum Hk Hd). Qed.

(** [round(all_data.get(k, d), n)] *)
Lemma rounded_ok (k : string) (d : value) (n : Z) :
  existsb (String.eqb k) keys = true -> numeric d = true ->
  is_ok (round_ (get all_data k d) n) = true.
Proof.
  intros Hk Hd. apply (yields_is_ok 63), yields_round, yields_field; assumption.
Qed.

(** [all_data.get(k, d)] *)
Lemma field_ok (k : string) (d : value) :
  is_ok (const (get all_data k d)) = true.
Proof. reflexivity. Qed.

(** [all_data.get(k, d) / 1000] *)
Lemma kilo_yields (k : string) (d : value) :
  existsb (String.eqb k) keys = true -> numeric d = true ->
  yields_float (get all_data k d / PyInt 1000)%py.
Proof.
  intros Hk Hd. apply yields_div_int; [| lia | simpl; lia].
  apply (yields_mono 63); [lia|]. apply yields_field; assumption.
Qed.

(** [round(all_data.get(k, d) / 1000, n)] *)
Lemma kilo_ok (k : string) (d : value) (n : Z) :
  existsb (String.eqb k) keys = true -> numeric d = true ->
  is_ok (round_ (get all_data k d / PyInt 1000)%py n) = true.
Proof.
  intros Hk Hd. apply yields_float_is_ok, yields_float_round, kilo_yields; assumption.
Qed.

End Totality.

Ltac views_ok H :=
  rewrite is_ok_dict; cbn [forallb snd];
  rewrite ?(kilo_ok _ _ H), ?(rounded_ok _ _ H), ?field_ok by reflexivity;
  try reflexivity.

Lemma get_power_comprehensive_ok (all_data : raw) :
  numeric_fields all_data (map fst Defaults.power) = true ->
  is_ok (get_power_comprehensive all_data) = true.
Proof. intros H. unfold get_power_comprehensive. views_ok H. Qed.





(** ** Signs of floats *)

(** The exact comparison with the integer [0] is the float comparison
    with [0.0]. *)
Lemma float_cmp_int_zero (x : float) :
  float_cmp_int x 0 = SFcompare (Prim2SF x) (S754_zero false).
Proof.
  unfold float_cmp_int. destruct (Prim2SF x) as [s | s | | s m e]; try reflexivity.
  simpl SFcompare. f_equal.
  assert (Hp : forall k, 0 <= k -> 0 < 2 ^ k) by (intros; apply Z.pow_pos_nonneg; lia).
  destruct (Z.leb_spec 0 e) as [He | He].
  - pose proof (Hp e He). destruct s.
    + apply Z.compare_lt_iff. assert (Zneg m * 2 ^ e < 0) by nia. lia.
    + apply Z.compare_gt_iff. assert (0 < Zpos m * 2 ^ e) by nia. lia.
  - destruct s; reflexivity.
Qed.

Lemma py_gt_zero (x : float) :
  py_gt (PyFloat x) (PyInt 0) = Ok (is_positive x).
Proof.
  unfold py_gt, py_lt, is_positive. rewrite float_cmp_int_zero.
  rewrite FloatAxioms.ltb_spec, Prim2SF_zero. unfold SFltb. f_equal.
  destruct (Prim2SF x) as [s | [] | | [] m e]; reflexivity.
Qed.

Lemma py_lt_zero (x : float) :
  py_lt (PyFloat x) (PyInt 0) = Ok (x <? 0)%float.
Proof.
  unfold py_lt. rewrite float_cmp_int_zero.
  rewrite FloatAxioms.ltb_spec, Prim2SF_zero. reflexivity.
Qed.

Lemma is_positive_shape (x : float) :
  is_positive x = true ->
  Prim2SF x = S754_infinity false \/ exists m e, Prim2SF x = S754_finite false m e.
Proof.
  unfold is_positive. rewrite FloatAxioms.ltb_spec, Prim2SF_zero. unfold SFltb.
  destruct (Prim2SF x) as [s | [] | | [] m e]; simpl; try discriminate; eauto.
Qed.

Lemma is_positive_nonzero (x : float) :
  is_positive x = true -> (x =? 0)%float = false.
Proof.
  intros H. rewrite FloatAxioms.eqb_spec, Prim2SF_zero.
  destruct (is_positive_shape x H) as [-> | (m & e & ->)]; reflexivity.
Qed.

Lemma is_positive_not_negative (x : float) :
  is_positive x = true -> (x <? 0)%float = false.
Proof.
  intros H. rewrite FloatAxioms.ltb_spec, Prim2SF_zero.
  destruct (is_positive_shape x H) as [-> | (m & e & ->)]; reflexivity.
Qed.

Lemma float_of_int_100 : float_of_int 100 = Ok 100%float.
Proof. reflexivity. Qed.

(** The balance of two string powers: what [string_balance] evaluates
    to on floats. *)
Lemma string_balance_float (p1 p2 : float) :
  string_balance (PyFloat p1) (PyFloat p2)
  = Ok (if is_positive p1 && is_positive p2
        then PyFloat (float_round (float_min p1 p2 / float_max p1 p2 * 100) 1)
        else PyInt 100).
Proof.
  unfold string_balance, if_else, and_, lift2, const. cbn [bind].
  rewrite !py_gt_zero. cbn [bind].
  destruct (is_positive p1) eqn:H1; simpl; [|reflexivity].
  destruct (is_positive p2) eqn:H2; simpl; [|reflexivity].
  unfold round_, min_, max_, lift2, py_min, py_max, py_gt, const. cbn [bind py_lt].
  assert (Hnz : (float_max p1 p2 =? 0)%float = false).
  { unfold float_max. destruct (p1 <? p2)%float; apply is_positive_nonzero; assumption. }
  replace (if (p2 <? p1)%float then PyFloat p2 else PyFloat p1)
    with (PyFloat (float_min p1 p2)) by (unfold float_min; destruct (p2 <? p1)%float; reflexivity).
  replace (if (p1 <? p2)%float then PyFloat p2 else PyFloat p1)
    with (PyFloat (float_max p1 p2)) by (unfold float_max; destruct (p1 <? p2)%float; reflexivity).
  cbn [py_truediv]. unfold float_div. rewrite Hnz. cbn [bind py_mul].
  rewrite float_of_int_100. reflexivity.
Qed.

Lemma yields_float_mul_int a (c : Z) :
  yields_float a -> Z.abs c < 2 ^ 1023 -> yields_float (a * const (PyInt c))%py.
Proof.
  intros (x & ->) Hc. unfold lift2, const. simpl.
  destruct (float_of_int_ok c Hc) as [y ->]. simpl. eexists; reflexivity.
Qed.




Lemma get_string_data_ok (all_data : raw) :
  numeric_fields all_data (map fst Defaults.strings) = true ->
  is_ok (get_string_data all_data) = true.
Proof.
  intros H. unfold get_string_data.
  destruct (kilo_yields _ _ H "Power.DC.String.1" (PyInt 0) eq_refl eq_refl) as [p1 ->].
  destruct (kilo_yields _ _ H "Power.DC.String.2" (PyInt 0) eq_refl eq_refl) as [p2 ->].
  cbn [bind]. rewrite string_balance_float. cbn [bind].
  rewrite is_ok_dict. cbn [forallb snd].
  rewrite ?(rounded_ok _ _ H) by reflexivity. reflexivity.
Qed.


(** A number above zero is not zero. *)
Lemma py_gt_zero_truthy (v : value) :
  py_gt v (PyInt 0) = Ok true -> truthy v = true.
Proof.
  destruct v as [z | x | s]; intros H; cbn [truthy].
  - unfold py_gt in H. simpl in H. injection H as H. apply Z.ltb_lt in H.
    apply negb_true_iff, Z.eqb_neq. lia.
  - rewrite py_gt_zero in H. injection H as H.
    apply negb_true_iff, is_positive_nonzero. exact H.
  - discriminate.
Qed.

(** The autarky rate of numeric fields is a number. *)
Lemma daily_autarky_yields (production_day consumption_day export_day : value) :
  numeric production_day = true -> numeric consumption_day = true ->
  numeric export_day = true ->
  yields 63 (daily_autarky production_day consumption_day export_day).
Proof.
  intros Hp Hc He. unfold daily_autarky.
  destruct (py_lt_ok 63 63 (PyInt 0) consumption_day eq_refl Hc) as [b Hb].
  change ((const consumption_day > const (PyInt 0))%py)
    with (py_lt (PyInt 0) consumption_day).
  rewrite Hb. cbn [bind].
  destruct b; [| apply yields_const; reflexivity].
  assert (Ht : truthy consumption_day = true) by (apply py_gt_zero_truthy; exact Hb).
  destruct (yields_sub 63 production_day export_day ltac:(lia)
              (yields_const _ _ Hp) (yields_const _ _ He)) as (sc & Hsc & Hsb).
  rewrite Hsc. cbn [bind].
  apply yields_min; [apply yields_const; reflexivity|].
  apply yields_float_yields, yields_float_round, yields_float_mul_int; [| simpl; lia].
  apply yields_div.
  - exists sc. split; [reflexivity|]. apply (bounded_by_mono 64); [lia | exact Hsb].
  - exists consumption_day. auto.
Qed.

Lemma get_daily_summary_ok (all_data : raw) :
  numeric_fields all_data (map fst Defaults.daily) = true ->
  is_ok (get_daily_summary all_data) = true.
Proof.
  intros H. unfold get_daily_summary. cbv zeta.
  pose proof (yields_get _ _ "Energy.Production.Total.Day" (PyInt 0) H eq_refl eq_refl) as Hp.
  pose proof (yields_get _ _ "Energy.Consumption.Total.Day" (PyInt 0) H eq_refl eq_refl) as Hc.
  pose proof (yields_get _ _ "Energy.Grid.Export.Day" (PyInt 0) H eq_refl eq_refl) as He.
  pose proof (yields_get _ _ "Energy.Grid.Import.Day" (PyInt 0) H eq_refl eq_refl) as Hi.
  destruct (yields_sub 63 _ _ ltac:(lia) (yields_const _ _ He) (yields_const _ _ Hi))
    as (g & Hg & Hgb).
  rewrite Hg. cbn [bind].
  destruct (daily_autarky_yields _ _ _ Hp Hc He) as (a & Ha & Hab).
  rewrite Ha. cbn [bind].
  rewrite is_ok_dict. cbn [forallb snd].
  rewrite ?(rounded_ok _ _ H) by reflexivity.
  rewrite (yields_is_ok 64 _ (yields_round 64 _ 2
             (yields_max 64 _ _ (yields_const 64 (PyInt 0) eq_refl) (yields_const 64 g Hgb)))).
  rewrite (yields_is_ok 63 _ (yields_max 63 _ _ (yields_const 63 (PyInt 0) eq_refl)
                                             (yields_const 63 a Hab))).
  reflexivity.
Qed.

(** The derived battery metrics of numeric fields are numbers. *)
Lemma battery_power_kw_ok (voltage current : value) :
  numeric voltage = true -> numeric current = true ->
  is_ok (battery_power_kw voltage current) = true.
Proof.
  intros Hv Hc. unfold battery_power_kw, if_else. cbn [bind].
  destruct (truthy voltage && truthy current); [|reflexivity].
  apply yields_float_is_ok, yields_float_round, yields_div_int; [| lia | simpl; lia].
  apply (yields_mono (63 + 63)); [lia|].
  apply yields_mul; try lia; apply yields_const; assumption.
Qed.

Lemma battery_capacity_kwh_ok (capacity_ah voltage : value) :
  numeric capacity_ah = true -> numeric voltage = true ->
  is_ok (battery_capacity_kwh capacity_ah voltage) = true.
Proof.
  intros Hv Hc. unfold battery_capacity_kwh, if_else. cbn [bind].
  destruct (truthy capacity_ah && truthy voltage); [|reflexivity].
  apply yields_float_is_ok, yields_float_round, yields_div_int; [| lia | simpl; lia].
  apply (yields_mono (63 + 63)); [lia|].
  apply yields_mul; try lia; apply yields_const; assumption.
Qed.

Lemma battery_available_kwh_ok (soc capacity_ah voltage : value) :
  numeric soc = true -> numeric capacity_ah = true -> numeric voltage = true ->
  is_ok (battery_available_kwh soc capacity_ah voltage) = true.
Proof.
  intros Hs Hv Hc. unfold battery_available_kwh, if_else. cbn [bind].
  destruct (forallb truthy [soc; capacity_ah; voltage]); [|reflexivity].
  apply yields_float_is_ok, yields_float_round, yields_div_int; [| lia | simpl; lia].
  apply (yields_mono (63 + 63 + 63)); [lia|].
  apply yields_mul; try lia; [|apply yields_const; assumption].
  apply yields_mul; try lia; apply yields_const; assumption.
Qed.

Lemma get_battery_comprehensive_ok (all_data : raw) :
  numeric_fields all_data (map fst Defaults.battery_comprehensive) = true ->
  is_ok (get_battery_comprehensive all_data) = true.
Proof.
  intros H. unfold get_battery_comprehensive. cbv zeta.
  pose proof (yields_get _ _ "Energy.Battery.Charge.Level" (PyInt 0) H eq_refl eq_refl) as Hs.
  pose proof (yields_get _ _ "Voltage.Battery" (PyInt 0) H eq_refl eq_refl) as Hv.
  pose proof (yields_get _ _ "Current.Battery" (PyInt 0) H eq_refl eq_refl) as Hc.
  pose proof (yields_get _ _ "Energy.Battery.Ah" (PyInt 0) H eq_refl eq_refl) as Ha.
  rewrite is_ok_dict. cbn [forallb snd].
  rewrite ?(rounded_ok _ _ H) by reflexivity.
  rewrite battery_power_kw_ok, battery_capacity_kwh_ok, battery_available_kwh_ok by assumption.
  reflexivity.
Qed.


(* ================================================================== *)
(** * The parser *)
(* ================================================================== *)

Lemma free_of_app (c : ascii) (s t : text) :
  free_of c (s ++ t) <-> free_of c s /\ free_of c t.
Proof.
  unfold free_of, contains. rewrite existsb_app, orb_false_iff. tauto.
Qed.

Lemma free_of_cons (c a : ascii) (t : text) :
  free_of c (a :: t) <-> Ascii.eqb c a = false /\ free_of c t.
Proof. unfold free_of, contains. simpl. rewrite orb_false_iff. tauto. Qed.

Lemma split_free (sep : ascii) (t : text) : free_of sep t -> split sep t = [t].
Proof.
  induction t as [| c t IH]; intros H; simpl; [reflexivity|].
  apply free_of_cons in H. destruct H as [Hc Ht].
  rewrite Ascii.eqb_sym, Hc, (IH Ht). reflexivity.
Qed.

Lemma split_app (sep : ascii) (t rest : text) :
  free_of sep t -> split sep (t ++ sep :: rest) = t :: split sep rest.
Proof.
  induction t as [| c t IH]; intros H; simpl.
  - rewrite Ascii.eqb_refl. reflexivity.
  - apply free_of_cons in H. destruct H as [Hc Ht].
    rewrite Ascii.eqb_sym, Hc, (IH Ht). reflexivity.
Qed.

Lemma split_join (sep : ascii) (fields : list text) :
  Forall (free_of sep) fields -> fields <> [] ->
  split sep (join sep fields) = fields.
Proof.
  induction fields as [| f fields IH]; intros Hall Hne; [contradiction|].
  inversion Hall as [| f' fs' Hf Hfs]; subst.
  destruct fields as [| g fields]; simpl join.
  - apply split_free, Hf.
  - rewrite (split_app _ _ _ Hf). f_equal. apply IH; [exact Hfs | discriminate].
Qed.

Lemma free_of_join (c sep : ascii) (fields : list text) :
  Ascii.eqb c sep = false -> Forall (free_of c) fields -> free_of c (join sep fields).
Proof.
  intros Hc. induction fields as [| f fields IH]; intros Hall; [reflexivity|].
  inversion Hall as [| f' fs' Hf Hfs]; subst.
  destruct fields as [| g fields]; simpl join; [exact Hf|].
  apply free_of_app. split; [exact Hf|].
  apply free_of_cons. split; [exact Hc | apply IH, Hfs].
Qed.

Lemma join_snoc (sep : ascii) (fields : list text) (f : text) :
  fields <> [] -> join sep (fields ++ [f]) = join sep fields ++ sep :: f.
Proof.
  induction fields as [| g fields IH]; intros Hne; [contradiction|].
  destruct fields as [| h fields]; [reflexivity|].
  change (join sep ((g :: h :: fields) ++ [f]))
    with (g ++ sep :: join sep ((h :: fields) ++ [f])).
  rewrite IH by discriminate. simpl join. rewrite <- app_assoc. reflexivity.
Qed.

(** Stripping leaves a text alone that begins and ends with characters
    that are not stripped. *)
Lemma drop_rev_snoc (p : ascii -> bool) (t : text) (c : ascii) :
  p c = false -> rev (drop_while p (rev (t ++ [c]))) = t ++ [c].
Proof.
  intros Hc. rewrite rev_app_distr. simpl. rewrite Hc. simpl.
  rewrite rev_involutive. reflexivity.
Qed.

Lemma strip_fixed (a c : ascii) (t : text) :
  isspace a = false -> isspace c = false ->
  strip (a :: t ++ [c]) = a :: t ++ [c].
Proof.
  intros Ha Hc. unfold strip, lstrip, rstrip. simpl drop_while. rewrite Ha.
  change (a :: t ++ [c]) with ((a :: t) ++ [c]). apply drop_rev_snoc, Hc.
Qed.

Lemma rstrip_char_fixed (x c : ascii) (t : text) :
  Ascii.eqb x c = false -> rstrip_char x (t ++ [c]) = t ++ [c].
Proof. intros H. unfold rstrip_char. apply drop_rev_snoc, H. Qed.

(** The two lines taken apart. *)
Lemma header_AB_shape (h3 h4 h5 h6 h7 : text) :
  exists t, header_AB h3 h4 h5 h6 h7 = "," %char :: t ++ ["B"%char].
Proof.
  unfold header_AB.
  change [[]; str "result"; str "table"; h3; h4; h5; h6; h7; str "A"; str "B"]
    with ([[]; str "result"; str "table"; h3; h4; h5; h6; h7; str "A"] ++ [str "B"]).
  rewrite join_snoc by discriminate.
  exists (join "," [str "result"; str "table"; h3; h4; h5; h6; h7; str "A"] ++ ["," %char]).
  rewrite <- app_assoc. reflexivity.
Qed.

Lemma data_1_25_shape (d2 d3 d4 d5 d6 d7 : text) :
  exists t, data_1_25 d2 d3 d4 d5 d6 d7 = "," %char :: t ++ ["5"%char].
Proof.
  unfold data_1_25.
  change [[]; str "_result"; d2; d3; d4; d5; d6; d7; str "1"; str "2.5"]
    with ([[]; str "_result"; d2; d3; d4; d5; d6; d7; str "1"] ++ [str "2.5"]).
  rewrite join_snoc by discriminate.
  exists (join "," [str "_result"; d2; d3; d4; d5; d6; d7; str "1"] ++ str ",2.").
  rewrite <- app_assoc. reflexivity.
Qed.


Lemma plain_free_comma (t : text) : plain t -> free_of "," t.
Proof. intros [H _]; exact H. Qed.

Lemma plain_free_newline (t : text) : plain t -> free_of "010" t.
Proof. intros [_ H]; exact H. Qed.

Lemma plain_str_A : plain (str "A"). Proof. split; reflexivity. Qed.

Ltac plain_fields :=
  repeat (apply List.Forall_cons; [first [assumption | reflexivity] |]);
  apply List.Forall_nil.

Section Parser.
Variables h3 h4 h5 h6 h7 d2 d3 d4 d5 d6 d7 : text.
Hypothesis Hh3 : plain h3.
Hypothesis Hh4 : plain h4.
Hypothesis Hh5 : plain h5.
Hypothesis Hh6 : plain h6.
Hypothesis Hh7 : plain h7.
Hypothesis Hd2 : plain d2.
Hypothesis Hd3 : plain d3.
Hypothesis Hd4 : plain d4.
Hypothesis Hd5 : plain d5.
Hypothesis Hd6 : plain d6.
Hypothesis Hd7 : plain d7.

Let header := header_AB h3 h4 h5 h6 h7.
Let data := data_1_25 d2 d3 d4 d5 d6 d7.

Lemma split_header :
  split "," header =
  [[]; str "result"; str "table"; h3; h4; h5; h6; h7; str "A"; str "B"].
Proof.
  apply split_join; [| discriminate].
  pose proof (plain_free_comma _ Hh3). pose proof (plain_free_comma _ Hh4).
  pose proof (plain_free_comma _ Hh5). pose proof (plain_free_comma _ Hh6).
  pose proof (plain_free_comma _ Hh7). plain_fields.
Qed.

Lemma split_data :
  split "," data =
  [[]; str "_result"; d2; d3; d4; d5; d6; d7; str "1"; str "2.5"].
Proof.
  apply split_join; [| discriminate].
  pose proof (plain_free_comma _ Hd2). pose proof (plain_free_comma _ Hd3).
  pose proof (plain_free_comma _ Hd4). pose proof (plain_free_comma _ Hd5).
  pose proof (plain_free_comma _ Hd6). pose proof (plain_free_comma _ Hd7).
  plain_fields.
Qed.

Lemma header_free_newline : free_of "010" header.
Proof.
  apply free_of_join; [reflexivity|].
  pose proof (plain_free_newline _ Hh3). pose proof (plain_free_newline _ Hh4).
  pose proof (plain_free_newline _ Hh5). pose proof (plain_free_newline _ Hh6).
  pose proof (plain_free_newline _ Hh7). plain_fields.
Qed.

Lemma data_free_newline : free_of "010" data.
Proof.
  apply free_of_join; [reflexivity|].
  pose proof (plain_free_newline _ Hd2). pose proof (plain_free_newline _ Hd3).
  pose proof (plain_free_newline _ Hd4). pose proof (plain_free_newline _ Hd5).
  pose proof (plain_free_newline _ Hd6). pose proof (plain_free_newline _ Hd7).
  plain_fields.
Qed.

(** The header line sets the field names and stores nothing. *)
Lemma parse_line_header (result : raw) (names : list text) :
  parse_line (result, names) header = (result, [str "A"; str "B"]).
Proof.
  unfold parse_line. rewrite split_header.
  replace (negb (nonempty header) || startswith header (str "#")) with false by reflexivity.
  replace (startswith header (str ",result,table,")) with true by reflexivity.
  reflexivity.
Qed.

(** The data line stores the two values under the two names. *)
Lemma parse_line_data :
  parse_line (∅, [str "A"; str "B"]) data
  = (<["B" := PyFloat 2.5]> (<["A" := PyInt 1]> ∅), [str "A"; str "B"]).
Proof.
  unfold parse_line. rewrite split_data.
  replace (negb (nonempty data) || startswith data (str "#")) with false by reflexivity.
  replace (startswith data (str ",result,table,")) with false by reflexivity.
  replace (startswith data (str ",_result,")) with true by reflexivity.
  reflexivity.
Qed.

(** The lines that the parser iterates over. *)
Lemma lines_of_input :
  map (rstrip_char "013")
      (List.filter (fun line => nonempty (strip line))
                   (split "010" (strip (join "010" [header; data]))))
  = [header; data].
Proof.
  destruct (header_AB_shape h3 h4 h5 h6 h7) as [th Hth].
  destruct (data_1_25_shape d2 d3 d4 d5 d6 d7) as [td Htd].
  fold header in Hth. fold data in Htd.
  assert (Hinput : strip (join "010" [header; data]) = join "010" [header; data]).
  { change (join "010" [header; data]) with (header ++ "010"%char :: data).
    rewrite Hth, Htd.
    change (("," %char :: th ++ ["B"%char]) ++ "010"%char :: "," %char :: td ++ ["5"%char])
      with ("," %char :: (th ++ ["B"%char]) ++ "010"%char :: "," %char :: td ++ ["5"%char]).
    replace ((th ++ ["B"%char]) ++ "010"%char :: "," %char :: td ++ ["5"%char])
      with (((th ++ ["B"%char]) ++ "010"%char :: "," %char :: td) ++ ["5"%char])
      by (rewrite <- !app_assoc; reflexivity).
    apply strip_fixed; reflexivity. }
  rewrite Hinput.
  rewrite split_join;
    [| repeat (apply List.Forall_cons; [first [apply header_free_newline | apply data_free_newline] |]);
       apply List.Forall_nil
     | discriminate].
  assert (Hsh : strip header = header) by (rewrite Hth; apply strip_fixed; reflexivity).
  assert (Hsd : strip data = data) by (rewrite Htd; apply strip_fixed; reflexivity).
  cbn [List.filter]. rewrite Hsh, Hsd.
  rewrite Hth at 1. rewrite Htd at 1. cbn [nonempty map].
  f_equal; [| f_equal].
  - rewrite Hth. change ("," %char :: th ++ ["B"%char]) with (("," %char :: th) ++ ["B"%char]).
    apply rstrip_char_fixed. reflexivity.
  - rewrite Htd. change ("," %char :: td ++ ["5"%char]) with (("," %char :: td) ++ ["5"%char]).
    apply rstrip_char_fixed. reflexivity.
Qed.

Lemma input_nonempty : nonempty (join "010" [header; data]) = true.
Proof. reflexivity. Qed.

Lemma parse_header_data :
  EnpalDataFetcher._parse_csv_response (join "010" [header; data])
  = <["B" := PyFloat 2.5]> (<["A" := PyInt 1]> ∅).
Proof.
  unfold EnpalDataFetcher._parse_csv_response.
  rewrite input_nonempty. cbn [negb]. rewrite lines_of_input.
  cbn [fold_left]. rewrite parse_line_header, parse_line_data. reflexivity.
Qed.

Lemma parse_header_data_comprehensive :
  EnpalComprehensiveDataFetcher._parse_csv_response (join "010" [header; data])
  = <["B" := PyFloat 2.5]> (<["A" := PyInt 1]> ∅).
Proof.
  unfold EnpalComprehensiveDataFetcher._parse_csv_response.
  rewrite input_nonempty. cbn [negb]. rewrite lines_of_input.
  cbn [fold_left]. rewrite parse_line_header, parse_line_data. reflexivity.
Qed.
End Parser.

Ltac forall_inv H :=
  repeat match type of H with
         | Forall _ (_ :: _) =>
             let Hx := fresh "Hx" in
             pose proof (List.Forall_inv H) as Hx;
             apply List.Forall_inv_tail in H
         end.

(** C2: a response made of a header line that begins with
    [,result,table,] and names the fields [A] and [B] at positions 8 and
    9, followed by a data line that begins with [,_result,] and carries
    [1] and [2.5] at these positions, is parsed by both fetchers to the map
    in which [A] is the integer 1 and [B] is the float 2.5, whatever fills
    the other positions.  A value that is not empty and not [None] is
    stored as a float when it contains a [.] and as an integer when it
    does not, and as the string itself when this coercion fails. *)
Theorem C2_parser_int_float :
  (forall h3 h4 h5 h6 h7 d2 d3 d4 d5 d6 d7 : text,
     Forall plain [h3; h4; h5; h6; h7; d2; d3; d4; d5; d6; d7] ->
     let csv_data :=
       join "010" [header_AB h3 h4 h5 h6 h7; data_1_25 d2 d3 d4 d5 d6 d7] in
     EnpalDataFetcher._parse_csv_response csv_data
     = <["B" := PyFloat 2.5]> (<["A" := PyInt 1]> ∅)
     /\ EnpalComprehensiveDataFetcher._parse_csv_response csv_data
        = <["B" := PyFloat 2.5]> (<["A" := PyInt 1]> ∅))
  /\ (forall (field_name value_ : text) (result : raw),
        nonempty value_ = true ->
        text_eqb value_ (str "None") = false ->
        store_value field_name value_ result
        = <[to_string field_name :=
              if contains "." value_
              then match float_of_text value_ with
                   | Some x => PyFloat x
                   | None => PyStr (to_string value_)
                   end
              else match int_of_text value_ with
                   | Some z => PyInt z
                   | None => PyStr (to_string value_)
                   end]> result)
  /\ store_value (str "C") (str "1.2.3") ∅ = {[ "C" := PyStr "1.2.3" ]}
  /\ store_value (str "D") (str "abc") ∅ = {[ "D" := PyStr "abc" ]}
  /\ store_value (str "E") (str "None") ∅ = ∅.
Proof.
  split; [| split; [| repeat split]].
  - intros h3 h4 h5 h6 h7 d2 d3 d4 d5 d6 d7 H csv_data. forall_inv H.
    split; [apply parse_header_data | apply parse_header_data_comprehensive];
      assumption.
  - intros field_name value_ result Hne Hnone. unfold store_value.
    rewrite Hne, Hnone. cbn [negb andb].
    destruct (contains "." value_);
      [destruct (float_of_text value_) | destruct (int_of_text value_)];
      reflexivity.
Qed.

(** The response of the store for the fields [A] and [B]. *)
Lemma C2_witness :
  EnpalDataFetcher._parse_csv_response
    (join "010"
       [header_AB (str "_start") (str "_stop") (str "_time") (str "_measurement")
                  (str "device");
        data_1_25 (str "0") (str "2024-01-01T00:00:00Z") (str "2024-01-01T00:05:00Z")
                  (str "2024-01-01T00:04:00Z") (str "foxess") (str "inverter")])
  = <["B" := PyFloat 2.5]> (<["A" := PyInt 1]> ∅).
Proof.
  apply (proj1 C2_parser_int_float).
  repeat (apply List.Forall_cons; [split; reflexivity |]). apply List.Forall_nil.
Defined.


(* ================================================================== *)
(** * The refresh cache *)
(* ================================================================== *)

Lemma dashboard_data_online (r : responses) (now : Z) (d : pydict) :
  dashboard_data r now = Ok d ->
  d <> [] /\ EnpalAPIServer.status_online d = true.
Proof.
  unfold dashboard_data. intros H.
  repeat (apply bind_ok in H; destruct H as (? & _ & H)).
  injection H as <-. split; [discriminate | reflexivity].
Qed.

Lemma get_complete_dashboard_data_online (r : responses) (now : Z) :
  let new_data := get_complete_dashboard_data r now in
  obj_truthy (ODict new_data) = true
  /\ EnpalAPIServer.status_online new_data = is_ok (dashboard_data r now).
Proof.
  unfold get_complete_dashboard_data.
  destruct (dashboard_data r now) as [d | e] eqn:Hd; simpl is_ok.
  - destruct (dashboard_data_online r now d Hd) as [Hne Hon].
    split; [destruct d; [contradiction | reflexivity] | exact Hon].
  - split; reflexivity.
Qed.


Lemma update_data_cases (st : EnpalAPIServer.state) (c : EnpalAPIServer.cycle) :
  let new_data :=
    get_complete_dashboard_data (EnpalAPIServer.answers c) (EnpalAPIServer.t_data c) in
  EnpalAPIServer._update_data st c
  = if EnpalAPIServer.status_online new_data
    then {| EnpalAPIServer.cached_data := new_data;
            EnpalAPIServer.last_update := Some (EnpalAPIServer.t_update c);
            EnpalAPIServer.update_interval := EnpalAPIServer.update_interval st |}
    else st.
Proof.
  cbv zeta. unfold EnpalAPIServer._update_data.
  destruct (get_complete_dashboard_data_online (EnpalAPIServer.answers c)
              (EnpalAPIServer.t_data c)) as [Ht _].
  rewrite Ht. reflexivity.
Qed.







(* ================================================================== *)
(** * Defaults of absent fields *)
(* ================================================================== *)







(** ** The sign of a rounded float *)

Lemma binary_round_aux_sign s m e l :
  match binary_round_aux prec emax s m e l with
  | S754_zero s' | S754_infinity s' | S754_finite s' _ _ => s' = s
  | S754_nan => True
  end.
Proof.
  unfold binary_round_aux.
  destruct (shr_fexp prec emax m e l) as [mrs1 e1].
  destruct (shr_fexp prec emax _ e1 loc_Exact) as [mrs3 e3].
  destruct (shr_m mrs3); try reflexivity.
  destruct (e3 <=? emax - prec); reflexivity.
Qed.

Lemma binary_round_nonneg m e : SF_nonneg (binary_round prec emax false m e).
Proof.
  unfold binary_round. destruct (shl_align m e _) as [mz ez].
  pose proof (binary_round_aux_sign false (Zpos mz) ez loc_Exact) as H.
  unfold SF_nonneg. destruct (binary_round_aux _ _ _ _ _ _); auto.
Qed.

Lemma binary_normalize_nonneg z : 0 <= z -> SF_nonneg (binary_normalize prec emax z 0 false).
Proof.
  intros Hz. destruct z as [| p | p]; simpl binary_normalize; try lia.
  - reflexivity.
  - apply binary_round_nonneg.
Qed.

Lemma SFdiv_nonneg m1 e1 m2 e2 :
  SF_nonneg (SF64div (S754_finite false m1 e1) (S754_finite false m2 e2)).
Proof.
  unfold SF64div, SFdiv.
  destruct (SFdiv_core_binary prec emax (Zpos m1) e1 (Zpos m2) e2) as [[q e'] l].
  pose proof (binary_round_aux_sign (xorb false false) q e' l) as H.
  unfold SF_nonneg. destruct (binary_round_aux _ _ _ _ _ _); auto.
Qed.

Lemma decimal_to_SF_nonneg d e10 : SF_nonneg (decimal_to_SF d e10).
Proof.
  unfold decimal_to_SF. destruct d as [| p | p]; try reflexivity.
  destruct (0 <=? e10).
  - apply binary_normalize_nonneg.
    assert (0 <= 10 ^ e10) by (apply Z.pow_nonneg; lia). lia.
  - apply SFdiv_nonneg.
Qed.

Lemma SFldexp_nonneg x e : SF_nonneg x -> SF_nonneg (SFldexp prec emax x e).
Proof.
  destruct x as [s | s | | s m e']; simpl; auto.
  intros ->. apply binary_round_nonneg.
Qed.

Lemma SF_nonneg_not_negative x :
  SF_nonneg x -> SFltb x (S754_zero false) = false.
Proof. destruct x as [s | s | | s m e]; simpl; try intros ->; reflexivity. Qed.

(** The float of a sign-free specification is not below zero. *)
Lemma SF2Prim_nonneg x : SF_nonneg x -> (SF2Prim x <? 0)%float = false.
Proof.
  intros Hx. destruct x as [s | s | | s m e]; simpl in Hx; subst; try reflexivity.
  unfold SF2Prim, Z.ldexp.
  rewrite FloatAxioms.ltb_spec, Prim2SF_zero, ldshiftexp_spec, of_uint63_spec.
  apply SF_nonneg_not_negative, SFldexp_nonneg, binary_normalize_nonneg.
  apply Uint63.to_Z_bounded.
Qed.

(** Rounding a positive float never gives a negative one. *)
Lemma float_round_nonneg (x : float) (n : Z) :
  is_positive x = true -> (float_round x n <? 0)%float = false.
Proof.
  intros Hx. unfold float_round.
  destruct (is_positive_shape x Hx) as [H | (m & e & H)]; rewrite H.
  - apply is_positive_not_negative, Hx.
  - apply SF2Prim_nonneg, decimal_to_SF_nonneg.
Qed.

(** [max(0, v)] is not negative, nor is its rounding. *)
Lemma py_max_zero_cases (v a : value) :
  py_max (PyInt 0) v = Ok a ->
  a = PyInt 0 \/ (exists z, a = PyInt z /\ 0 < z)
  \/ (exists x, a = PyFloat x /\ is_positive x = true).
Proof.
  unfold py_max. destruct v as [z | x | s].
  - unfold py_gt. simpl. destruct (Z.ltb_spec 0 z) as [Hz | Hz]; intros Heq;
      injection Heq as <-; eauto.
  - rewrite py_gt_zero. simpl. destruct (is_positive x) eqn:Hp; intros Heq;
      injection Heq as <-; eauto.
  - discriminate.
Qed.

Lemma py_max_zero_nonneg (v a : value) :
  py_max (PyInt 0) v = Ok a -> negative a = false.
Proof.
  intros H. destruct (py_max_zero_cases v a H) as [-> | [(z & -> & Hz) | (x & -> & Hx)]];
    simpl; [reflexivity | apply Z.ltb_ge; lia | apply is_positive_not_negative, Hx].
Qed.

Lemma round_max_zero_nonneg (v a : value) (n : Z) :
  round_ (max_ (PyInt 0) v) n = Ok a -> negative a = false.
Proof.
  unfold round_, max_, lift2, const. cbn [bind]. intros H.
  apply bind_ok in H. destruct H as (m & Hm & H).
  destruct (py_max_zero_cases v m Hm) as [-> | [(z & -> & Hz) | (x & -> & Hx)]];
    simpl in H; injection H as <-; simpl.
  - reflexivity.
  - apply Z.ltb_ge; lia.
  - apply float_round_nonneg, Hx.
Qed.

(* ================================================================== *)
(** * The views *)
(* ================================================================== *)

Ltac bind_inv H :=
  repeat (let v := fresh "v" in
          let E := fresh "E" in
          apply bind_ok in H; destruct H as (v & E & H)).

Ltac bind_step H v E :=
  apply bind_ok in H; destruct H as (v & E & H).

(** The quotient of two values is a float. *)
Lemma py_truediv_float (a b : expr) (v : value) :
  (a / b)%py = Ok v -> exists x, v = PyFloat x.
Proof.
  unfold lift2. intros H. bind_inv H.
  destruct v0 as [x | x | s], v1 as [y | y | t]; simpl in H; try discriminate;
    bind_inv H; injection H as <-; eauto.
Qed.

(** C4: in the power view every watt field is divided by 1000 and rounded
    to 3 decimals, and the power factor is rounded to 3 decimals without
    being scaled; the view is produced for all numeric fields, and a
    production of 1500 W gives [production_total = 1.5].  The energy-flow
    view and the string view, the other two that show watt fields, divide
    by 1000 as well (and round to 2 decimals). *)
Theorem C4_power_scaling :
  (forall (all_data : raw) (d : view),
     get_power_comprehensive all_data = Ok d ->
     (forall out src, In (out, src) Defaults.watt_fields ->
        item d out = round_ (get all_data src (PyInt 0) / PyInt 1000)%py 3)
     /\ item d "power_factor" = round_ (get all_data "Power.Factor" (PyInt 0)) 3)
  /\ (forall all_data : raw,
        numeric_fields all_data (map fst Defaults.power) = true ->
        is_ok (get_power_comprehensive all_data) = true)
  /\ (forall (all_data : raw) (d : view),
        get all_data "Power.Production.Total" (PyInt 0) = PyInt 1500 ->
        get_power_comprehensive all_data = Ok d ->
        item d "production_total" = Ok (PyFloat 1.5))
  /\ (forall (all_data : raw) (d : view),
        get_energy_flow_data all_data = Ok d ->
        item d "pv_power"
        = round_ (get all_data "Power.Production.Total" (PyInt 0) / PyInt 1000)%py 2
        /\ item d "consumption_power"
           = round_ (get all_data "Power.Consumption.Total" (PyInt 0) / PyInt 1000)%py 2
        /\ item d "battery_power"
           = round_ (get all_data "Power.Battery.Charge.Discharge" (PyInt 0) / PyInt 1000)%py 2
        /\ item d "grid_power"
           = round_ (get all_data "Power.External.Total" (PyInt 0) / PyInt 1000)%py 2)
  /\ (forall (all_data : raw) (d : view),
        get_string_data all_data = Ok d ->
        item d "string1_power"
        = round_ (get all_data "Power.DC.String.1" (PyInt 0) / PyInt 1000)%py 2
        /\ item d "string2_power"
           = round_ (get all_data "Power.DC.String.2" (PyInt 0) / PyInt 1000)%py 2).
Proof.
  split; [|split; [|split; [|split]]].
  - intros all_data d H. unfold get_power_comprehensive in H. split.
    + intros out src Hin. rewrite (dict_item _ _ out H).
      simpl in Hin.
      repeat (destruct Hin as [Heq | Hin];
              [injection Heq as <- <-; reflexivity |]).
      contradiction.
    + rewrite (dict_item _ _ _ H). reflexivity.
  - exact get_power_comprehensive_ok.
  - intros all_data d Hget H. unfold get_power_comprehensive in H.
    rewrite (dict_item _ _ _ H). cbn [literal_item String.eqb Ascii.eqb Bool.eqb].
    rewrite Hget. reflexivity.
  - intros all_data d H. unfold get_energy_flow_data in H.
    bind_step H p1 E1. bind_step H p2 E2. bind_step H p3 E3. bind_step H p4 E4.
    rewrite !(dict_item _ _ _ H). cbn [literal_item String.eqb Ascii.eqb Bool.eqb].
    rewrite E1, E2, E3, E4. repeat split; reflexivity.
  - intros all_data d H. unfold get_string_data in H.
    bind_step H p1 E1. bind_step H p2 E2. bind_step H b Eb.
    rewrite !(dict_item _ _ _ H). cbn [literal_item String.eqb Ascii.eqb Bool.eqb].
    rewrite E1, E2. split; reflexivity.
Qed.

(** [Power.Production.Total = 1500] *)
Lemma C4_witness :
  exists d, get_power_comprehensive raw_1500 = Ok d
            /\ item d "production_total" = Ok (PyFloat 1.5).
Proof.
  eexists. split; [vm_compute; reflexivity|].
  apply (proj1 (proj2 (proj2 C4_power_scaling)) raw_1500); reflexivity.
Defined.

(** C5: in the battery view [power_kw] is
    [round(voltage * current / 1000, 3)] when the battery voltage and the
    battery current are both non-zero, and the integer 0 otherwise; the
    view is produced for all numeric fields, and a voltage of 0 with a
    current of 5 gives exactly 0. *)
Theorem C5_battery_power_kw :
  (forall (all_data : raw) (d : view),
     get_battery_comprehensive all_data = Ok d ->
     let voltage := get all_data "Voltage.Battery" (PyInt 0) in
     let current := get all_data "Current.Battery" (PyInt 0) in
     (truthy voltage && truthy current = true ->
      item d "power_kw" = round_ (voltage * current / PyInt 1000)%py 3)
     /\ (truthy voltage && truthy current = false ->
         item d "power_kw" = Ok (PyInt 0)))
  /\ (forall all_data : raw,
        numeric_fields all_data (map fst Defaults.battery_comprehensive) = true ->
        is_ok (get_battery_comprehensive all_data) = true)
  /\ (forall all_data : raw,
        get all_data "Voltage.Battery" (PyInt 0) = PyInt 0 ->
        get all_data "Current.Battery" (PyInt 0) = PyInt 5 ->
        numeric_fields all_data (map fst Defaults.battery_comprehensive) = true ->
        exists d, get_battery_comprehensive all_data = Ok d
                  /\ item d "power_kw" = Ok (PyInt 0)).
Proof.
  assert (Hinv : forall (all_data : raw) (d : view),
            get_battery_comprehensive all_data = Ok d ->
            item d "power_kw"
            = battery_power_kw (get all_data "Voltage.Battery" (PyInt 0))
                               (get all_data "Current.Battery" (PyInt 0))).
  { intros all_data d H. unfold get_battery_comprehensive in H. cbv zeta in H.
    rewrite (dict_item _ _ _ H). reflexivity. }
  split; [|split].
  - intros all_data d H voltage current. rewrite (Hinv _ _ H).
    fold voltage current. unfold battery_power_kw, if_else. cbn [bind].
    split; intros ->; reflexivity.
  - exact get_battery_comprehensive_ok.
  - intros all_data Hv Hc Hnum.
    pose proof (get_battery_comprehensive_ok all_data Hnum) as Hok.
    apply is_ok_true in Hok. destruct Hok as [d Hd]. exists d. split; [exact Hd|].
    rewrite (Hinv _ _ Hd), Hv, Hc. reflexivity.
Qed.

(** [Voltage.Battery = 0], [Current.Battery = 5] *)
Lemma C5_witness :
  exists d, get_battery_comprehensive raw_v0_c5 = Ok d
            /\ item d "power_kw" = Ok (PyInt 0).
Proof.
  apply (proj2 (proj2 C5_battery_power_kw) raw_v0_c5); reflexivity.
Defined.

(** What [get_daily_summary] puts under its two derived keys. *)
Lemma get_daily_summary_inv (all_data : raw) (d : view) :
  get_daily_summary all_data = Ok d ->
  let production_day := get all_data "Energy.Production.Total.Day" (PyInt 0) in
  let consumption_day := get all_data "Energy.Consumption.Total.Day" (PyInt 0) in
  let export_day := get all_data "Energy.Grid.Export.Day" (PyInt 0) in
  let import_day := get all_data "Energy.Grid.Import.Day" (PyInt 0) in
  item d "grid_export_today" = round_ (max_ (PyInt 0) (export_day - import_day)%py) 2
  /\ item d "autarky_rate"
     = max_ (PyInt 0) (daily_autarky production_day consumption_day export_day).
Proof.
  intros H. cbv zeta. unfold get_daily_summary in H. cbv zeta in H.
  bind_step H g Eg. bind_step H a Ea.
  rewrite !(dict_item _ _ _ H). cbn [literal_item String.eqb Ascii.eqb Bool.eqb].
  rewrite Eg, Ea. split; reflexivity.
Qed.

(** C6 does not hold as stated: the quotient is rounded to one decimal
    before it is clamped.  A production of 1 with no export and a
    consumption of 3 gives 33.3, where the formula without the rounding
    gives 33.33333333333333. *)
#[warnings="-inexact-float"]
Lemma C6_counterexample :
  exists d a,
    get_daily_summary raw_third = Ok d
    /\ item d "autarky_rate" = Ok (PyFloat a)
    /\ a = 33.3%float
    /\ max_ (PyInt 0) (min_ (PyInt 100) ((PyInt 1 - PyInt 0) / PyInt 3 * PyInt 100)%py)
       = Ok (PyFloat 33.33333333333333)
    /\ (a =? 33.33333333333333)%float = false.
Proof.
  eexists. eexists. split; [vm_compute; reflexivity|].
  split; [reflexivity | split; [reflexivity | split; reflexivity]].
Qed.

(** C6, as the code has it: the autarky rate of the daily summary is
    [max(0, min(100, round((production_day - export_day) / consumption_day
    * 100, 1)))] when [consumption_day > 0], and 0 when it is not; it is
    never negative.  The summary is produced for all numeric fields, and a
    production of 5 with an export of 8 and a consumption of 10 gives
    exactly 0. *)
Theorem C6_autarky_rounded :
  (forall (all_data : raw) (d : view),
     get_daily_summary all_data = Ok d ->
     let production_day := get all_data "Energy.Production.Total.Day" (PyInt 0) in
     let consumption_day := get all_data "Energy.Consumption.Total.Day" (PyInt 0) in
     let export_day := get all_data "Energy.Grid.Export.Day" (PyInt 0) in
     ((consumption_day > PyInt 0)%py = Ok true ->
      item d "autarky_rate"
      = max_ (PyInt 0)
          (min_ (PyInt 100)
             (round_ ((production_day - export_day) / consumption_day * PyInt 100)%py 1)))
     /\ ((consumption_day > PyInt 0)%py = Ok false ->
         item d "autarky_rate" = Ok (PyInt 0))
     /\ exists a, item d "autarky_rate" = Ok a /\ negative a = false)
  /\ (forall all_data : raw,
        numeric_fields all_data (map fst Defaults.daily) = true ->
        is_ok (get_daily_summary all_data) = true)
  /\ (forall (all_data : raw) (d : view),
        get all_data "Energy.Production.Total.Day" (PyInt 0) = PyInt 5 ->
        get all_data "Energy.Grid.Export.Day" (PyInt 0) = PyInt 8 ->
        get all_data "Energy.Consumption.Total.Day" (PyInt 0) = PyInt 10 ->
        get_daily_summary all_data = Ok d ->
        item d "autarky_rate" = Ok (PyInt 0)).
Proof.
  split; [|split].
  - intros all_data d H production_day consumption_day export_day.
    destruct (get_daily_summary_inv _ _ H) as [_ Ha]. cbv zeta in Ha.
    fold production_day consumption_day export_day in Ha.
    split; [|split].
    + intros Hc. rewrite Ha. unfold daily_autarky. rewrite Hc. cbn [bind].
      destruct (production_day - export_day)%py as [sc | e] eqn:Hsc; reflexivity.
    + intros Hc. rewrite Ha. unfold daily_autarky. rewrite Hc. reflexivity.
    + destruct (item d "autarky_rate") as [a | e] eqn:Hitem.
      * exists a. split; [reflexivity|].
        symmetry in Ha. unfold max_, lift2, const in Ha. cbn [bind] in Ha.
        bind_step Ha au Eau. exact (py_max_zero_nonneg _ _ Ha).
      * exfalso. unfold get_daily_summary in H. cbv zeta in H.
        bind_step H g Eg. bind_step H au Eau.
        rewrite (dict_item _ _ _ H) in Hitem.
        cbn [literal_item String.eqb Ascii.eqb Bool.eqb] in Hitem.
        pose proof (f_equal is_ok H) as Hok. rewrite is_ok_dict in Hok.
        cbn [forallb snd is_ok] in Hok. rewrite Hitem in Hok.
        rewrite !andb_false_r in Hok. discriminate.
  - exact get_daily_summary_ok.
  - intros all_data d Hp He Hc H.
    destruct (get_daily_summary_inv _ _ H) as [_ Ha]. cbv zeta in Ha.
    rewrite Ha, Hp, He, Hc. reflexivity.
Qed.

(** production 5, export 8, consumption 10 *)
Lemma C6_witness :
  exists d, get_daily_summary raw_export_exceeds = Ok d
            /\ item d "autarky_rate" = Ok (PyInt 0).
Proof.
  eexists. split; [vm_compute; reflexivity|].
  apply (proj2 (proj2 C6_autarky_rounded) raw_export_exceeds); reflexivity.
Defined.

(** C10: [grid_export_today] of the daily summary is
    [round(max(0, Energy.Grid.Export.Day - Energy.Grid.Import.Day), 2)]:
    the export is netted against the import and clamped at zero, so that
    it is never negative; an export of 2 with an import of 5 gives 0.  The
    summary is produced for all numeric fields. *)
Theorem C10_grid_export_net :
  (forall (all_data : raw) (d : view),
     get_daily_summary all_data = Ok d ->
     let export_day := get all_data "Energy.Grid.Export.Day" (PyInt 0) in
     let import_day := get all_data "Energy.Grid.Import.Day" (PyInt 0) in
     item d "grid_export_today" = round_ (max_ (PyInt 0) (export_day - import_day)%py) 2
     /\ exists b, item d "grid_export_today" = Ok b /\ negative b = false)
  /\ (forall all_data : raw,
        numeric_fields all_data (map fst Defaults.daily) = true ->
        is_ok (get_daily_summary all_data) = true)
  /\ (exists d, get_daily_summary raw_import_exceeds = Ok d
                /\ item d "grid_export_today" = Ok (PyInt 0)).
Proof.
  split; [|split].
  - intros all_data d H export_day import_day.
    destruct (get_daily_summary_inv _ _ H) as [Hg _]. cbv zeta in Hg.
    fold export_day import_day in Hg. split; [exact Hg|].
    unfold get_daily_summary in H. cbv zeta in H.
    bind_step H g Eg. bind_step H a Ea.
    fold export_day import_day in Eg. rewrite Eg in Hg.
    pose proof (f_equal is_ok H) as Hok. rewrite is_ok_dict in Hok.
    cbn [forallb snd is_ok] in Hok.
    destruct (round_ (max_ (PyInt 0) g) 2) as [b | e] eqn:Hb.
    + exists b. split; [rewrite Hg; exact Hb|]. exact (round_max_zero_nonneg _ _ _ Hb).
    + exfalso. cbn [is_ok] in Hok. rewrite !andb_false_r, ?andb_false_l in Hok.
      discriminate.
  - exact get_daily_summary_ok.
  - eexists. split; [vm_compute; reflexivity | reflexivity].
Qed.

(** export 2, import 5 *)
Lemma C10_witness :
  exists d b, get_daily_summary raw_import_exceeds = Ok d
              /\ item d "grid_export_today" = Ok b
              /\ negative b = false.
Proof.
  destruct (get_daily_summary raw_import_exceeds) as [d | e] eqn:Hd;
    [| vm_compute in Hd; discriminate].
  destruct (proj2 (proj1 C10_grid_export_net raw_import_exceeds d Hd)) as (b & Hb & Hn).
  exists d, b. split; [reflexivity | split; [exact Hb | exact Hn]].
Defined.

Lemma Prim2SF_100 : Prim2SF 100%float = S754_finite false 7036874417766400 (-46).
Proof. reflexivity. Qed.

Lemma Prim2SF_infinity : Prim2SF infinity = S754_infinity false.
Proof. reflexivity. Qed.

Lemma tenths_in_range_true : tenths_in_range = true.
Proof. vm_compute. reflexivity. Qed.

Lemma tenth_in_range (k : Z) :
  0 <= k <= 1000 ->
  between_0_100 (PyFloat (SF2Prim (decimal_to_SF k (-1)))) = true.
Proof.
  intros Hk. pose proof tenths_in_range_true as H. unfold tenths_in_range in H.
  rewrite forallb_forall in H. specialize (H (Z.to_nat k)).
  rewrite Z2Nat.id in H by lia. apply H. apply in_seq. lia.
Qed.

(** A number divided by itself is one. *)
Lemma SFdiv_self (m : positive) (e : Z) :
  SF64div (S754_finite false m e) (S754_finite false m e)
  = S754_finite false 4503599627370496 (-52).
Proof.
  unfold SF64div, SFdiv, SFdiv_core_binary.
  replace (Zdigits2 (Zpos m) + e - (Zdigits2 (Zpos m) + e)) with 0 by lia.
  replace (e - e) with 0 by lia.
  change (Z.min (fexp prec emax 0) 0) with (-53). change (0 - -53) with 53.
  rewrite Z.shiftl_mul_pow2 by lia.
  destruct (Z.div_eucl (Zpos m * 2 ^ 53) (Zpos m)) as [q r] eqn:Hqr.
  assert (Hq : q = 2 ^ 53).
  { change q with (fst (q, r)). rewrite <- Hqr. change (fst (Z.div_eucl ?a ?b)) with (a / b).
    rewrite Z.mul_comm. apply Z.div_mul. lia. }
  assert (Hr : r = 0).
  { change r with (snd (q, r)). rewrite <- Hqr.
    change (snd (Z.div_eucl ?a ?b)) with (a mod b).
    rewrite Z.mul_comm. apply Z.mod_mul. lia. }
  subst q r. unfold new_location, new_location_even, new_location_odd.
  destruct (Z.even (Zpos m)); reflexivity.
Qed.

Lemma SFltb_finite_pos (m1 : positive) (e1 : Z) (m2 : positive) (e2 : Z) :
  bounded prec emax m1 e1 = true -> bounded prec emax m2 e2 = true ->
  SFltb (S754_finite false m1 e1) (S754_finite false m2 e2)
  = (Zpos m1 * 2 ^ (e1 + 1074) <? Zpos m2 * 2 ^ (e2 + 1074)).
Proof.
  intros H1 H2. unfold SFltb. rewrite (SFcompare_finite_pos _ _ _ _ H1 H2).
  unfold Z.ltb. reflexivity.
Qed.

(** The smaller of two positive finite floats divided by the larger is at
    most one. *)
Lemma min_max_quotient (p1 p2 : float) (m1 : positive) (e1 : Z) (m2 : positive) (e2 : Z) :
  Prim2SF p1 = S754_finite false m1 e1 ->
  Prim2SF p2 = S754_finite false m2 e2 ->
  SF_unit (Prim2SF (float_min p1 p2 / float_max p1 p2)).
Proof.
  intros H1 H2.
  pose proof (Prim2SF_valid p1) as V1. rewrite H1 in V1. simpl in V1.
  pose proof (Prim2SF_valid p2) as V2. rewrite H2 in V2. simpl in V2.
  unfold float_min, float_max. rewrite !FloatAxioms.ltb_spec, H1, H2.
  rewrite (SFltb_finite_pos _ _ _ _ V2 V1), (SFltb_finite_pos _ _ _ _ V1 V2).
  set (v1 := Zpos m1 * 2 ^ (e1 + 1074)). set (v2 := Zpos m2 * 2 ^ (e2 + 1074)).
  destruct (Z.ltb_spec v2 v1) as [Hlt | Hge].
  - destruct (Z.ltb_spec v1 v2) as [Hlt' | _]; [lia|].
    rewrite FloatAxioms.div_spec, H1, H2.
    destruct (SFdiv_le_one _ _ _ _ V2 V1 Hlt) as [H | (m3 & e3 & H & He & Hm)];
      [left; exact H | right; eauto].
  - destruct (Z.ltb_spec v1 v2) as [Hlt | Hge'].
    + rewrite FloatAxioms.div_spec, H1, H2.
      destruct (SFdiv_le_one _ _ _ _ V1 V2 Hlt) as [H | (m3 & e3 & H & He & Hm)];
        [left; exact H | right; eauto].
    + rewrite FloatAxioms.div_spec, H1, SFdiv_self. right.
      exists 4503599627370496%positive, (-52). split; [reflexivity|]. split; [lia|].
      reflexivity.
Qed.

(** At most one, times a hundred, is at most a hundred. *)
Lemma percent_of_unit (q : float) :
  SF_unit (Prim2SF q) -> SF_percent (Prim2SF (q * 100)).
Proof.
  intros Hq. rewrite FloatAxioms.mul_spec, Prim2SF_100.
  pose proof (Prim2SF_valid q) as V.
  destruct Hq as [-> | (m & e & Hq & He & Hm)]; [left; reflexivity|].
  rewrite Hq in V |- *. simpl in V.
  destruct (Z_lt_le_dec (Zpos m) (2 ^ (0 - e))) as [Hlt | Hge].
  - destruct (SFmul_below m e 7036874417766400 (-46)) as [H | (m4 & e4 & H & He4 & Hm4)];
      try lia; try (simpl; lia).
    + left. exact H.
    + right. exists m4, e4. auto.
  - destruct (valid_one m e V He ltac:(lia)) as [-> ->].
    right. exists 7036874417766400%positive, (-46).
    split; [reflexivity | split; [lia | reflexivity]].
Qed.

(** A float of at most a hundred rounds to one decimal within range. *)
Lemma round_percent_in_range (x : float) :
  SF_percent (Prim2SF x) -> between_0_100 (PyFloat (float_round x 1)) = true.
Proof.
  intros [H | (m & e & H & He & Hm)].
  - assert (x = 0%float) as -> by (apply Prim2SF_inj; rewrite H; reflexivity).
    reflexivity.
  - unfold float_round. rewrite H.
    destruct (Z.leb_spec 0 e) as [Hpos | Hneg]; [lia|].
    apply tenth_in_range.
    assert (Hp : 0 < 2 ^ (- e)) by (apply Z.pow_pos_nonneg; lia).
    apply (round_half_even_div_bounds (Zpos m * 10 ^ 1) (2 ^ (- e)) 1000); try lia.
    change (10 ^ 1) with 10.
    replace (- e) with (46 + (-46 - e)) by lia. rewrite Z.pow_add_r by lia.
    change (2 ^ 46) with 70368744177664.
    assert (0 < 2 ^ (-46 - e)) by (apply Z.pow_pos_nonneg; lia). nia.
Qed.

(** The balance of two positive string powers is in range unless both
    are infinite. *)
Lemma balance_in_range (p1 p2 : float) :
  is_positive p1 = true -> is_positive p2 = true ->
  ~ (p1 = infinity /\ p2 = infinity) ->
  between_0_100 (PyFloat (float_round (float_min p1 p2 / float_max p1 p2 * 100) 1)) = true.
Proof.
  intros H1 H2 Hinf.
  apply round_percent_in_range.
  destruct (is_positive_shape p1 H1) as [I1 | (m1 & e1 & F1)];
    destruct (is_positive_shape p2 H2) as [I2 | (m2 & e2 & F2)].
  - exfalso. apply Hinf. split; apply Prim2SF_inj; rewrite Prim2SF_infinity; assumption.
  - left. rewrite FloatAxioms.mul_spec, FloatAxioms.div_spec, Prim2SF_100.
    unfold float_min, float_max. rewrite !FloatAxioms.ltb_spec, I1, F2.
    cbn [SFltb SFcompare]. rewrite I1, F2. reflexivity.
  - left. rewrite FloatAxioms.mul_spec, FloatAxioms.div_spec, Prim2SF_100.
    unfold float_min, float_max. rewrite !FloatAxioms.ltb_spec, F1, I2.
    cbn [SFltb SFcompare]. rewrite F1, I2. reflexivity.
  - apply percent_of_unit. exact (min_max_quotient p1 p2 m1 e1 m2 e2 F1 F2).
Qed.

(** What [get_string_data] puts under [balance_percentage]. *)
Lemma get_string_data_inv (all_data : raw) (d : view) :
  get_string_data all_data = Ok d ->
  exists p1 p2 : float,
    (get all_data "Power.DC.String.1" (PyInt 0) / PyInt 1000)%py = Ok (PyFloat p1)
    /\ (get all_data "Power.DC.String.2" (PyInt 0) / PyInt 1000)%py = Ok (PyFloat p2)
    /\ item d "balance_percentage"
       = Ok (if is_positive p1 && is_positive p2
             then PyFloat (float_round (float_min p1 p2 / float_max p1 p2 * 100) 1)
             else PyInt 100).
Proof.
  intros H. unfold get_string_data in H.
  bind_step H v1 E1. bind_step H v2 E2. cbv zeta in H. bind_step H b Eb.
  destruct (py_truediv_float _ _ _ E1) as [p1 ->].
  destruct (py_truediv_float _ _ _ E2) as [p2 ->].
  exists p1, p2. split; [exact E1 | split; [exact E2 |]].
  rewrite (dict_item _ _ _ H). cbn [literal_item String.eqb Ascii.eqb Bool.eqb].
  rewrite string_balance_float in Eb. injection Eb as <-. reflexivity.
Qed.

(** C7: with [p1] and [p2] the two string powers in kW,
    [balance_percentage] of the string view is
    [round(min(p1, p2) / max(p1, p2) * 100, 1)] when both are strictly
    positive, and the integer 100 in every other case; the view is
    produced for all numeric fields. *)
Theorem C7_string_balance :
  (forall (all_data : raw) (d : view),
     get_string_data all_data = Ok d ->
     exists p1 p2 : float,
       (get all_data "Power.DC.String.1" (PyInt 0) / PyInt 1000)%py = Ok (PyFloat p1)
       /\ (get all_data "Power.DC.String.2" (PyInt 0) / PyInt 1000)%py = Ok (PyFloat p2)
       /\ (is_positive p1 = true -> is_positive p2 = true ->
           item d "balance_percentage"
           = Ok (PyFloat (float_round (float_min p1 p2 / float_max p1 p2 * 100) 1)))
       /\ (is_positive p1 && is_positive p2 = false ->
           item d "balance_percentage" = Ok (PyInt 100)))
  /\ (forall all_data : raw,
        numeric_fields all_data (map fst Defaults.strings) = true ->
        is_ok (get_string_data all_data) = true).
Proof.
  split; [| exact get_string_data_ok].
  intros all_data d H.
  destruct (get_string_data_inv _ _ H) as (p1 & p2 & E1 & E2 & Hb).
  exists p1, p2. split; [exact E1 | split; [exact E2 | split]].
  - intros H1 H2. rewrite Hb, H1, H2. reflexivity.
  - intros Hn. rewrite Hb, Hn. reflexivity.
Qed.

(** String powers of 1500 W and 3000 W balance at 50 percent. *)
Lemma C7_witness :
  exists d, get_string_data raw_strings = Ok d
            /\ item d "balance_percentage" = Ok (PyFloat 50).
Proof.
  destruct (get_string_data raw_strings) as [d | e] eqn:Hd;
    [| vm_compute in Hd; discriminate].
  exists d. split; [reflexivity|].
  destruct (proj1 C7_string_balance raw_strings d Hd) as (p1 & p2 & E1 & E2 & Hpos & _).
  vm_compute in E1. injection E1 as <-. vm_compute in E2. injection E2 as <-.
  rewrite Hpos by reflexivity. reflexivity.
Defined.

(** C9 does not hold as stated: a response whose two string powers read
    [1.0e999] is parsed to two infinite floats, and the balance of two
    infinite powers is not a number, which is not in the interval. *)
Lemma C9_counterexample :
  EnpalDataFetcher._parse_csv_response overflow_csv = raw_overflow
  /\ exists d, get_string_data raw_overflow = Ok d
               /\ item d "balance_percentage" = Ok (PyFloat nan)
               /\ between_0_100 (PyFloat nan) = false.
Proof.
  split; [vm_compute; reflexivity|].
  eexists. split; [vm_compute; reflexivity | split; reflexivity].
Qed.

(** C9, as the code has it: with [p1] and [p2] the two string powers in
    kW, [balance_percentage] lies in the closed interval from 0 to 100
    unless both powers are infinite, and then it is not a number; the view
    is produced for all numeric fields. *)
Theorem C9_balance_range :
  (forall (all_data : raw) (d : view),
     get_string_data all_data = Ok d ->
     exists (p1 p2 : float) (b : value),
       (get all_data "Power.DC.String.1" (PyInt 0) / PyInt 1000)%py = Ok (PyFloat p1)
       /\ (get all_data "Power.DC.String.2" (PyInt 0) / PyInt 1000)%py = Ok (PyFloat p2)
       /\ item d "balance_percentage" = Ok b
       /\ (~ (p1 = infinity /\ p2 = infinity) -> between_0_100 b = true)
       /\ (p1 = infinity /\ p2 = infinity -> b = PyFloat nan))
  /\ (forall all_data : raw,
        numeric_fields all_data (map fst Defaults.strings) = true ->
        is_ok (get_string_data all_data) = true).
Proof.
  split; [| exact get_string_data_ok].
  intros all_data d H.
  destruct (get_string_data_inv _ _ H) as (p1 & p2 & E1 & E2 & Hb).
  exists p1, p2. eexists. split; [exact E1 | split; [exact E2 | split; [exact Hb | split]]].
  - intros Hinf.
    destruct (is_positive p1) eqn:H1; [| reflexivity].
    destruct (is_positive p2) eqn:H2; [| reflexivity].
    exact (balance_in_range p1 p2 H1 H2 Hinf).
  - intros [-> ->]. reflexivity.
Qed.

(** String powers of 1500 W and 3000 W. *)
Lemma C9_witness :
  exists d b, get_string_data raw_strings = Ok d
              /\ item d "balance_percentage" = Ok b
              /\ between_0_100 b = true.
Proof.
  destruct (get_string_data raw_strings) as [d | e] eqn:Hd;
    [| vm_compute in Hd; discriminate].
  destruct (proj1 C9_balance_range raw_strings d Hd)
    as (p1 & p2 & b & E1 & E2 & Hb & Hin & _).
  exists d, b. split; [reflexivity | split; [exact Hb |]].
  apply Hin. intros [Hp1 _]. subst p1. vm_compute in E1. discriminate.
Defined.

(* ================================================================== *)
(** * Further properties of the parser *)
(* ================================================================== *)

Lemma parse_by_lines (csv_data : text) :
  EnpalDataFetcher._parse_csv_response csv_data
  = fst (fold_left parse_line (lines_of csv_data) (∅, [])).
Proof.
  unfold EnpalDataFetcher._parse_csv_response, lines_of.
  destruct csv_data; reflexivity.
Qed.

Lemma parse_comprehensive_by_lines (csv_data : text) :
  EnpalComprehensiveDataFetcher._parse_csv_response csv_data
  = fst (fold_left parse_line (lines_of csv_data) (∅, [])).
Proof.
  unfold EnpalComprehensiveDataFetcher._parse_csv_response, lines_of.
  destruct csv_data; reflexivity.
Qed.

(** ** White space *)

Lemma drop_while_all (p : ascii -> bool) (t : text) :
  Forall (fun c => p c = true) t -> drop_while p t = [].
Proof.
  induction 1 as [| c t Hc _ IH]; simpl; [reflexivity|]. rewrite Hc. exact IH.
Qed.

Lemma drop_while_app_all (p : ascii -> bool) (s t : text) :
  Forall (fun c => p c = true) s -> drop_while p (s ++ t) = drop_while p t.
Proof.
  induction 1 as [| c s Hc _ IH]; simpl; [reflexivity|]. rewrite Hc. exact IH.
Qed.

Lemma strip_spaces (t : text) :
  Forall (fun c => isspace c = true) t -> strip t = [].
Proof.
  intros H. unfold strip, lstrip, rstrip. rewrite (drop_while_all _ _ H). reflexivity.
Qed.

(** Python: a text of white space only is parsed to the empty map. *)
Lemma lines_of_spaces (t : text) :
  Forall (fun c => isspace c = true) t -> lines_of t = [].
Proof.
  intros H. unfold lines_of. rewrite (strip_spaces _ H). reflexivity.
Qed.

(** ** Lines *)

Lemma trimmed_spec (l : text) :
  trimmed l = true ->
  free_of "010" l
  /\ (exists a t, l = a :: t /\ isspace a = false)
  /\ (exists t c, l = t ++ [c] /\ isspace c = false).
Proof.
  unfold trimmed. intros H.
  apply andb_true_iff in H as [H H3]. apply andb_true_iff in H as [H1 H2].
  split; [| split].
  - unfold free_of. destruct (contains "010" l); [discriminate | reflexivity].
  - destruct l as [| a t]; [discriminate|]. exists a, t. split; [reflexivity|].
    destruct (isspace a); [discriminate | reflexivity].
  - destruct (rev l) as [| c r] eqn:Hr; [discriminate|].
    exists (rev r), c. split.
    + rewrite <- (rev_involutive l), Hr. reflexivity.
    + destruct (isspace c); [discriminate | reflexivity].
Qed.

(** Stripping removes the white space after a trimmed text and nothing
    else. *)
Lemma strip_app_spaces (a : ascii) (t t' : text) (c : ascii) (ws : text) :
  a :: t = t' ++ [c] -> isspace a = false -> isspace c = false ->
  Forall (fun x => isspace x = true) ws ->
  strip ((a :: t) ++ ws) = a :: t.
Proof.
  intros Heq Ha Hc Hws. unfold strip, lstrip.
  change ((a :: t) ++ ws) with (a :: (t ++ ws)). cbn [drop_while]. rewrite Ha.
  change (a :: (t ++ ws)) with ((a :: t) ++ ws). rewrite Heq.
  unfold rstrip. rewrite !rev_app_distr. cbn [rev app].
  rewrite drop_while_app_all.
  - cbn [app drop_while]. rewrite Hc. cbn [rev]. rewrite rev_involutive. reflexivity.
  - apply List.Forall_rev, Hws.
Qed.

Lemma rstrip_char_app (x : ascii) (t : text) (c : ascii) (xs : text) :
  Ascii.eqb x c = false -> Forall (fun y => y = x) xs ->
  rstrip_char x ((t ++ [c]) ++ xs) = t ++ [c].
Proof.
  intros Hc Hxs. unfold rstrip_char. rewrite !rev_app_distr. cbn [rev app].
  rewrite drop_while_app_all.
  - cbn [app drop_while]. rewrite Hc. cbn [rev]. rewrite rev_involutive. reflexivity.
  - apply List.Forall_rev. revert Hxs. apply List.Forall_impl.
    intros y ->. apply Ascii.eqb_refl.
Qed.

Lemma cr_isspace (xs : text) :
  Forall (fun y => y = "013"%char) xs -> Forall (fun y => isspace y = true) xs.
Proof. apply List.Forall_impl. intros y ->. reflexivity. Qed.

Lemma cr_free_of_lf (xs : text) :
  Forall (fun y => y = "013"%char) xs -> free_of "010" xs.
Proof.
  induction 1 as [| y xs -> _ IH]; [reflexivity|].
  apply free_of_cons. split; [reflexivity | exact IH].
Qed.

Lemma not_space_not_cr (c : ascii) : isspace c = false -> Ascii.eqb "013" c = false.
Proof.
  intros H. destruct (Ascii.eqb "013" c) eqn:E; [| reflexivity].
  apply Ascii.eqb_eq in E. subst c. discriminate.
Qed.

(** A trimmed line followed by carriage returns is kept by the filter of
    [lines_of] and is the line itself after [rstrip('\r')]. *)
Lemma line_kept (l crs : text) :
  trimmed l = true -> Forall (fun y => y = "013"%char) crs ->
  nonempty (strip (l ++ crs)) = true /\ rstrip_char "013" (l ++ crs) = l.
Proof.
  intros Hl Hcrs. destruct (trimmed_spec l Hl) as (_ & (a & t & -> & Ha) & (t' & c & Heq & Hc)).
  split.
  - rewrite (strip_app_spaces a t t' c crs Heq Ha Hc (cr_isspace _ Hcrs)). reflexivity.
  - rewrite Heq. apply rstrip_char_app; [apply not_space_not_cr, Hc | exact Hcrs].
Qed.

Lemma join_text_cons (sep : text) (l l' : text) (ls : list text) :
  join_text sep (l :: l' :: ls) = l ++ sep ++ join_text sep (l' :: ls).
Proof. reflexivity. Qed.

Lemma join_text_last (sep : text) (ls : list text) :
  ls <> [] -> Forall (fun l => trimmed l = true) ls ->
  exists t c, join_text sep ls = t ++ [c] /\ isspace c = false.
Proof.
  induction ls as [| l ls IH]; intros Hne Hall; [contradiction|].
  inversion Hall as [| l0 ls0 Hl Hls]; subst.
  destruct ls as [| l' ls].
  - destruct (trimmed_spec l Hl) as (_ & _ & (t & c & -> & Hc)). exists t, c. split; [reflexivity | exact Hc].
  - destruct (IH ltac:(discriminate) Hls) as (t & c & Heq & Hc).
    rewrite join_text_cons, Heq. exists (l ++ sep ++ t), c.
    split; [rewrite <- !app_assoc; reflexivity | exact Hc].
Qed.

Lemma join_text_first (sep : text) (l : text) (ls : list text) :
  trimmed l = true ->
  exists a t, join_text sep (l :: ls) = a :: t /\ isspace a = false.
Proof.
  intros Hl. destruct (trimmed_spec l Hl) as (_ & (a & t & -> & Ha) & _).
  destruct ls as [| l' ls].
  - exists a, t. split; [reflexivity | exact Ha].
  - rewrite join_text_cons. exists a, (t ++ sep ++ join_text sep (l' :: ls)).
    split; [reflexivity | exact Ha].
Qed.

(** The lines of a text whose lines are joined by [crs ++ "\n"]. *)
Lemma lines_join_text (crs : text) (ls : list text) :
  Forall (fun y => y = "013"%char) crs ->
  ls <> [] -> Forall (fun l => trimmed l = true) ls ->
  map (rstrip_char "013")
      (List.filter (fun line => nonempty (strip line))
                   (split "010" (join_text (crs ++ ["010"%char]) ls)))
  = ls.
Proof.
  intros Hcrs. induction ls as [| l ls IH]; intros Hne Hall; [contradiction|].
  inversion Hall as [| l0 ls0 Hl Hls]; subst.
  destruct (trimmed_spec l Hl) as (Hfree & _).
  destruct ls as [| l' ls].
  - cbn [join_text]. rewrite (split_free _ _ Hfree). cbn [List.filter].
    destruct (line_kept l [] Hl ltac:(constructor)) as [Hk Hr].
    rewrite app_nil_r in Hk, Hr. rewrite Hk. cbn [map]. rewrite Hr. reflexivity.
  - rewrite join_text_cons.
    replace (l ++ (crs ++ ["010"%char]) ++ join_text (crs ++ ["010"%char]) (l' :: ls))
      with ((l ++ crs) ++ "010"%char :: join_text (crs ++ ["010"%char]) (l' :: ls))
      by (rewrite <- !app_assoc; reflexivity).
    rewrite split_app
      by (apply free_of_app; split; [exact Hfree | apply cr_free_of_lf, Hcrs]).
    cbn [List.filter]. destruct (line_kept l crs Hl Hcrs) as [Hk Hr].
    rewrite Hk. cbn [map]. rewrite Hr. f_equal.
    apply IH; [discriminate | exact Hls].
Qed.

Lemma lines_of_join_text (crs ws : text) (ls : list text) :
  Forall (fun y => y = "013"%char) crs ->
  Forall (fun y => isspace y = true) ws ->
  ls <> [] -> Forall (fun l => trimmed l = true) ls ->
  lines_of (join_text (crs ++ ["010"%char]) ls ++ ws) = ls.
Proof.
  intros Hcrs Hws Hne Hall. unfold lines_of.
  destruct ls as [| l ls]; [contradiction|].
  inversion Hall as [| l0 ls0 Hl Hls]; subst.
  destruct (join_text_first (crs ++ ["010"%char]) l ls Hl) as (a & t & Heq & Ha).
  destruct (join_text_last (crs ++ ["010"%char]) (l :: ls) Hne Hall) as (t' & c & Heq' & Hc).
  rewrite Heq.
  rewrite (strip_app_spaces a t t' c ws) by (try assumption; congruence).
  rewrite <- Heq. apply lines_join_text; assumption.
Qed.

(** ** One line *)

Lemma store_value_coerce (field_name value_ : text) (result : raw) :
  store_value field_name value_ result
  = if storable value_ then <[to_string field_name := coerce value_]> result
    else result.
Proof.
  unfold store_value, storable, coerce.
  destruct (nonempty value_ && negb (text_eqb value_ (str "None"))); [| reflexivity].
  destruct (contains "." value_);
    [destruct (float_of_text value_) | destruct (int_of_text value_)]; reflexivity.
Qed.

Lemma storable_nonempty (v : text) : storable v = true -> nonempty v = true.
Proof. unfold storable. intros H. apply andb_true_iff in H as [H _]. exact H. Qed.

Lemma store_row_updates (i : nat) (names values : list text) (result : raw) :
  store_row i names values result
  = fold_left (fun m kv => <[fst kv := snd kv]> m) (updates i names values) result.
Proof.
  revert i result. induction names as [| n names IH]; intros i result; [reflexivity|].
  cbn [store_row updates]. rewrite fold_left_app, IH. f_equal.
  destruct (values !! i) as [v |]; [| reflexivity].
  rewrite store_value_coerce. unfold storable.
  destruct (nonempty v); [| reflexivity]. cbn [andb].
  destruct (nonempty n); [| rewrite andb_false_r; reflexivity].
  rewrite andb_true_r. destruct (negb (text_eqb v (str "None"))); reflexivity.
Qed.

Lemma fold_insert_union (u : list (string * value)) (result : raw) :
  fold_left (fun m kv => <[fst kv := snd kv]> m) u result
  = list_to_map (rev u) ∪ result.
Proof.
  revert result. induction u as [| [k x] u IH]; intros result; cbn [fold_left rev].
  - cbn. rewrite (left_id_L ∅ (∪)). reflexivity.
  - rewrite IH. cbn [fst snd]. rewrite list_to_map_app. cbn [list_to_map].
    rewrite <- (assoc_L (∪)). f_equal.
    change (list_to_map [(k, x)] : raw) with (<[k := x]> (∅ : raw)).
    rewrite <- insert_union_l, (left_id_L ∅ (∪)). reflexivity.
Qed.

Lemma elem_of_updates (k : string) (x : value) (i : nat) (names values : list text) :
  (k, x) ∈ updates i names values <->
  exists (j : nat) (n v : text),
    names !! j = Some n /\ values !! (i + j)%nat = Some v
    /\ storable v = true /\ nonempty n = true
    /\ k = to_string n /\ x = coerce v.
Proof.
  revert i. induction names as [| n names IH]; intros i; cbn [updates].
  - split; [intros H; inversion H | intros (j & n & v & H & _); discriminate].
  - rewrite elem_of_app, IH. split.
    + intros [H | (j & n' & v & Hn & Hv & Hs & Hne & Hk & Hx)].
      * destruct (values !! i) as [v |] eqn:Hv; [| inversion H].
        destruct (storable v && nonempty n) eqn:Hc; [| inversion H].
        apply andb_true_iff in Hc as [Hs Hne].
        apply list_elem_of_singleton in H. injection H as -> ->.
        exists 0%nat, n, v. rewrite Nat.add_0_r. repeat split; assumption.
      * exists (S j), n', v. replace (i + S j)%nat with (S i + j)%nat by lia.
        repeat split; assumption.
    + intros (j & n' & v & Hn & Hv & Hs & Hne & Hk & Hx).
      destruct j as [| j].
      * left. cbn in Hn. injection Hn as ->. rewrite Nat.add_0_r in Hv.
        rewrite Hv, Hs, Hne. cbn [andb]. subst. apply list_elem_of_singleton. reflexivity.
      * right. exists j, n', v. replace (S i + j)%nat with (i + S j)%nat by lia.
        repeat split; assumption.
Qed.

(** The guard [len(parts) > 8] changes nothing: [parts[8:]] of a shorter
    list is empty already. *)
Lemma values_cells (line : text) :
  (if (8 <? length (map strip (split "," line)))%nat
   then drop 8 (map strip (split "," line)) else [])
  = cells line.
Proof.
  unfold cells. destruct (8 <? length _)%nat eqn:H; [reflexivity|].
  apply Nat.ltb_ge in H. symmetry. apply drop_ge. exact H.
Qed.

Lemma skipped_line (line : text) :
  negb (nonempty line) || startswith line (str "#") = true ->
  is_header line = false /\ startswith line (str ",_result,") = false.
Proof.
  destruct line as [| c t]; [split; reflexivity|].
  cbn [nonempty negb orb]. intros H.
  change (startswith (c :: t) (str "#")) with (Ascii.eqb c "#" && true) in H.
  rewrite andb_true_r in H. apply Ascii.eqb_eq in H. subst c. split; reflexivity.
Qed.

(** The three cases of the loop body. *)
Lemma parse_line_cases (result : raw) (names : list text) (line : text) :
  parse_line (result, names) line
  = if is_header line then (result, List.filter nonempty (cells line))
    else if startswith line (str ",_result,") && negb (Nat.eqb (length names) 0)
    then (store_row 0 names (cells line) result, names)
    else (result, names).
Proof.
  unfold parse_line. rewrite values_cells. fold (is_header line). fold (cells line).
  destruct (negb (nonempty line) || startswith line (str "#")) eqn:Hs; [| reflexivity].
  destruct (skipped_line line Hs) as [-> ->]. reflexivity.
Qed.

(** ** The fold over the lines *)

Lemma fold_no_header (ls : list text) :
  Forall (fun l => is_header l = false) ls ->
  fold_left parse_line ls (∅, []) = (∅, []).
Proof.
  induction 1 as [| l ls Hl _ IH]; [reflexivity|].
  cbn [fold_left]. rewrite parse_line_cases, Hl. cbn [length Nat.eqb negb].
  rewrite andb_false_r. exact IH.
Qed.

Lemma updates_nil (i : nat) (names : list text) : updates i names [] = [].
Proof.
  revert i. induction names as [| n names IH]; intros i; [reflexivity|].
  cbn [updates]. rewrite (IH (S i)). reflexivity.
Qed.

Lemma parse_line_ineffective (st : raw * list text) (line : text) :
  ineffective line = true -> parse_line st line = st.
Proof.
  destruct st as [result names]. unfold ineffective. intros H.
  apply andb_true_iff in H as [Hh Hd]. apply negb_true_iff in Hh.
  rewrite parse_line_cases, Hh.
  destruct (startswith line (str ",_result,")); [| reflexivity].
  cbn [negb orb] in Hd. apply Nat.leb_le in Hd.
  destruct (negb (length names =? 0)%nat); [| reflexivity]. cbn [andb].
  unfold cells. rewrite drop_ge by (rewrite length_map; exact Hd).
  rewrite store_row_updates, updates_nil. reflexivity.
Qed.

Lemma fold_effective (ls : list text) (st : raw * list text) :
  fold_left parse_line ls st
  = fold_left parse_line (List.filter (fun l => negb (ineffective l)) ls) st.
Proof.
  revert st. induction ls as [| l ls IH]; intros st; [reflexivity|].
  cbn [fold_left List.filter]. destruct (ineffective l) eqn:Hl; cbn [negb].
  - rewrite (parse_line_ineffective _ _ Hl). apply IH.
  - cbn [fold_left]. apply IH.
Qed.

Lemma fold_all_ineffective (ls : list text) (st : raw * list text) :
  List.filter (fun l => negb (ineffective l)) ls = [] ->
  fold_left parse_line ls st = st.
Proof. intros H. rewrite fold_effective, H. reflexivity. Qed.

(** *** Where the entries come from *)

Lemma elem_of_rev {A} (x : A) (l : list A) : x ∈ rev l <-> x ∈ l.
Proof. rewrite !list_elem_of_In. symmetry. apply in_rev. Qed.

Lemma store_row_lookup (names values : list text) (result : raw) (k : string) (x : value) :
  store_row 0 names values result !! k = Some x ->
  (k, x) ∈ updates 0 names values \/ result !! k = Some x.
Proof.
  rewrite store_row_updates, fold_insert_union. intros H.
  apply lookup_union_Some_raw in H as [H | [_ H]]; [left | right; exact H].
  apply elem_of_list_to_map_2 in H. apply (proj1 (elem_of_rev _ _)) in H. exact H.
Qed.

Lemma from_cell_fold (lines rest : list text) (result : raw) (names : list text) :
  (forall l, l ∈ rest -> l ∈ lines) ->
  (forall k x, result !! k = Some x -> from_cell lines k x) ->
  (names = [] \/ exists hl, hl ∈ lines /\ is_header hl = true
                            /\ names = List.filter nonempty (cells hl)) ->
  forall k x, fst (fold_left parse_line rest (result, names)) !! k = Some x ->
              from_cell lines k x.
Proof.
  revert result names. induction rest as [| l rest IH]; intros result names Hin Hr Hn.
  - exact Hr.
  - cbn [fold_left]. rewrite parse_line_cases.
    assert (Hl : l ∈ lines) by (apply Hin; left).
    assert (Hin' : forall l', l' ∈ rest -> l' ∈ lines) by (intros l' H'; apply Hin; right; exact H').
    destruct (is_header l) eqn:Hh.
    + apply IH; [exact Hin' | exact Hr |]. right. exists l. repeat split; assumption.
    + destruct (startswith l (str ",_result,")) eqn:Hd; cbn [andb];
        [| apply IH; assumption].
      destruct (negb (length names =? 0)%nat); [| apply IH; assumption].
      apply IH; [exact Hin' | | exact Hn].
      intros k x Hk. apply store_row_lookup in Hk as [Hk | Hk]; [| apply Hr, Hk].
      apply elem_of_updates in Hk as (j & n & v & Hnj & Hvj & Hs & Hne & -> & ->).
      destruct Hn as [-> | (hl & Hhl & Hhh & ->)]; [discriminate|].
      exists hl, l, j, n, v. repeat split; assumption.
Qed.

Lemma parse_from_cell (csv_data : text) (k : string) (x : value) :
  EnpalDataFetcher._parse_csv_response csv_data !! k = Some x ->
  from_cell (lines_of csv_data) k x.
Proof.
  rewrite parse_by_lines.
  apply from_cell_fold; [auto | | left; reflexivity].
  intros k' x' H. rewrite lookup_empty in H. discriminate.
Qed.

(** *** Keys are kept *)

Lemma parse_line_keeps (st : raw * list text) (line : text) (k : string) :
  is_Some (fst st !! k) -> is_Some (fst (parse_line st line) !! k).
Proof.
  destruct st as [result names]. rewrite parse_line_cases. cbn [fst]. intros H.
  destruct (is_header line); [exact H|].
  destruct (_ && _); [| exact H]. cbn [fst].
  rewrite store_row_updates, fold_insert_union.
  apply lookup_union_is_Some. right. exact H.
Qed.

Lemma fold_keeps (ls : list text) (st : raw * list text) (k : string) :
  is_Some (fst st !! k) -> is_Some (fst (fold_left parse_line ls st) !! k).
Proof.
  revert st. induction ls as [| l ls IH]; intros st H; [exact H|].
  cbn [fold_left]. apply IH, parse_line_keeps, H.
Qed.

(** *** A later row overrides *)

Lemma updates_keys_covered (names : list text) (d1 d2 : text) (k : string) :
  covers d2 d1 ->
  k ∈ map fst (updates 0 names (cells d1)) ->
  k ∈ map fst (updates 0 names (cells d2)).
Proof.
  intros Hc Hk. apply list_elem_of_fmap in Hk as ([k' x] & -> & Hk). cbn [fst].
  apply elem_of_updates in Hk as (j & n & v1 & Hn & Hv1 & Hs1 & Hne & -> & ->).
  destruct (Hc j v1 Hv1 Hs1) as (v2 & Hv2 & Hs2).
  apply list_elem_of_fmap. exists (to_string n, coerce v2). split; [reflexivity|].
  apply elem_of_updates. exists j, n, v2. repeat split; assumption.
Qed.

Lemma store_row_override (names : list text) (d1 d2 : text) (result : raw) :
  covers d2 d1 ->
  store_row 0 names (cells d2) (store_row 0 names (cells d1) result)
  = store_row 0 names (cells d2) result.
Proof.
  intros Hc. rewrite !store_row_updates, !fold_insert_union.
  apply map_eq. intros k.
  destruct ((list_to_map (rev (updates 0 names (cells d2))) : raw) !! k) as [x |] eqn:H2.
  - rewrite !(lookup_union_Some_l _ _ _ _ H2). reflexivity.
  - rewrite !(lookup_union_r _ _ _ H2).
    apply lookup_union_r. apply not_elem_of_list_to_map_1.
    intros Hk. apply not_elem_of_list_to_map_2 in H2. apply H2.
    change (k ∈ map fst (rev (updates 0 names (cells d1)))) in Hk.
    change (k ∈ map fst (rev (updates 0 names (cells d2)))).
    rewrite map_rev, elem_of_rev in *.
    exact (updates_keys_covered names d1 d2 k Hc Hk).
Qed.

Lemma parse_line_override (st : raw * list text) (d1 d2 : text) :
  is_header d1 = false -> is_header d2 = false ->
  startswith d2 (str ",_result,") = true ->
  covers d2 d1 ->
  parse_line (parse_line st d1) d2 = parse_line st d2.
Proof.
  destruct st as [result names]. intros H1 H2 Hd2 Hc.
  rewrite (parse_line_cases result names d1), H1.
  destruct (startswith d1 (str ",_result,") && negb (length names =? 0)%nat) eqn:Hd1;
    [| reflexivity].
  rewrite !parse_line_cases, H2, Hd2.
  apply andb_true_iff in Hd1 as [_ Hn]. rewrite Hn. cbn [andb].
  rewrite (store_row_override names d1 d2 result Hc). reflexivity.
Qed.

(** ** The parser on a response *)

Lemma lines_of_response (crs : text) (ls : list text) (ws : text) :
  well_formed crs ls ws -> lines_of (response crs ls ws) = ls.
Proof.
  intros (Hcrs & Hls & Hws). unfold response. destruct ls as [| l ls].
  - apply lines_of_spaces. exact Hws.
  - apply lines_of_join_text; [assumption | assumption | discriminate | assumption].
Qed.

Lemma parse_response (crs : text) (ls : list text) (ws : text) :
  well_formed crs ls ws ->
  EnpalDataFetcher._parse_csv_response (response crs ls ws)
  = fst (fold_left parse_line ls (∅, [])).
Proof. intros H. rewrite parse_by_lines, (lines_of_response _ _ _ H). reflexivity. Qed.

Ltac same_parser :=
  change EnpalComprehensiveDataFetcher._parse_csv_response
    with EnpalDataFetcher._parse_csv_response in *.

Lemma parsers_agree (csv_data : text) :
  EnpalComprehensiveDataFetcher._parse_csv_response csv_data
  = EnpalDataFetcher._parse_csv_response csv_data.
Proof. rewrite parse_by_lines, parse_comprehensive_by_lines. reflexivity. Qed.

Lemma well_formed_filter (p : text -> bool) (crs : text) (ls : list text) (ws : text) :
  well_formed crs ls ws -> well_formed crs (List.filter p ls) ws.
Proof.
  intros (Hcrs & Hls & Hws). repeat split; try assumption.
  apply List.Forall_forall. intros l Hl. apply filter_In in Hl as [Hl _].
  revert l Hl. apply List.Forall_forall. exact Hls.
Qed.

Lemma well_formed_app_l (crs : text) (ls1 ls2 : list text) (ws : text) :
  well_formed crs (ls1 ++ ls2) ws -> well_formed crs ls1 ws.
Proof.
  intros (Hcrs & Hls & Hws). repeat split; try assumption.
  apply List.Forall_app in Hls as [H _]. exact H.
Qed.

Lemma to_string_nonempty (v : text) : nonempty v = true -> to_string v <> EmptyString.
Proof. destruct v; [discriminate | intros _; discriminate]. Qed.

Lemma storable_not_None (v : text) : storable v = true -> to_string v <> "None"%string.
Proof.
  unfold storable, text_eqb. intros H. apply andb_true_iff in H as [_ H].
  apply negb_true_iff in H. intros Heq. rewrite Heq in H. discriminate.
Qed.

(** X1: when the query failed, or its answer is empty or holds white
    space only, [get_latest_all_data] and [get_all_raw_data] return the
    empty map. *)
Theorem blank_response_empty_map (csv_response : option text) :
  (forall t, csv_response = Some t -> Forall (fun c => isspace c = true) t) ->
  get_latest_all_data csv_response = ∅ /\ get_all_raw_data csv_response = ∅.
Proof.
  intros H. destruct csv_response as [t |]; [| split; reflexivity].
  specialize (H t eq_refl). unfold get_latest_all_data, get_all_raw_data.
  destruct (nonempty t); [| split; reflexivity].
  same_parser. rewrite parse_by_lines, (lines_of_spaces t H). split; reflexivity.
Qed.

Lemma blank_response_empty_map_witness :
  get_latest_all_data (Some [" "%char; "013"%char; "010"%char; "009"%char]) = ∅
  /\ get_all_raw_data (Some [" "%char; "013"%char; "010"%char; "009"%char]) = ∅.
Proof.
  apply blank_response_empty_map. intros t Ht. injection Ht as <-.
  repeat constructor.
Defined.

(** X2: for lines that hold no line feed and begin and end with a
    character that is not white space, the parser sees exactly these
    lines, whether they are separated by a line feed or by carriage returns
    and a line feed, and whatever white space follows the last line; so the
    parsed map does not depend on the line terminators. *)
Theorem line_terminators_do_not_matter
    (ls : list text) (crs crs' ws ws' : text) :
  well_formed crs ls ws -> well_formed crs' ls ws' ->
  lines_of (response crs ls ws) = ls
  /\ EnpalDataFetcher._parse_csv_response (response crs ls ws)
     = EnpalDataFetcher._parse_csv_response (response crs' ls ws')
  /\ EnpalComprehensiveDataFetcher._parse_csv_response (response crs ls ws)
     = EnpalComprehensiveDataFetcher._parse_csv_response (response crs' ls ws').
Proof.
  intros H H'. split; [apply lines_of_response, H|].
  same_parser. rewrite !parse_response by assumption. split; reflexivity.
Qed.

Lemma line_terminators_do_not_matter_witness :
  EnpalDataFetcher._parse_csv_response
    (response ["013"%char] [sample_header; sample_row_2] ["013"%char; "010"%char])
  = EnpalDataFetcher._parse_csv_response
      (response [] [sample_header; sample_row_2] []).
Proof.
  apply (line_terminators_do_not_matter [sample_header; sample_row_2]);
    repeat split; repeat constructor.
Defined.

(** X3: a response none of whose lines begins with [,result,table,] is
    parsed to the empty map: data lines are skipped as long as no header
    line has named the fields. *)
Theorem no_header_no_fields (csv_data : text) :
  Forall (fun line => is_header line = false) (lines_of csv_data) ->
  EnpalDataFetcher._parse_csv_response csv_data = ∅
  /\ EnpalComprehensiveDataFetcher._parse_csv_response csv_data = ∅.
Proof.
  intros H. same_parser. rewrite parse_by_lines, (fold_no_header _ H).
  split; reflexivity.
Qed.

Lemma no_header_no_fields_witness :
  EnpalDataFetcher._parse_csv_response
    (response ["013"%char] [sample_annotation; sample_row_1; sample_row_2] []) = ∅.
Proof.
  apply no_header_no_fields. vm_compute. repeat constructor.
Defined.

(** X4: every entry of the parsed map comes from the response: its key
    is a non-empty name of a header line, at some position [j] among the
    non-empty names from position 8 on, and its value is the coerced cell
    at position [j] from position 8 on of a data line, a cell that is
    neither empty nor the text [None]. *)
Theorem entries_come_from_cells (csv_data : text) (k : string) (x : value) :
  EnpalDataFetcher._parse_csv_response csv_data !! k = Some x
  \/ EnpalComprehensiveDataFetcher._parse_csv_response csv_data !! k = Some x ->
  from_cell (lines_of csv_data) k x /\ k <> EmptyString.
Proof.
  intros H.
  assert (H' : EnpalDataFetcher._parse_csv_response csv_data !! k = Some x).
  { destruct H as [H | H]; exact H. }
  clear H. apply parse_from_cell in H'. split; [exact H'|].
  destruct H' as (hl & dl & j & n & v & _ & _ & _ & _ & _ & Hn & _ & _ & -> & _).
  apply list_elem_of_lookup_2 in Hn. apply list_elem_of_In, filter_In in Hn as [_ Hne].
  apply to_string_nonempty, Hne.
Qed.

Lemma entries_come_from_cells_witness :
  from_cell (lines_of sample_csv) "Power.Production.Total" (PyInt 1500)
  /\ "Power.Production.Total"%string <> EmptyString.
Proof.
  apply (entries_come_from_cells sample_csv). left. vm_compute. reflexivity.
Defined.

(** X5: every value of the parsed map is the coercion of a cell of the
    response: of a data line, from position 8 on, stripped, not empty and
    not the text [None].  An integer is [int] of this cell, which holds no
    [.]; a float is [float] of this cell, which holds a [.]; a string is
    this cell itself, on which the coercion failed, so that a stored string
    is never empty and never the text [None]. *)
Theorem stored_values_are_coerced_cells (csv_data : text) (k : string) (x : value) :
  EnpalDataFetcher._parse_csv_response csv_data !! k = Some x
  \/ EnpalComprehensiveDataFetcher._parse_csv_response csv_data !! k = Some x ->
  exists data_line v : text,
    data_line ∈ lines_of csv_data
    /\ is_header data_line = false
    /\ startswith data_line (str ",_result,") = true
    /\ v ∈ cells data_line
    /\ storable v = true
    /\ match x with
       | PyInt z => contains "." v = false /\ int_of_text v = Some z
       | PyFloat f => contains "." v = true /\ float_of_text v = Some f
       | PyStr s =>
           s = to_string v /\ s <> EmptyString /\ s <> "None"%string
           /\ (contains "." v = true /\ float_of_text v = None
               \/ contains "." v = false /\ int_of_text v = None)
       end.
Proof.
  intros H.
  assert (H' : EnpalDataFetcher._parse_csv_response csv_data !! k = Some x)
    by (destruct H as [H | H]; exact H).
  clear H. apply parse_from_cell in H'.
  destruct H' as (hl & dl & j & n & v & _ & _ & Hdl & Hnh & Hd & _ & Hv & Hs & _ & ->).
  exists dl, v. split; [exact Hdl|]. split; [exact Hnh|]. split; [exact Hd|].
  split; [exact (list_elem_of_lookup_2 _ _ _ Hv)|]. split; [exact Hs|].
  unfold coerce. destruct (contains "." v) eqn:Hdot.
  - destruct (float_of_text v) as [f |]; [split; reflexivity|].
    split; [reflexivity|].
    split; [apply to_string_nonempty, storable_nonempty, Hs|].
    split; [apply storable_not_None, Hs|]. left. split; reflexivity.
  - destruct (int_of_text v) as [z |]; [split; reflexivity|].
    split; [reflexivity|].
    split; [apply to_string_nonempty, storable_nonempty, Hs|].
    split; [apply storable_not_None, Hs|]. right. split; reflexivity.
Qed.

Lemma stored_values_are_coerced_cells_witness :
  exists data_line v : text,
    data_line ∈ lines_of garbled_csv
    /\ is_header data_line = false
    /\ startswith data_line (str ",_result,") = true
    /\ v ∈ cells data_line
    /\ storable v = true
    /\ "1.5.0"%string = to_string v /\ "1.5.0"%string <> EmptyString
    /\ "1.5.0"%string <> "None"%string
    /\ (contains "." v = true /\ float_of_text v = None
        \/ contains "." v = false /\ int_of_text v = None).
Proof.
  apply (stored_values_are_coerced_cells garbled_csv "Power.Production.Total"
           (PyStr "1.5.0")).
  left. vm_compute. reflexivity.
Defined.

(** X6: lines that are neither header lines nor data lines (comments,
    annotations, other texts), and data lines of at most 8 fields, have no
    effect: removing them from the response leaves the parsed map as it
    is. *)
Theorem ineffective_lines_are_skipped (crs : text) (ls : list text) (ws : text) :
  well_formed crs ls ws ->
  EnpalDataFetcher._parse_csv_response (response crs ls ws)
  = EnpalDataFetcher._parse_csv_response
      (response crs (List.filter (fun l => negb (ineffective l)) ls) ws)
  /\ EnpalComprehensiveDataFetcher._parse_csv_response (response crs ls ws)
     = EnpalComprehensiveDataFetcher._parse_csv_response
         (response crs (List.filter (fun l => negb (ineffective l)) ls) ws).
Proof.
  intros H. same_parser.
  rewrite (parse_response _ _ _ H), (parse_response _ _ _ (well_formed_filter _ _ _ _ H)).
  rewrite fold_effective. split; reflexivity.
Qed.

Lemma ineffective_lines_are_skipped_witness :
  EnpalDataFetcher._parse_csv_response
    (response ["013"%char]
       [sample_annotation; sample_header; str "#default,_result,,,,,,,,";
        str ",_result,0,a,b,c,d,e"; sample_row_2; str ",,1"] [])
  = EnpalDataFetcher._parse_csv_response
      (response ["013"%char] [sample_header; sample_row_2] []).
Proof.
  apply (ineffective_lines_are_skipped ["013"%char]
           [sample_annotation; sample_header; str "#default,_result,,,,,,,,";
            str ",_result,0,a,b,c,d,e"; sample_row_2; str ",,1"] []).
  repeat split; repeat constructor.
Defined.

(** X7: the parser never removes a field: a field parsed from the first
    lines of a response is still present when further lines follow. *)
Theorem further_lines_keep_fields
    (crs : text) (ls1 ls2 : list text) (ws : text) (k : string) :
  well_formed crs (ls1 ++ ls2) ws ->
  is_Some (EnpalDataFetcher._parse_csv_response (response crs ls1 ws) !! k) ->
  is_Some (EnpalDataFetcher._parse_csv_response (response crs (ls1 ++ ls2) ws) !! k).
Proof.
  intros H. rewrite (parse_response _ _ _ H), (parse_response _ _ _ (well_formed_app_l _ _ _ _ H)).
  rewrite fold_left_app. apply fold_keeps.
Qed.

Lemma further_lines_keep_fields_witness :
  is_Some (EnpalDataFetcher._parse_csv_response
             (response [] ([sample_header; sample_row_1]
                           ++ [str ",result,table,_start,_stop,_time,_measurement,device,Voltage.Battery";
                               str ",_result,1,a,b,c,d,e,52.1"]) [])
           !! "Power.Production.Total").
Proof.
  apply further_lines_keep_fields.
  - repeat split; repeat constructor.
  - vm_compute. eexists. reflexivity.
Defined.

(** X8: of two consecutive data lines the later one wins: when the
    second stores every cell that the first stores, the first can be left
    out; in particular a repeated data line changes nothing. *)
Theorem later_row_overrides
    (crs : text) (ls1 ls2 : list text) (d1 d2 : text) (ws : text) :
  well_formed crs (ls1 ++ d1 :: d2 :: ls2) ws ->
  is_header d1 = false -> is_header d2 = false ->
  startswith d2 (str ",_result,") = true ->
  covers d2 d1 ->
  EnpalDataFetcher._parse_csv_response (response crs (ls1 ++ d1 :: d2 :: ls2) ws)
  = EnpalDataFetcher._parse_csv_response (response crs (ls1 ++ d2 :: ls2) ws).
Proof.
  intros H H1 H2 Hd2 Hc.
  assert (H' : well_formed crs (ls1 ++ d2 :: ls2) ws).
  { destruct H as (Hcrs & Hls & Hws). repeat split; try assumption.
    apply List.Forall_app in Hls as [Ha Hb]. apply List.Forall_app. split; [exact Ha|].
    inversion Hb; assumption. }
  rewrite (parse_response _ _ _ H), (parse_response _ _ _ H').
  rewrite !fold_left_app. cbn [fold_left].
  rewrite (parse_line_override _ d1 d2 H1 H2 Hd2 Hc). reflexivity.
Qed.

Lemma later_row_overrides_witness :
  EnpalDataFetcher._parse_csv_response
    (response ["013"%char] ([sample_header] ++ [sample_row_1; sample_row_2]) [])
  = EnpalDataFetcher._parse_csv_response
      (response ["013"%char] ([sample_header] ++ [sample_row_2]) []).
Proof.
  apply later_row_overrides; try reflexivity.
  - repeat split; repeat constructor.
  - intros j v1 Hj Hs.
    destruct j as [| [| j]]; [eexists; split; reflexivity ..|].
    vm_compute in Hj. discriminate.
Defined.

(** ** The parser stores no NaN *)

Lemma binary_round_aux_number s m e l :
  0 <= m -> SF_number (binary_round_aux prec emax s m e l).
Proof.
  intros Hm. unfold binary_round_aux, SF_number.
  assert (Hstep : forall m0 e0 l0, 0 <= m0 ->
            0 <= shr_m (fst (shr_fexp prec emax m0 e0 l0))).
  { intros m0 e0 l0 Hm0. destruct (shr_fexp_spec m0 e0 l0 Hm0) as [H1 _].
    rewrite H1. apply Z.div_pos; [exact Hm0 | apply Z.pow_pos_nonneg; lia]. }
  pose proof (Hstep m e l Hm) as H1.
  destruct (shr_fexp prec emax m e l) as [mrs1 e1]. simpl in H1.
  pose proof (round_nearest_even_bounds (shr_m mrs1) (loc_of_shr_record mrs1)) as Hr.
  pose proof (Hstep (round_nearest_even (shr_m mrs1) (loc_of_shr_record mrs1)) e1 loc_Exact)
    as H3.
  destruct (shr_fexp prec emax _ e1 loc_Exact) as [mrs3 e3]. simpl in H3.
  destruct (shr_m mrs3) as [| p | p]; [discriminate | | lia].
  destruct (e3 <=? emax - prec); discriminate.
Qed.

Lemma binary_round_number s m e : SF_number (binary_round prec emax s m e).
Proof.
  unfold binary_round. destruct (shl_align m e _) as [mz ez].
  apply binary_round_aux_number. lia.
Qed.

Lemma binary_normalize_number z s : SF_number (binary_normalize prec emax z 0 s).
Proof.
  destruct z as [| p | p]; simpl binary_normalize;
    [discriminate | apply binary_round_number ..].
Qed.

Lemma SFdiv_number s1 m1 e1 s2 m2 e2 :
  SF_number (SF64div (S754_finite s1 m1 e1) (S754_finite s2 m2 e2)).
Proof.
  unfold SF64div, SFdiv.
  destruct (SFdiv_core_binary_spec (Zpos m1) e1 (Zpos m2) e2) as [l Hcore]; [lia | lia |].
  rewrite Hcore. apply binary_round_aux_number.
  apply Z.div_pos; [| lia].
  apply Z.mul_nonneg_nonneg; [lia | apply Z.pow_nonneg; lia].
Qed.

Lemma decimal_to_SF_number d e10 : SF_number (decimal_to_SF d e10).
Proof.
  unfold decimal_to_SF. destruct d as [| p | p]; try discriminate.
  destruct (0 <=? e10); [apply binary_normalize_number | apply SFdiv_number].
Qed.

Lemma SFldexp_number x e : SF_number x -> SF_number (SFldexp prec emax x e).
Proof.
  destruct x as [s | s | | s m e']; simpl; auto. intros _. apply binary_round_number.
Qed.

Lemma SFopp_number x : SF_number x -> SF_number (SFopp x).
Proof. destruct x; simpl; unfold SF_number; congruence. Qed.

Lemma SF2Prim_number x : SF_number x -> is_nan (SF2Prim x) = false.
Proof.
  intros Hx. unfold is_nan.
  assert (H : SF_number (Prim2SF (SF2Prim x))).
  { destruct x as [[] | [] | | s m e].
    - discriminate.
    - discriminate.
    - discriminate.
    - discriminate.
    - contradiction Hx; reflexivity.
    - unfold SF2Prim, Z.ldexp. cbv zeta.
      destruct s.
      + rewrite FloatAxioms.opp_spec, ldshiftexp_spec, of_uint63_spec.
        apply SFopp_number, SFldexp_number, binary_normalize_number.
      + rewrite ldshiftexp_spec, of_uint63_spec.
        apply SFldexp_number, binary_normalize_number. }
  unfold SF_number in H. destruct (Prim2SF (SF2Prim x)); congruence.
Qed.

Lemma contains_drop_while (c : ascii) (p : ascii -> bool) (t : text) :
  p c = false -> contains c (drop_while p t) = contains c t.
Proof.
  intros Hc. induction t as [| a t IH]; [reflexivity|].
  cbn [drop_while]. destruct (p a) eqn:Ha; [| reflexivity].
  rewrite IH. unfold contains. cbn [existsb].
  destruct (Ascii.eqb c a) eqn:E; [| reflexivity].
  apply Ascii.eqb_eq in E. subst a. congruence.
Qed.

Lemma contains_rev (c : ascii) (t : text) : contains c (rev t) = contains c t.
Proof.
  unfold contains. induction t as [| a t IH]; [reflexivity|].
  cbn [rev existsb]. rewrite existsb_app, IH. cbn [existsb].
  rewrite orb_false_r. apply orb_comm.
Qed.

Lemma contains_strip_number (c : ascii) (t : text) :
  isspace_number c = false -> contains c (strip_number t) = contains c t.
Proof.
  intros Hc. unfold strip_number.
  rewrite contains_rev, contains_drop_while, contains_rev, contains_drop_while by exact Hc.
  reflexivity.
Qed.

Lemma remove_underscores_contains (c prev : ascii) (t t' : text) :
  Ascii.eqb c "_" = false ->
  remove_underscores prev t = Some t' -> contains c t' = contains c t.
Proof.
  intros Hc. revert prev t'. induction t as [| a t IH]; intros prev t' H.
  - cbn [remove_underscores] in H. destruct (Ascii.eqb prev "_"); [discriminate|].
    injection H as <-. reflexivity.
  - cbn [remove_underscores] in H. destruct (Ascii.eqb a "_") eqn:Ha.
    + destruct (isdigit prev); [| discriminate].
      apply Ascii.eqb_eq in Ha. subst a. rewrite (IH _ _ H).
      unfold contains. cbn [existsb]. rewrite Hc. reflexivity.
    + destruct (Ascii.eqb prev "_" && negb (isdigit a)); [discriminate|].
      destruct (remove_underscores a t) as [r |] eqn:Hr; [| discriminate].
      injection H as <-. unfold contains. cbn [existsb].
      f_equal. exact (IH _ _ Hr).
Qed.

Lemma split_sign_contains (t : text) :
  contains "." (snd (split_sign t)) = contains "." t.
Proof.
  destruct t as [| a t]; [reflexivity|].
  destruct a as [[] [] [] [] [] [] [] []]; reflexivity.
Qed.

Lemma lower_contains_dot (t : text) :
  contains "." t = true -> contains "." (map lower t) = true.
Proof.
  unfold contains. induction t as [| a t IH]; [discriminate|].
  cbn [existsb map]. intros H. apply orb_true_iff in H as [H | H].
  - apply Ascii.eqb_eq in H. subst a. reflexivity.
  - rewrite (IH H). apply orb_true_r.
Qed.

Lemma to_string_eqb (t : text) (s : string) :
  String.eqb (to_string t) s = true -> t = str s.
Proof.
  intros H. apply String.eqb_eq in H. subst s. unfold str, to_string.
  symmetry. apply list_ascii_of_string_of_list_ascii.
Qed.

Lemma is_nan_opp (x : float) : is_nan (- x) = is_nan x.
Proof.
  unfold is_nan. rewrite FloatAxioms.opp_spec. destruct (Prim2SF x); reflexivity.
Qed.

(** [float(s)] of a text with a [.] in it is not NaN. *)
Lemma float_of_text_number (v : text) (x : float) :
  contains "." v = true -> float_of_text v = Some x -> is_nan x = false.
Proof.
  intros Hdot. unfold float_of_text.
  destruct (remove_underscores "000" (strip_number v)) as [t |] eqn:Ht; [| discriminate].
  cbn [mbind option_bind].
  pose proof (remove_underscores_contains "." _ _ _ eq_refl Ht) as Hct.
  rewrite contains_strip_number, Hdot in Hct by reflexivity.
  pose proof (split_sign_contains t) as Hcb. rewrite Hct in Hcb.
  destruct (split_sign t) as [neg body]. cbn [snd] in Hcb.
  assert (Hsigned : forall y, is_nan y = false ->
            is_nan (if neg then (- y)%float else y) = false).
  { intros y Hy. destruct neg; [rewrite is_nan_opp|]; exact Hy. }
  destruct (String.eqb _ "inf" || String.eqb _ "infinity").
  { intros H. injection H as <-. destruct neg; reflexivity. }
  destruct (String.eqb (to_string (map lower body)) "nan") eqn:Hnan.
  { apply to_string_eqb in Hnan. apply lower_contains_dot in Hcb.
    rewrite Hnan in Hcb. discriminate. }
  destruct (span_digits body) as [ip rest].
  destruct (match rest with "."%char :: r => span_digits r | _ => ([], rest) end)
    as [fp rest'].
  destruct (ip ++ fp) as [| d ds]; [discriminate|].
  destruct (exponent_of_text rest') as [e |]; [| discriminate].
  cbn [mbind option_bind]. intros H. injection H as <-.
  apply Hsigned, SF2Prim_number, decimal_to_SF_number.
Qed.

(** X20: a float that the parser stores is never NaN (it can be
    infinite): a cell is read as a float only when it holds a [.], and
    [float] reads no such text as NaN. *)
Theorem parser_stores_no_nan (csv_data : text) (k : string) (x : float) :
  EnpalDataFetcher._parse_csv_response csv_data !! k = Some (PyFloat x)
  \/ EnpalComprehensiveDataFetcher._parse_csv_response csv_data !! k = Some (PyFloat x) ->
  is_nan x = false.
Proof.
  intros H.
  assert (H' : EnpalDataFetcher._parse_csv_response csv_data !! k = Some (PyFloat x))
    by (destruct H as [H | H]; exact H).
  apply parse_from_cell in H'.
  destruct H' as (hl & dl & j & n & v & _ & _ & _ & _ & _ & _ & _ & _ & _ & Hx).
  unfold coerce in Hx. destruct (contains "." v) eqn:Hdot.
  - destruct (float_of_text v) as [f |] eqn:Hf; [| discriminate].
    injection Hx as ->. exact (float_of_text_number v f Hdot Hf).
  - destruct (int_of_text v); discriminate.
Qed.

Lemma parser_stores_no_nan_witness : is_nan infinity = false.
Proof.
  apply (parser_stores_no_nan overflow_csv "Power.DC.String.1" infinity).
  left. vm_compute. reflexivity.
Defined.

(* ================================================================== *)
(** * Further properties of the views *)
(* ================================================================== *)

(** ** The autarky rate is a percentage *)

Lemma SFltb_SFleb (x y : spec_float) : SFltb x y = true -> SFleb x y = true.
Proof.
  unfold SFltb, SFleb. destruct (SFcompare x y) as [[] |]; try discriminate; reflexivity.
Qed.

Lemma ltb_leb (x y : float) : (x <? y)%float = true -> (x <=? y)%float = true.
Proof.
  rewrite FloatAxioms.ltb_spec, FloatAxioms.leb_spec. apply SFltb_SFleb.
Qed.

(** Exact comparison with the integer 100 agrees with the comparison of
    floats. *)
Lemma float_cmp_int_100 (x : float) :
  float_cmp_int x 100 = Some Lt -> (x <=? 100)%float = true.
Proof.
  rewrite FloatAxioms.leb_spec, Prim2SF_100. unfold float_cmp_int.
  pose proof (Prim2SF_valid x) as V.
  destruct (Prim2SF x) as [s | s | | s m e] eqn:Hx; try discriminate.
  - reflexivity.
  - destruct s; [reflexivity | discriminate].
  - destruct s; [reflexivity|]. intros H.
    simpl in V. unfold SFleb.
    rewrite (SFcompare_finite_pos m e 7036874417766400 (-46) V eq_refl).
    destruct (bounded_spec _ _ V) as (He & _ & _).
    assert (Hcmp : forall zm : Z,
               (if 0 <=? e then zm * 2 ^ e ?= 100 else zm ?= 100 * 2 ^ (- e)) = Lt ->
               zm * 2 ^ (e + 1074) < 100 * 2 ^ 1074).
    { intros zm Hz. destruct (Z.leb_spec 0 e) as [Hpos | Hneg].
      - apply Z.compare_lt_iff in Hz.
        rewrite (Z.pow_add_r 2 e 1074) by lia.
        assert (0 < 2 ^ 1074) by (apply Z.pow_pos_nonneg; lia).
        rewrite Z.mul_assoc. apply Z.mul_lt_mono_pos_r; assumption.
      - apply Z.compare_lt_iff in Hz.
        assert (Hp : 0 < 2 ^ (e + 1074)) by (apply Z.pow_pos_nonneg; lia).
        assert (Hs : 2 ^ (- e) * 2 ^ (e + 1074) = 2 ^ 1074).
        { rewrite <- Z.pow_add_r by lia. f_equal. lia. }
        rewrite <- Hs. rewrite Z.mul_assoc. apply Z.mul_lt_mono_pos_r; assumption. }
    injection H as H. pose proof (Hcmp (Zpos m) H) as Hlt.
    change (7036874417766400 * 2 ^ (-46 + 1074)) with (100 * 2 ^ 1074).
    apply Z.compare_lt_iff in Hlt. rewrite Hlt. reflexivity.
Qed.

(** [max(0, min(100, r))] is between 0 and 100, whatever [r] is. *)
Lemma clamp_0_100 (r a b : value) :
  py_min (PyInt 100) r = Ok a -> py_max (PyInt 0) a = Ok b ->
  between_0_100 b = true.
Proof.
  unfold py_min. intros Ha Hb. apply bind_ok in Ha as (c & Hc & Ha). injection Ha as <-.
  destruct r as [zr | xr | sr]; [| | discriminate].
  - (* an integer below 100, or 100 itself *)
    assert (Hc' : (zr <? 100) = c) by (injection Hc as Hc; exact Hc).
    unfold py_max, py_gt in Hb.
    destruct c.
    + apply Z.ltb_lt in Hc'. simpl in Hb.
      destruct (Z.ltb_spec 0 zr); injection Hb as <-; simpl; lia.
    + simpl in Hb. injection Hb as <-. reflexivity.
  - (* a float below 100, or 100 itself *)
    assert (Hc' : match float_cmp_int xr 100 with Some Lt => true | _ => false end = c)
      by (injection Hc as Hc; exact Hc).
    destruct c.
    + unfold py_max in Hb. rewrite py_gt_zero in Hb. cbn [bind] in Hb.
      destruct (is_positive xr) eqn:Hp; injection Hb as <-; [| reflexivity].
      simpl. apply andb_true_iff. split; [apply ltb_leb, Hp | apply float_cmp_int_100].
      destruct (float_cmp_int xr 100) as [[] |]; try discriminate. reflexivity.
    + unfold py_max, py_gt in Hb. simpl in Hb. injection Hb as <-. reflexivity.
Qed.

(** X9: whenever the daily summary is returned, its [autarky_rate] lies
    between 0 and 100, whatever the raw values are (infinite and
    not-a-number values included). *)
Theorem autarky_rate_is_a_percentage (all_data : raw) (d : view) :
  get_daily_summary all_data = Ok d ->
  exists a, item d "autarky_rate" = Ok a /\ between_0_100 a = true.
Proof.
  intros H. destruct (get_daily_summary_inv _ _ H) as [_ Ha]. cbv zeta in Ha.
  unfold get_daily_summary in H. cbv zeta in H.
  bind_step H g Eg. bind_step H au Eau.
  pose proof (f_equal is_ok H) as Hok. rewrite is_ok_dict in Hok.
  cbn [forallb snd is_ok] in Hok.
  rewrite Eau in Ha. unfold max_, lift2, const in Ha, Hok. cbn [bind] in Ha, Hok.
  destruct (py_max (PyInt 0) au) as [b | e] eqn:Hb;
    [| cbn [is_ok] in Hok; rewrite !andb_false_r in Hok; discriminate].
  exists b. split; [exact Ha|].
  unfold daily_autarky in Eau. bind_step Eau c Ec. destruct c.
  - bind_step Eau selfc Eselfc. unfold min_, lift2, const in Eau. cbn [bind] in Eau.
    bind_step Eau r Er. exact (clamp_0_100 r au b Eau Hb).
  - injection Eau as <-. unfold py_max, py_gt in Hb. simpl in Hb. injection Hb as <-.
    reflexivity.
Qed.

(** ** A field that holds a string *)

Lemma holds_string_get (all_data : raw) (k : string) :
  holds_string all_data k = true ->
  exists s, forall d, get all_data k d = PyStr s.
Proof.
  unfold holds_string, get. destruct (all_data !! k) as [[z | x | s] |]; try discriminate.
  intros _. exists s. reflexivity.
Qed.

Lemma is_ok_bind_raise {A B} (e : result A) (k : A -> result B) :
  is_ok e = false -> is_ok (bind e k) = false.
Proof. destruct e; [discriminate | reflexivity]. Qed.

Lemma round_str (s : string) (n : Z) : is_ok (round_ (PyStr s) n) = false.
Proof. reflexivity. Qed.

Lemma kilo_str (s : string) : is_ok (PyStr s / PyInt 1000)%py = false.
Proof. reflexivity. Qed.

Lemma round_kilo_str (s : string) (n : Z) :
  is_ok (round_ (PyStr s / PyInt 1000)%py n) = false.
Proof. reflexivity. Qed.

Lemma sub_str_l (s : string) (b : expr) : is_ok (PyStr s - b)%py = false.
Proof. destruct b as [[] |]; reflexivity. Qed.

Lemma sub_str_r (a : expr) (s : string) : is_ok (a - PyStr s)%py = false.
Proof. destruct a as [[] |]; reflexivity. Qed.

Lemma gt_str (s : string) : is_ok (PyStr s > PyInt 0)%py = false.
Proof. reflexivity. Qed.

(** The mean of three values of which one is a string is not computed. *)
Lemma mean3_str (a b c : value) :
  (exists s, a = PyStr s) \/ (exists s, b = PyStr s) \/ (exists s, c = PyStr s) ->
  is_ok ((a + b + c) / PyInt 3)%py = false.
Proof.
  intros H. unfold lift2, const. cbn [bind].
  destruct (py_add a b) as [ab |] eqn:Hab; cbn [bind]; [| reflexivity].
  destruct (py_add ab c) as [abc |] eqn:Habc; cbn [bind]; [| reflexivity].
  destruct abc as [z | x | s]; [exfalso | exfalso | reflexivity].
  - destruct a as [za | xa | sa], b as [zb | xb | sb]; simpl in Hab;
      repeat match type of Hab with
             | bind (float_of_int ?z) _ = _ => destruct (float_of_int z); simpl in Hab
             end; try discriminate; injection Hab as <-;
      destruct c as [zc | xc | sc]; simpl in Habc;
      repeat match type of Habc with
             | bind (float_of_int ?z) _ = _ => destruct (float_of_int z); simpl in Habc
             end; try discriminate;
      destruct H as [[s Hs] | [[s Hs] | [s Hs]]]; discriminate.
  - destruct a as [za | xa | sa], b as [zb | xb | sb]; simpl in Hab;
      repeat match type of Hab with
             | bind (float_of_int ?z) _ = _ => destruct (float_of_int z); simpl in Hab
             end; try discriminate; injection Hab as <-;
      destruct c as [zc | xc | sc]; simpl in Habc;
      repeat match type of Habc with
             | bind (float_of_int ?z) _ = _ => destruct (float_of_int z); simpl in Habc
             end; try discriminate;
      destruct H as [[s Hs] | [[s Hs] | [s Hs]]]; discriminate.
Qed.

Ltac false_item :=
  repeat (first [rewrite round_str | rewrite round_kilo_str]);
  repeat (first [rewrite andb_false_l | rewrite andb_false_r]);
  reflexivity.

Ltac skip_binds :=
  repeat lazymatch goal with
         | |- is_ok (bind ?e _) = false =>
             first [ apply is_ok_bind_raise;
                     solve [ apply kilo_str | apply sub_str_l | apply sub_str_r
                           | apply gt_str
                           | apply mean3_str; eauto ]
                   | destruct e; cbn [bind]; [| reflexivity] ]
         end.

Ltac string_cases Hin Hs :=
  cbn in Hin;
  repeat (destruct Hin as [<- | Hin];
          [destruct (holds_string_get _ _ Hs) as [s Hg] |]);
  [.. | contradiction].

Lemma get_battery_data_str (all_data : raw) (k : string) :
  In k (map fst Defaults.battery) -> holds_string all_data k = true ->
  is_ok (get_battery_data all_data) = false.
Proof.
  intros Hin Hs. unfold get_battery_data. cbv zeta. rewrite is_ok_dict.
  cbn [forallb snd]. string_cases Hin Hs; rewrite !Hg; false_item.
Qed.

Lemma get_energy_flow_data_str (all_data : raw) (k : string) :
  In k (map fst Defaults.energy_flow) -> holds_string all_data k = true ->
  is_ok (get_energy_flow_data all_data) = false.
Proof.
  intros Hin Hs. unfold get_energy_flow_data.
  string_cases Hin Hs; rewrite !Hg; skip_binds.
Qed.

Lemma get_string_data_str (all_data : raw) (k : string) :
  In k (map fst Defaults.strings) -> holds_string all_data k = true ->
  is_ok (get_string_data all_data) = false.
Proof.
  intros Hin Hs. unfold get_string_data. cbv zeta.
  string_cases Hin Hs; rewrite !Hg; skip_binds;
    rewrite is_ok_dict; cbn [forallb snd]; false_item.
Qed.

Lemma get_system_health_data_str (all_data : raw) (k : string) :
  In k (map fst Defaults.system_health) -> holds_string all_data k = true ->
  is_ok (get_system_health_data all_data) = false.
Proof.
  intros Hin Hs. unfold get_system_health_data. cbv zeta.
  string_cases Hin Hs; rewrite !Hg; skip_binds;
    rewrite is_ok_dict; cbn [forallb snd]; false_item.
Qed.

Lemma get_daily_summary_str (all_data : raw) (k : string) :
  In k (map fst Defaults.daily) -> holds_string all_data k = true ->
  is_ok (get_daily_summary all_data) = false.
Proof.
  intros Hin Hs. unfold get_daily_summary, daily_autarky. cbv zeta.
  string_cases Hin Hs; rewrite !Hg; skip_binds;
    rewrite is_ok_dict; cbn [forallb snd]; false_item.
Qed.

Lemma round_mean3_str (a b c : value) (n : Z) :
  (exists s, a = PyStr s) \/ (exists s, b = PyStr s) \/ (exists s, c = PyStr s) ->
  is_ok (round_ ((a + b + c) / PyInt 3)%py n) = false.
Proof. intros H. unfold round_. apply is_ok_bind_raise, mean3_str, H. Qed.

Ltac false_item' :=
  repeat (first [rewrite round_str | rewrite round_kilo_str
                | rewrite round_mean3_str by eauto]);
  repeat (first [rewrite andb_false_l | rewrite andb_false_r]);
  reflexivity.

Lemma get_power_comprehensive_str (all_data : raw) (k : string) :
  In k (map fst Defaults.power) -> holds_string all_data k = true ->
  is_ok (get_power_comprehensive all_data) = false.
Proof.
  intros Hin Hs. unfold get_power_comprehensive. rewrite is_ok_dict.
  cbn [forallb snd]. string_cases Hin Hs; rewrite !Hg; false_item.
Qed.

Lemma get_voltage_comprehensive_str (all_data : raw) (k : string) :
  In k (map fst Defaults.voltage) -> holds_string all_data k = true ->
  is_ok (get_voltage_comprehensive all_data) = false.
Proof.
  intros Hin Hs. unfold get_voltage_comprehensive. rewrite is_ok_dict.
  cbn [forallb snd]. string_cases Hin Hs; rewrite !Hg; false_item'.
Qed.

Lemma get_current_comprehensive_str (all_data : raw) (k : string) :
  In k (map fst Defaults.current) -> holds_string all_data k = true ->
  is_ok (get_current_comprehensive all_data) = false.
Proof.
  intros Hin Hs. unfold get_current_comprehensive. rewrite is_ok_dict.
  cbn [forallb snd]. string_cases Hin Hs; rewrite !Hg; false_item.
Qed.

Lemma get_temperature_comprehensive_str (all_data : raw) (k : string) :
  In k (map fst Defaults.temperature) -> holds_string all_data k = true ->
  is_ok (get_temperature_comprehensive all_data) = false.
Proof.
  intros Hin Hs. unfold get_temperature_comprehensive. rewrite is_ok_dict.
  cbn [forallb snd]. string_cases Hin Hs; rewrite !Hg; false_item.
Qed.

(** X10: a source field that holds a string (a cell on which the numeric
    coercion failed) makes every view raise that rounds or divides this
    field: the five views of the dashboard and the power, voltage, current
    and temperature views. *)
Theorem string_field_makes_view_raise :
  Forall (fun fd : (raw -> result view) * list string =>
            forall (all_data : raw) (k : string),
              In k (snd fd) -> holds_string all_data k = true ->
              is_ok (fst fd all_data) = false)
         arithmetic_views.
Proof.
  unfold arithmetic_views.
  repeat (apply List.Forall_cons); try apply List.Forall_nil; cbn [fst snd].
  - exact get_energy_flow_data_str.
  - exact get_battery_data_str.
  - exact get_string_data_str.
  - exact get_system_health_data_str.
  - exact get_daily_summary_str.
  - exact get_power_comprehensive_str.
  - exact get_voltage_comprehensive_str.
  - exact get_current_comprehensive_str.
  - exact get_temperature_comprehensive_str.
Qed.

Lemma string_field_makes_view_raise_witness :
  is_ok (get_energy_flow_data (EnpalDataFetcher._parse_csv_response garbled_csv)) = false.
Proof.
  apply (List.Forall_inv string_field_makes_view_raise
           (EnpalDataFetcher._parse_csv_response garbled_csv) "Power.Production.Total").
  - left. reflexivity.
  - vm_compute. reflexivity.
Defined.

Lemma existsb_In (p : string -> bool) (l : list string) :
  existsb p l = true -> exists k, In k l /\ p k = true.
Proof. intros H. apply existsb_exists in H. exact H. Qed.

Lemma dashboard_data_str (r : responses) (now : Z) :
  string_in r = true -> is_ok (dashboard_data r now) = false.
Proof.
  unfold string_in. intros H.
  apply orb_true_iff in H as [H | H5];
    [apply orb_true_iff in H as [H | H4];
     [apply orb_true_iff in H as [H | H3];
      [apply orb_true_iff in H as [H | H] | rename H3 into H] | rename H4 into H]
    | rename H5 into H];
    apply existsb_In in H as (k & Hin & Hs); unfold dashboard_data.
  - apply is_ok_bind_raise. exact (get_energy_flow_data_str _ k Hin Hs).
  - destruct (get_energy_flow_data _); cbn [bind]; [| reflexivity].
    apply is_ok_bind_raise. exact (get_battery_data_str _ k Hin Hs).
  - destruct (get_energy_flow_data _); cbn [bind]; [| reflexivity].
    destruct (get_battery_data _); cbn [bind]; [| reflexivity].
    apply is_ok_bind_raise. exact (get_string_data_str _ k Hin Hs).
  - destruct (get_energy_flow_data _); cbn [bind]; [| reflexivity].
    destruct (get_battery_data _); cbn [bind]; [| reflexivity].
    destruct (get_string_data _); cbn [bind]; [| reflexivity].
    apply is_ok_bind_raise. exact (get_system_health_data_str _ k Hin Hs).
  - destruct (get_energy_flow_data _); cbn [bind]; [| reflexivity].
    destruct (get_battery_data _); cbn [bind]; [| reflexivity].
    destruct (get_string_data _); cbn [bind]; [| reflexivity].
    destruct (get_system_health_data _); cbn [bind]; [| reflexivity].
    apply is_ok_bind_raise. exact (get_daily_summary_str _ k Hin Hs).
Qed.

(** X11: when a source field of one of the five dashboard views holds a
    string in the answer to the query of that view,
    [get_complete_dashboard_data] returns the offline dictionary with its
    eight keys and empty sections, and the refresh of [EnpalAPIServer]
    leaves the cache and the time of the last update as they were. *)
Theorem string_field_keeps_the_cache
    (st : EnpalAPIServer.state) (c : EnpalAPIServer.cycle) :
  string_in (EnpalAPIServer.answers c) = true ->
  let new_data :=
    get_complete_dashboard_data (EnpalAPIServer.answers c) (EnpalAPIServer.t_data c) in
  EnpalAPIServer.status_online new_data = false
  /\ map fst new_data = ["timestamp"; "status"; "energy_flow"; "battery"; "strings";
                         "system"; "daily"; "calculated"]%string
  /\ (forall section, In section ["energy_flow"; "battery"; "strings"; "system";
                                  "daily"; "calculated"]%string ->
                      dict_get section new_data = Some (ODict []))
  /\ EnpalAPIServer._update_data st c = st.
Proof.
  intros H new_data.
  pose proof (dashboard_data_str _ (EnpalAPIServer.t_data c) H) as Hd.
  destruct (get_complete_dashboard_data_online (EnpalAPIServer.answers c)
              (EnpalAPIServer.t_data c)) as [_ Hon]. fold new_data in Hon.
  rewrite Hd in Hon.
  pose proof (update_data_cases st c) as Hup. cbv zeta in Hup. fold new_data in Hup.
  rewrite Hon in Hup.
  split; [exact Hon | split; [| split; [| exact Hup]]].
  - unfold new_data, get_complete_dashboard_data.
    destruct (dashboard_data _ _); [discriminate | reflexivity].
  - intros section Hin. unfold new_data, get_complete_dashboard_data.
    destruct (dashboard_data _ _); [discriminate|].
    cbn in Hin. repeat (destruct Hin as [<- | Hin]; [reflexivity|]). contradiction.
Qed.

Lemma string_field_keeps_the_cache_witness :
  EnpalAPIServer._update_data st_fresh garbled_cycle = st_fresh.
Proof.
  apply (string_field_keeps_the_cache st_fresh garbled_cycle). vm_compute. reflexivity.
Defined.

(** ** The derived battery metrics *)

(** X12: in the battery view [capacity_kwh] is
    [round(capacity_ah * voltage / 1000, 1)] when the capacity and the
    voltage are both non-zero and [available_kwh] is
    [round(soc * capacity_ah * voltage / 100000, 1)] when the charge level,
    the capacity and the voltage are all non-zero; each is the integer 0
    otherwise.  With a battery voltage that is absent or zero the three
    derived metrics [power_kw], [capacity_kwh] and [available_kwh] are
    all 0. *)
Theorem battery_metrics_need_voltage (all_data : raw) (d : view) :
  get_battery_comprehensive all_data = Ok d ->
  let soc := get all_data "Energy.Battery.Charge.Level" (PyInt 0) in
  let voltage := get all_data "Voltage.Battery" (PyInt 0) in
  let capacity_ah := get all_data "Energy.Battery.Ah" (PyInt 0) in
  item d "capacity_kwh"
  = (if truthy capacity_ah && truthy voltage
     then round_ (capacity_ah * voltage / PyInt 1000)%py 1
     else Ok (PyInt 0))
  /\ item d "available_kwh"
     = (if truthy soc && truthy capacity_ah && truthy voltage
        then round_ (soc * capacity_ah * voltage / PyInt 100000)%py 1
        else Ok (PyInt 0))
  /\ (truthy voltage = false ->
      item d "power_kw" = Ok (PyInt 0)
      /\ item d "capacity_kwh" = Ok (PyInt 0)
      /\ item d "available_kwh" = Ok (PyInt 0)).
Proof.
  intros H soc voltage capacity_ah.
  unfold get_battery_comprehensive in H. cbv zeta in H.
  fold soc voltage capacity_ah in H.
  rewrite !(dict_item _ _ _ H). cbn [literal_item String.eqb Ascii.eqb Bool.eqb].
  unfold battery_power_kw, battery_capacity_kwh, battery_available_kwh, if_else.
  cbn [bind forallb]. rewrite andb_true_r, andb_assoc.
  split; [reflexivity | split; [reflexivity|]].
  intros ->. rewrite !andb_false_r. cbn [andb]. repeat split; reflexivity.
Qed.

Lemma battery_metrics_need_voltage_witness :
  exists d, get_battery_comprehensive raw_v0_c5 = Ok d
            /\ item d "capacity_kwh" = Ok (PyInt 0)
            /\ item d "available_kwh" = Ok (PyInt 0).
Proof.
  destruct (get_battery_comprehensive raw_v0_c5) as [d | e] eqn:Hd;
    [| vm_compute in Hd; discriminate].
  exists d. split; [reflexivity|].
  destruct (battery_metrics_need_voltage raw_v0_c5 d Hd) as (_ & _ & H0).
  destruct (H0 eq_refl) as (_ & H1 & H2). split; assumption.
Defined.

(** ** The calculated section of the dashboard *)

#[warnings="-inexact-float"]
Lemma dashboard_data_inv (r : responses) (now : Z) (d : pydict) :
  dashboard_data r now = Ok d ->
  exists (battery strings : view) (tsp balance capacity : value),
    get_battery_data (get_latest_all_data (r_battery r)) = Ok battery
    /\ get_string_data (get_latest_all_data (r_strings r)) = Ok strings
    /\ round_ (item strings "string1_power" + item strings "string2_power")%py 2 = Ok tsp
    /\ item strings "balance_percentage" = Ok balance
    /\ if_else (round_ (item battery "capacity_ah" * item battery "voltage"
                        / PyInt 1000)%py 1)
               (item battery "voltage" > PyInt 0)%py
               (PyFloat 12.4) = Ok capacity
    /\ calculated d "total_string_power" = Some (OVal tsp)
    /\ calculated d "string_balance" = Some (OVal balance)
    /\ calculated d "battery_capacity_kwh" = Some (OVal capacity).
Proof.
  unfold dashboard_data. intros H.
  bind_step H ef Eef. bind_step H battery Eb. bind_step H strings Es.
  bind_step H system Esy. bind_step H daily Ed. cbv zeta in H.
  bind_step H tsp Et. bind_step H balance Ebal. bind_step H capacity Ec.
  injection H as <-.
  exists battery, strings, tsp, balance, capacity.
  repeat split; assumption || reflexivity.
Qed.

(** X13: the calculated battery capacity of the dashboard is the fixed
    12.4 whenever the battery voltage, rounded to one decimal, is not
    greater than 0 (for instance absent, zero, negative or 0.04), and
    [round(capacity_ah * voltage / 1000, 1)] of the rounded capacity and
    voltage otherwise. *)
#[warnings="-inexact-float"]
Theorem battery_capacity_fallback (r : responses) (now : Z) (d : pydict) :
  dashboard_data r now = Ok d ->
  let all_data := get_latest_all_data (r_battery r) in
  let voltage := round_ (get all_data "Voltage.Battery" (PyInt 0)) 1 in
  let capacity_ah := round_ (get all_data "Energy.Battery.Ah" (PyInt 0)) 1 in
  ((voltage > PyInt 0)%py = Ok false ->
   calculated d "battery_capacity_kwh" = Some (OVal (PyFloat 12.4)))
  /\ ((voltage > PyInt 0)%py = Ok true ->
      exists x, round_ (capacity_ah * voltage / PyInt 1000)%py 1 = Ok x
                /\ calculated d "battery_capacity_kwh" = Some (OVal x)).
Proof.
  intros H all_data voltage capacity_ah.
  destruct (dashboard_data_inv r now d H)
    as (battery & strings & tsp & balance & capacity & Eb & _ & _ & _ & Ec & _ & _ & Hc).
  fold all_data in Eb. unfold get_battery_data in Eb. cbv zeta in Eb.
  rewrite !(dict_item _ _ _ Eb) in Ec.
  cbn [literal_item String.eqb Ascii.eqb Bool.eqb] in Ec.
  fold voltage capacity_ah in Ec. unfold if_else in Ec.
  split; intros Hv; rewrite Hv in Ec; cbn [bind] in Ec.
  - injection Ec as <-. exact Hc.
  - exists capacity. split; [exact Ec | exact Hc].
Qed.

#[warnings="-inexact-float"]
Lemma battery_capacity_fallback_witness :
  exists d,
    dashboard_data {| r_energy_flow := None; r_battery := Some low_voltage_csv;
                      r_strings := None; r_system := None; r_daily := None |} 7 = Ok d
    /\ calculated d "battery_capacity_kwh" = Some (OVal (PyFloat 12.4)).
Proof.
  destruct (dashboard_data _ 7) as [d | e] eqn:Hd; [| vm_compute in Hd; discriminate].
  exists d. split; [reflexivity|].
  apply (proj1 (battery_capacity_fallback _ 7 d Hd)). vm_compute. reflexivity.
Defined.

(** ** The keys of the views *)






Lemma autarky_rate_is_a_percentage_witness :
  exists d a, get_daily_summary raw_third = Ok d
              /\ item d "autarky_rate" = Ok a /\ between_0_100 a = true.
Proof.
  destruct (get_daily_summary raw_third) as [d | e] eqn:Hd;
    [| vm_compute in Hd; discriminate].
  destruct (autarky_rate_is_a_percentage raw_third d Hd) as (a & Ha & Hr).
  exists d, a. split; [reflexivity | split; assumption].
Defined.

(** ** A view reads its own fields only *)

Lemma get_agree (a b : raw) (k : string) (d : value) :
  a !! k = b !! k -> get a k d = get b k d.
Proof. unfold get. intros ->. reflexivity. Qed.

Ltac in_list := cbn; repeat (first [left; reflexivity | right]).

Ltac same_fields a b H :=
  repeat match goal with
         | |- context [get a ?k ?d] =>
             rewrite (get_agree a b k d) by (apply H; in_list)
         end;
  reflexivity.

(** X21: a category function reads its own source fields only: on two raw
    maps that agree on these fields it returns the same result, whatever
    else the maps hold. *)
Theorem views_read_their_fields_only :
  Forall (fun fd : (raw -> result view) * list (string * value) =>
            forall a b : raw,
              (forall k, In k (map fst (snd fd)) -> a !! k = b !! k) ->
              fst fd a = fst fd b)
         category_functions.
Proof.
  unfold category_functions.
  repeat (apply List.Forall_cons); try apply List.Forall_nil; cbn [fst snd];
    intros a b H;
    cbv beta delta [get_energy_flow_data get_battery_data get_string_data
      get_system_health_data get_daily_summary get_power_comprehensive
      get_energy_comprehensive get_voltage_comprehensive get_current_comprehensive
      get_temperature_comprehensive get_battery_comprehensive];
    same_fields a b H.
Qed.

Lemma views_read_their_fields_only_witness :
  get_daily_summary raw_third
  = get_daily_summary (<["Power.Production.Total" := PyStr "n/a"]> raw_third).
Proof.
  apply (List.Forall_inv (List.Forall_inv_tail (List.Forall_inv_tail
           (List.Forall_inv_tail (List.Forall_inv_tail views_read_their_fields_only))))).
  intros k Hk. cbn in Hk.
  repeat (destruct Hk as [<- | Hk]; [reflexivity|]). contradiction.
Defined.

(* ================================================================== *)
(** * Further properties of the servers *)
(* ================================================================== *)

Lemma update_data_online (st : EnpalAPIServer.state) (c : EnpalAPIServer.cycle) :
  EnpalAPIServer._update_data st c = if online c then published st c else st.
Proof. exact (update_data_cases st c). Qed.

Lemma update_interval_kept (cycles : list EnpalAPIServer.cycle) (st : EnpalAPIServer.state) :
  EnpalAPIServer.update_interval (EnpalAPIServer._background_update cycles st)
  = EnpalAPIServer.update_interval st.
Proof.
  unfold EnpalAPIServer._background_update. revert st.
  induction cycles as [| c cycles IH]; intros st; [reflexivity|].
  cbn [fold_left]. rewrite IH, update_data_online. destruct (online c); reflexivity.
Qed.

Lemma background_update_last_online
    (cycles : list EnpalAPIServer.cycle) (st : EnpalAPIServer.state) :
  EnpalAPIServer._background_update cycles st
  = match last_such online cycles with
    | Some c => published st c
    | None => st
    end.
Proof.
  unfold last_such. induction cycles as [| c cycles IH] using rev_ind; [reflexivity|].
  unfold EnpalAPIServer._background_update in *. rewrite fold_left_app. cbn [fold_left].
  rewrite rev_app_distr. cbn [rev app find]. rewrite update_data_online.
  destruct (online c) eqn:Hc; [| exact IH].
  unfold published. f_equal.
  exact (update_interval_kept cycles st).
Qed.

Lemma published_healthy (st : EnpalAPIServer.state) (c : EnpalAPIServer.cycle) :
  fst (EnpalAPIServer.api_health (published st c)) = true.
Proof.
  unfold EnpalAPIServer.api_health, published.
  cbn [EnpalAPIServer.cached_data EnpalAPIServer.last_update fst].
  destruct (get_complete_dashboard_data_online (EnpalAPIServer.answers c)
              (EnpalAPIServer.t_data c)) as [Ht _].
  rewrite Ht. reflexivity.
Qed.

Lemma last_such_existsb {A} (p : A -> bool) (l : list A) :
  existsb p l = match last_such p l with Some _ => true | None => false end.
Proof.
  unfold last_such. induction l as [| a l IH] using rev_ind; [reflexivity|].
  rewrite existsb_app, rev_app_distr. cbn [existsb rev app find].
  rewrite orb_false_r. destruct (p a); [apply orb_true_r|].
  rewrite orb_false_r. exact IH.
Qed.

Lemma last_such_holds {A} (p : A -> bool) (l : list A) (a : A) :
  last_such p l = Some a -> p a = true /\ In a l.
Proof.
  unfold last_such. intros H. apply find_some in H as [Hin Hp].
  split; [exact Hp | apply in_rev, Hin].
Qed.

(** X15: after any sequence of refresh cycles [EnpalAPIServer] holds the
    snapshot and the time of the last cycle whose snapshot was online,
    and is unchanged when there was none; [update_interval] is never
    changed. *)
Theorem cache_holds_last_online_snapshot
    (cycles : list EnpalAPIServer.cycle) (st : EnpalAPIServer.state) :
  EnpalAPIServer._background_update cycles st
  = match last_such online cycles with
    | Some c => published st c
    | None => st
    end
  /\ (forall c, last_such online cycles = Some c -> online c = true /\ In c cycles)
  /\ (last_such online cycles = None -> Forall (fun c => online c = false) cycles).
Proof.
  split; [exact (background_update_last_online cycles st) | split].
  - intros c. apply last_such_holds.
  - intros H. pose proof (last_such_existsb online cycles) as He. rewrite H in He.
    apply List.Forall_forall. intros c Hc.
    destruct (online c) eqn:Hon; [| reflexivity].
    assert (existsb online cycles = true) by (apply existsb_exists; eauto).
    congruence.
Qed.

Lemma cache_holds_last_online_snapshot_witness :
  EnpalAPIServer._background_update [failed_cycle; garbled_cycle] st_fresh
  = published st_fresh failed_cycle.
Proof.
  pose proof (proj1 (cache_holds_last_online_snapshot [failed_cycle; garbled_cycle] st_fresh))
    as H.
  exact H.
Defined.

(** X16: started from [__init__], [EnpalAPIServer] is healthy exactly
    when one of the refresh cycles so far was online, and its cache is
    empty exactly when it has no time of last update. *)
Theorem healthy_once_published (cycles : list EnpalAPIServer.cycle) :
  let st := EnpalAPIServer._background_update cycles EnpalAPIServer.init in
  fst (EnpalAPIServer.api_health st) = existsb online cycles
  /\ (EnpalAPIServer.cached_data st = [] <-> EnpalAPIServer.last_update st = None).
Proof.
  cbv zeta. rewrite background_update_last_online, last_such_existsb.
  destruct (last_such online cycles) as [c |] eqn:Hc.
  - split; [apply published_healthy|].
    pose proof (published_healthy EnpalAPIServer.init c) as H.
    unfold EnpalAPIServer.api_health, published in *.
    cbn [EnpalAPIServer.cached_data EnpalAPIServer.last_update fst] in *.
    destruct (get_complete_dashboard_data _ _); [discriminate|].
    split; discriminate.
  - split; [reflexivity | split; reflexivity].
Qed.

Lemma healthy_once_published_witness :
  fst (EnpalAPIServer.api_health
         (EnpalAPIServer._background_update [garbled_cycle; failed_cycle; garbled_cycle]
            EnpalAPIServer.init)) = true.
Proof.
  exact (proj1 (healthy_once_published [garbled_cycle; failed_cycle; garbled_cycle])).
Defined.

(** X17: [/api/data] answers with the cache; it refreshes first when the
    cache is empty and leaves a filled cache alone, and it answers with the
    empty dictionary exactly when the cache was empty and the refresh on
    demand was not online. *)
Theorem api_data_fills_an_empty_cache
    (st : EnpalAPIServer.state) (c : EnpalAPIServer.cycle) :
  let st' := fst (EnpalAPIServer.api_data st c) in
  let body := snd (EnpalAPIServer.api_data st c) in
  body = EnpalAPIServer.cached_data st'
  /\ (EnpalAPIServer.cached_data st <> [] -> st' = st)
  /\ (EnpalAPIServer.cached_data st = [] ->
      st' = EnpalAPIServer._update_data st c)
  /\ (body = [] <-> EnpalAPIServer.cached_data st = [] /\ online c = false).
Proof.
  cbv zeta. unfold EnpalAPIServer.api_data. cbn [fst snd obj_truthy].
  split; [reflexivity|].
  destruct (EnpalAPIServer.cached_data st) as [| kv d] eqn:Hcd; cbn [negb].
  - split; [intros H; contradiction | split; [reflexivity|]].
    rewrite update_data_online. destruct (online c) eqn:Hc.
    + unfold published. cbn [EnpalAPIServer.cached_data].
      destruct (get_complete_dashboard_data_online (EnpalAPIServer.answers c)
                  (EnpalAPIServer.t_data c)) as [Ht _].
      destruct (get_complete_dashboard_data _ _); [discriminate|].
      split; [discriminate | intros [_ H]; discriminate].
    + rewrite Hcd. split; [intros _; split; reflexivity | reflexivity].
  - split; [reflexivity | split; [discriminate|]].
    rewrite Hcd. split; [discriminate | intros [H _]; discriminate].
Qed.

Lemma api_data_fills_an_empty_cache_witness :
  fst (EnpalAPIServer.api_data st_fresh failed_cycle) = st_fresh.
Proof.
  apply (proj1 (proj2 (api_data_fills_an_empty_cache st_fresh failed_cycle))).
  vm_compute. discriminate.
Defined.

Lemma comprehensive_update (st : EnpalComprehensiveAPIServer.state)
                           (c : EnpalComprehensiveAPIServer.cycle) :
  EnpalComprehensiveAPIServer.cached_data (EnpalComprehensiveAPIServer._update_data st c)
  = EnpalComprehensiveAPIServer.cached_data
      (EnpalComprehensiveAPIServer._update_data EnpalComprehensiveAPIServer.init c)
  /\ EnpalComprehensiveAPIServer.last_update (EnpalComprehensiveAPIServer._update_data st c)
     = (if built c then Some (EnpalComprehensiveAPIServer.t_update c)
        else EnpalComprehensiveAPIServer.last_update st)
  /\ map fst (EnpalComprehensiveAPIServer.cached_data
                (EnpalComprehensiveAPIServer._update_data st c))
     = ["timestamp"; "metadata"; "power"; "energy"; "voltage"; "current";
        "temperature"; "battery"; "raw_data"]%string.
Proof.
  unfold EnpalComprehensiveAPIServer._update_data, built.
  destruct (EnpalComprehensiveAPIServer.snapshot c) as [d | e] eqn:Hs;
    cbn [EnpalComprehensiveAPIServer.cached_data EnpalComprehensiveAPIServer.last_update is_ok];
    repeat split.
  unfold EnpalComprehensiveAPIServer.snapshot in Hs. cbv zeta in Hs.
  repeat (apply bind_ok in Hs; destruct Hs as (? & _ & Hs)).
  injection Hs as <-. reflexivity.
Qed.

Lemma comprehensive_last_update
    (cycles : list EnpalComprehensiveAPIServer.cycle)
    (st : EnpalComprehensiveAPIServer.state) :
  EnpalComprehensiveAPIServer.last_update
    (EnpalComprehensiveAPIServer._background_update cycles st)
  = match last_such built cycles with
    | Some c => Some (EnpalComprehensiveAPIServer.t_update c)
    | None => EnpalComprehensiveAPIServer.last_update st
    end.
Proof.
  unfold last_such. induction cycles as [| c cycles IH] using rev_ind; [reflexivity|].
  unfold EnpalComprehensiveAPIServer._background_update in *.
  rewrite fold_left_app. cbn [fold_left]. rewrite rev_app_distr. cbn [rev app find].
  destruct (comprehensive_update (fold_left EnpalComprehensiveAPIServer._update_data cycles st) c)
    as (_ & -> & _).
  destruct (built c); [reflexivity | exact IH].
Qed.

(** X18: the cache of [EnpalComprehensiveAPIServer] depends on the last
    refresh cycle only: whatever was cached before is replaced, by the
    snapshot or by the offline placeholder, both with the same nine keys;
    the time of the last update is that of the last cycle whose snapshot
    was built. *)
Theorem comprehensive_cache_is_replaced
    (cycles : list EnpalComprehensiveAPIServer.cycle)
    (c : EnpalComprehensiveAPIServer.cycle)
    (st : EnpalComprehensiveAPIServer.state) :
  let st' := EnpalComprehensiveAPIServer._background_update (cycles ++ [c]) st in
  EnpalComprehensiveAPIServer.cached_data st'
  = EnpalComprehensiveAPIServer.cached_data
      (EnpalComprehensiveAPIServer._update_data EnpalComprehensiveAPIServer.init c)
  /\ map fst (EnpalComprehensiveAPIServer.cached_data st')
     = ["timestamp"; "metadata"; "power"; "energy"; "voltage"; "current";
        "temperature"; "battery"; "raw_data"]%string
  /\ EnpalComprehensiveAPIServer.last_update st'
     = match last_such built (cycles ++ [c]) with
       | Some c' => Some (EnpalComprehensiveAPIServer.t_update c')
       | None => EnpalComprehensiveAPIServer.last_update st
       end.
Proof.
  cbv zeta. split; [| split].
  - unfold EnpalComprehensiveAPIServer._background_update. rewrite fold_left_app.
    cbn [fold_left]. apply comprehensive_update.
  - unfold EnpalComprehensiveAPIServer._background_update. rewrite fold_left_app.
    cbn [fold_left]. apply comprehensive_update.
  - apply comprehensive_last_update.
Qed.

(** X19: once [EnpalComprehensiveAPIServer] has run a refresh,
    [cached_data_available] of [/api/status] is true also when the
    refresh failed, [total_fields_captured] is the number of fields parsed
    from the answer to the raw-data query of the last refresh when its
    snapshot was built and 0 when it was not, and [/api/comprehensive]
    serves the cache without refreshing; before the first refresh nothing
    is available and the count is 0. *)
Theorem comprehensive_status_after_refresh
    (cycles : list EnpalComprehensiveAPIServer.cycle)
    (c : EnpalComprehensiveAPIServer.cycle)
    (st : EnpalComprehensiveAPIServer.state) :
  let st' := EnpalComprehensiveAPIServer._background_update (cycles ++ [c]) st in
  EnpalComprehensiveAPIServer.cached_data_available st' = true
  /\ EnpalComprehensiveAPIServer.total_fields_captured st'
     = Some (if built c
             then size (get_all_raw_data (EnpalComprehensiveAPIServer.r_raw c))
             else 0%nat)
  /\ (forall c', snd (EnpalComprehensiveAPIServer.api_comprehensive st' c')
                 = EnpalComprehensiveAPIServer.cached_data st'
                 /\ fst (EnpalComprehensiveAPIServer.api_comprehensive st' c') = st')
  /\ EnpalComprehensiveAPIServer.cached_data_available EnpalComprehensiveAPIServer.init = false
  /\ EnpalComprehensiveAPIServer.total_fields_captured EnpalComprehensiveAPIServer.init = Some 0%nat.
Proof.
  cbv zeta. unfold EnpalComprehensiveAPIServer._background_update.
  rewrite fold_left_app. cbn [fold_left].
  set (st0 := fold_left EnpalComprehensiveAPIServer._update_data cycles st).
  unfold EnpalComprehensiveAPIServer.cached_data_available, EnpalComprehensiveAPIServer.total_fields_captured, EnpalComprehensiveAPIServer.api_comprehensive, built.
  unfold EnpalComprehensiveAPIServer._update_data.
  destruct (EnpalComprehensiveAPIServer.snapshot c) as [d | e] eqn:Hs;
    cbn [EnpalComprehensiveAPIServer.cached_data is_ok].
  - unfold EnpalComprehensiveAPIServer.snapshot in Hs. cbv zeta in Hs.
    repeat (apply bind_ok in Hs; destruct Hs as (? & _ & Hs)).
    injection Hs as <-. cbn [obj_truthy negb fst snd].
    repeat split. cbn [dict_get String.eqb Ascii.eqb Bool.eqb of_raw].
    rewrite length_map, length_map_to_list. reflexivity.
  - repeat split.
Qed.

Lemma comprehensive_cache_is_replaced_witness :
  dict_get "raw_data"
    (EnpalComprehensiveAPIServer.cached_data
       (EnpalComprehensiveAPIServer._background_update
          ([sample_cycle] ++ [garbled_comprehensive_cycle])
          EnpalComprehensiveAPIServer.init)) = Some (ODict [])
  /\ EnpalComprehensiveAPIServer.last_update
       (EnpalComprehensiveAPIServer._background_update
          ([sample_cycle] ++ [garbled_comprehensive_cycle])
          EnpalComprehensiveAPIServer.init) = Some 102.
Proof.
  destruct (comprehensive_cache_is_replaced [sample_cycle] garbled_comprehensive_cycle
              EnpalComprehensiveAPIServer.init) as (H1 & _ & H3).
  split; [rewrite H1 | rewrite H3]; reflexivity.
Defined.

Lemma comprehensive_status_after_refresh_witness :
  EnpalComprehensiveAPIServer.total_fields_captured
    (EnpalComprehensiveAPIServer._background_update
       ([] ++ [sample_cycle]) EnpalComprehensiveAPIServer.init) = Some 2%nat.
Proof.
  destruct (comprehensive_status_after_refresh [] sample_cycle
              EnpalComprehensiveAPIServer.init) as (_ & H & _).
  rewrite H. reflexivity.
Defined.
